(** * honggfuzz input mangling routines (mangle.c): a shallow embedding

    The buffer of a run is its backing store [dynamicFile] (a byte array of
    capacity [maxFileSz]) together with the logical length [dynamicFileSz].
    Bytes are integers, C integer arithmetic is written with its wrap-around,
    and the random number generator is a tape of 64-bit draws that the
    operators consume in the order in which the C code calls it. *)

From Stdlib Require Import ZArith List Lia Bool.
From Stdlib Require DecimalPos.
Import ListNotations.
Local Open Scope Z_scope.

(** ** Machine integers *)

Module Int.

(** An unsigned integer of [w] bits. *)
Definition wrap (w x : Z) : Z := x mod 2 ^ w.

(** A signed (two's complement) integer of [w] bits. *)
Definition swrap (w x : Z) : Z := (x + 2 ^ (w - 1)) mod 2 ^ w - 2 ^ (w - 1).

Definition uint8_t : Z -> Z := wrap 8.
Definition uint64_t : Z -> Z := wrap 64.
Definition size_t : Z -> Z := wrap 64.
Definition ssize_t : Z -> Z := swrap 64.
Definition int : Z -> Z := swrap 32.

Definition SIZE_MAX : Z := 2 ^ 64 - 1.
Definition SSIZE_MAX : Z := 2 ^ 63 - 1.
Definition UINT8_MAX : Z := 255.

(** The bytes of a [w]-byte integer in memory, on a little-endian host. *)
Fixpoint to_bytes (w : nat) (x : Z) : list Z :=
  match w with
  | O => []
  | S w' => x mod 256 :: to_bytes w' (x / 256)
  end.

(** The unsigned integer stored in a sequence of bytes (little endian). *)
Fixpoint of_bytes (bs : list Z) : Z :=
  match bs with
  | [] => 0
  | b :: bs' => b + 256 * of_bytes bs'
  end.

(** [__builtin_bswap16/32/64] on the [w]-byte pattern of [x]. *)
Definition bswap (w : nat) (x : Z) : Z :=
  of_bytes (rev (to_bytes w (wrap (8 * Z.of_nat w) x))).

End Int.
Import Int.

(** ** The random number generator

    The generator lives outside the run; here it is a tape of draws. *)

Definition rng : Type := list Z.

Definition Rnd (A : Type) : Type := rng -> A * rng.

Definition ret {A : Type} (a : A) : Rnd A := fun t => (a, t).

Definition bind {A B : Type} (m : Rnd A) (k : A -> Rnd B) : Rnd B :=
  fun t => k (fst (m t)) (snd (m t)).

Notation "x <- m ;; k" := (bind m (fun x => k))
  (at level 61, m at next level, right associativity).

(** Modelled from the spec: [util_rnd64] of libhfcommon/util.c is missing;
    the spec has [rng.rnd64() -> uint64], uniform over the full range.  The
    next draw of the tape, as a 64-bit value; an exhausted tape draws 0. *)
Definition util_rnd64 : Rnd Z :=
  fun t => match t with
           | [] => (0, [])
           | x :: t' => (uint64_t x, t')
           end.

(** Modelled from the spec: [util_rndGet] of libhfcommon/util.c is missing;
    the spec has [rng.rnd(lo, hi) -> uint64], inclusive.  One draw, reduced
    to the interval. *)
Definition util_rndGet (min max : Z) : Rnd Z :=
  r <- util_rnd64 ;;
  ret (r mod (max - min + 1) + min).

(** Modelled from the spec: [util_rndPrintable] of libhfcommon/util.c is
    missing; the spec has [rng.rndPrintable() -> uint8] in [0x20, 0x7E]. *)
Definition util_rndPrintable : Rnd Z := util_rndGet 32 126.

(** Modelled from the spec: [util_rndBuf] of libhfcommon/util.c is missing;
    the spec has [rng.rndBuf(dst, len)], which fills [len] bytes.  The
    bytes it produces, one draw each. *)
Fixpoint rndBuf_n (n : nat) : Rnd (list Z) :=
  match n with
  | O => ret []
  | S n' => b <- util_rndGet 0 UINT8_MAX ;;
            bs <- rndBuf_n n' ;;
            ret (b :: bs)
  end.

Definition util_rndBuf (len : Z) : Rnd (list Z) := rndBuf_n (Z.to_nat len).

(** Modelled from the spec: [util_rndBufPrintable] of libhfcommon/util.c is
    missing; the spec has [rng.rndBufPrintable(dst, len)]. *)
Fixpoint rndBufPrintable_n (n : nat) : Rnd (list Z) :=
  match n with
  | O => ret []
  | S n' => b <- util_rndPrintable ;;
            bs <- rndBufPrintable_n n' ;;
            ret (b :: bs)
  end.

Definition util_rndBufPrintable (len : Z) : Rnd (list Z) :=
  rndBufPrintable_n (Z.to_nat len).

(** Modelled from the spec: [util_turnToPrintable] of libhfcommon/util.c is
    missing; the spec has: for each byte [b], if [b < 0x20 || b > 0x7E],
    replace it with [b mod 95 + 0x20]. *)
Definition turnToPrintable_byte (b : Z) : Z :=
  if (b <? 32) || (b >? 126) then b mod 95 + 32 else b.

Definition util_turnToPrintable (bytes : list Z) : list Z :=
  map turnToPrintable_byte bytes.

(** ** Memory *)

(** [memwrite buf off src] stores the bytes [src] at offset [off] of the
    array [buf].  The array keeps its length: a store beyond its end, which
    is undefined in C, is dropped. *)
Fixpoint memwrite (buf : list Z) (off : nat) (src : list Z) : list Z :=
  match buf with
  | [] => []
  | b :: buf' =>
      match off with
      | S off' => b :: memwrite buf' off' src
      | O => match src with
             | [] => buf
             | x :: src' => x :: memwrite buf' O src'
             end
      end
  end.

(** The [len] bytes at offset [off] (fewer where the array ends). *)
Definition memread (buf : list Z) (off len : nat) : list Z :=
  firstn len (skipn off buf).

(** [dynamicFile[off]]; a load beyond the array, undefined in C, gives 0. *)
Definition load (buf : list Z) (off : Z) : Z := nth (Z.to_nat off) buf 0.

(** [memmove(&buf[dst], &buf[src], len)]: the source bytes are read before
    any is written. *)
Definition memmove (buf : list Z) (dst src len : Z) : list Z :=
  memwrite buf (Z.to_nat dst) (memread buf (Z.to_nat src) (Z.to_nat len)).

(** [memmove(&buf[dst], src, len)] from an array [src] outside the buffer. *)
Definition memmove_in (buf : list Z) (dst : Z) (src : list Z) (len : Z) : list Z :=
  memwrite buf (Z.to_nat dst) (firstn (Z.to_nat len) src).

(** [memset(&buf[off], val, len)]: the value is converted to a byte. *)
Definition memset (buf : list Z) (off val len : Z) : list Z :=
  memwrite buf (Z.to_nat off) (repeat (uint8_t val) (Z.to_nat len)).

(** ** The run and its globals *)

(** [struct strings_t]: a dictionary entry, the bytes [s] it points to;
    its field [len] is their number. *)
Record strings_t : Type := mk_strings {
  s : list Z
}.

Definition len (str : strings_t) : Z := Z.of_nat (length (s str)).

Record mutate_t : Type := mk_mutate {
  maxFileSz : Z;
  dictionaryCnt : Z;
  dictq : list strings_t;
  mutate_mutationsPerRun : Z
}.

Record cfg_t : Type := mk_cfg {
  only_printable : bool
}.

Record honggfuzz_t : Type := mk_honggfuzz {
  mutate : mutate_t;
  cfg : cfg_t
}.

Record run_t : Type := mk_run {
  global : honggfuzz_t;
  dynamicFile : list Z;
  dynamicFileSz : Z;
  mutationsPerRun : Z
}.

(** A store to [run->dynamicFile]. *)
Definition set_dynamicFile (run : run_t) (buf : list Z) : run_t :=
  {| global := global run;
     dynamicFile := buf;
     dynamicFileSz := dynamicFileSz run;
     mutationsPerRun := mutationsPerRun run |}.

(** Modelled from the spec: [input_setSize] of input.c is missing; the spec
    has [input.setSize(ctx, newSize)], which adjusts the logical size: the
    bytes below the smaller of the two sizes are kept, and the bytes of a
    grown region are left undefined.  Here the backing store is kept as it
    is, so a byte of the grown region is the byte the store held there; the
    properties of printable mode assume nothing of the store at the size or
    beyond. *)
Definition input_setSize (run : run_t) (sz : Z) : run_t :=
  {| global := global run;
     dynamicFile := dynamicFile run;
     dynamicFileSz := sz;
     mutationsPerRun := mutationsPerRun run |}.

(** [TAILQ_FIRST] followed by [choice] times [TAILQ_NEXT].  Walking off the
    queue dereferences NULL in C; the model then has the empty entry. *)
Definition dict_entry (q : list strings_t) (choice : Z) : strings_t :=
  nth (Z.to_nat choice) q (mk_strings []).

(** ** Buffer primitives *)

Definition mangle_Overwrite (run : run_t) (src : list Z) (off sz : Z) : run_t :=
  let maxToCopy := size_t (dynamicFileSz run - off) in
  let sz := if sz >? maxToCopy then maxToCopy else sz in
  set_dynamicFile run (memmove_in (dynamicFile run) off src sz).

Definition mangle_Move (run : run_t) (off_from off_to len : Z) : run_t :=
  if off_from >=? dynamicFileSz run then run
  else if off_to >=? dynamicFileSz run then run
  else
    let len_from := ssize_t (dynamicFileSz run - off_from - 1) in
    let len_to := ssize_t (dynamicFileSz run - off_to - 1) in
    let len := if ssize_t len >? len_from then size_t len_from else len in
    let len := if ssize_t len >? len_to then size_t len_to else len in
    set_dynamicFile run (memmove (dynamicFile run) off_to off_from len).

(** [util_rndBuf(&run->dynamicFile[off], len)] and its printable variant. *)
Definition rndBuf_at (run : run_t) (off len : Z) (printable : bool) : Rnd run_t :=
  bytes <- (if printable then util_rndBufPrintable len else util_rndBuf len) ;;
  ret (set_dynamicFile run (memwrite (dynamicFile run) (Z.to_nat off) bytes)).

(** [util_turnToPrintable(&run->dynamicFile[off], len)]. *)
Definition turnToPrintable_at (run : run_t) (off len : Z) : run_t :=
  set_dynamicFile run
    (memwrite (dynamicFile run) (Z.to_nat off)
       (util_turnToPrintable
          (memread (dynamicFile run) (Z.to_nat off) (Z.to_nat len)))).

(** [run->dynamicFile[off] = v]. *)
Definition store (run : run_t) (off v : Z) : run_t :=
  set_dynamicFile run (memwrite (dynamicFile run) (Z.to_nat off) [v]).

Definition mangle_Inflate (run : run_t) (off len : Z) (printable : bool)
  : Rnd run_t :=
  if dynamicFileSz run >=? maxFileSz (mutate (global run)) then ret run
  else
    let len :=
      if len >? size_t (maxFileSz (mutate (global run)) - dynamicFileSz run)
      then size_t (maxFileSz (mutate (global run)) - dynamicFileSz run)
      else len in
    let run := input_setSize run (size_t (dynamicFileSz run + len)) in
    let run := mangle_Move run off (size_t (off + len)) (dynamicFileSz run) in
    rndBuf_at run off len printable.

(** ** The mutation operators *)

Definition mangle_MemMove (run : run_t) (printable : bool) : Rnd run_t :=
  off_from <- util_rndGet 0 (size_t (dynamicFileSz run - 1)) ;;
  off_to <- util_rndGet 0 (size_t (dynamicFileSz run - 1)) ;;
  len <- util_rndGet 0 (dynamicFileSz run) ;;
  ret (mangle_Move run off_from off_to len).

Definition mangle_Bytes (run : run_t) (printable : bool) : Rnd run_t :=
  off <- util_rndGet 0 (size_t (dynamicFileSz run - 1)) ;;
  buf <- (if printable then util_rndBufPrintable 8 else util_rndBuf 8) ;;
  toCopy <- util_rndGet 1 8 ;;
  ret (mangle_Overwrite run buf off toCopy).

Definition mangle_Bit (run : run_t) (printable : bool) : Rnd run_t :=
  off <- util_rndGet 0 (size_t (dynamicFileSz run - 1)) ;;
  bit <- util_rndGet 0 7 ;;
  let run :=
    store run off
      (Z.lxor (load (dynamicFile run) off) (uint8_t (Z.shiftl 1 bit))) in
  ret (if printable then turnToPrintable_at run off 1 else run).

Definition mangle_DictionaryInsertNoCheck (run : run_t) (printable : bool)
  : Rnd run_t :=
  choice <- util_rndGet 0 (uint64_t (dictionaryCnt (mutate (global run)) - 1)) ;;
  let str := dict_entry (dictq (mutate (global run))) choice in
  off <- util_rndGet 0 (size_t (dynamicFileSz run - 1)) ;;
  run <- mangle_Inflate run off (len str) printable ;;
  ret (mangle_Overwrite run (s str) off (len str)).

Definition mangle_DictionaryInsert (run : run_t) (printable : bool)
  : Rnd run_t :=
  if dictionaryCnt (mutate (global run)) =? 0 then mangle_Bit run printable
  else mangle_DictionaryInsertNoCheck run printable.

Definition mangle_DictionaryNoCheck (run : run_t) : Rnd run_t :=
  off <- util_rndGet 0 (size_t (dynamicFileSz run - 1)) ;;
  choice <- util_rndGet 0 (uint64_t (dictionaryCnt (mutate (global run)) - 1)) ;;
  let str := dict_entry (dictq (mutate (global run))) choice in
  ret (mangle_Overwrite run (s str) off (len str)).

Definition mangle_Dictionary (run : run_t) (printable : bool) : Rnd run_t :=
  if dictionaryCnt (mutate (global run)) =? 0 then mangle_Bit run printable
  else mangle_DictionaryNoCheck run.

(** An entry of the table of magic values: [val[8]] and [size]. *)
Record magic_t : Type := magic {
  val : list Z;
  size : Z
}.

Definition mangleMagicVals : list magic_t := [
  (* 1B - No endianness *)
  magic [0x00; 0x00; 0x00; 0x00; 0x00; 0x00; 0x00; 0x00] 1;
  magic [0x01; 0x00; 0x00; 0x00; 0x00; 0x00; 0x00; 0x00] 1;
  magic [0x02; 0x00; 0x00; 0x00; 0x00; 0x00; 0x00; 0x00] 1;
  magic [0x03; 0x00; 0x00; 0x00; 0x00; 0x00; 0x00; 0x00] 1;
  magic [0x04; 0x00; 0x00; 0x00; 0x00; 0x00; 0x00; 0x00] 1;
  magic [0x05; 0x00; 0x00; 0x00; 0x00; 0x00; 0x00; 0x00] 1;
  magic [0x06; 0x00; 0x00; 0x00; 0x00; 0x00; 0x00; 0x00] 1;
  magic [0x07; 0x00; 0x00; 0x00; 0x00; 0x00; 0x00; 0x00] 1;
  magic [0x08; 0x00; 0x00; 0x00; 0x00; 0x00; 0x00; 0x00] 1;
  magic [0x09; 0x00; 0x00; 0x00; 0x00; 0x00; 0x00; 0x00] 1;
  magic [0x0A; 0x00; 0x00; 0x00; 0x00; 0x00; 0x00; 0x00] 1;
  magic [0x0B; 0x00; 0x00; 0x00; 0x00; 0x00; 0x00; 0x00] 1;
  magic [0x0C; 0x00; 0x00; 0x00; 0x00; 0x00; 0x00; 0x00] 1;
  magic [0x0D; 0x00; 0x00; 0x00; 0x00; 0x00; 0x00; 0x00] 1;
  magic [0x0E; 0x00; 0x00; 0x00; 0x00; 0x00; 0x00; 0x00] 1;
  magic [0x0F; 0x00; 0x00; 0x00; 0x00; 0x00; 0x00; 0x00] 1;
  magic [0x10; 0x00; 0x00; 0x00; 0x00; 0x00; 0x00; 0x00] 1;
  magic [0x20; 0x00; 0x00; 0x00; 0x00; 0x00; 0x00; 0x00] 1;
  magic [0x40; 0x00; 0x00; 0x00; 0x00; 0x00; 0x00; 0x00] 1;
  magic [0x7E; 0x00; 0x00; 0x00; 0x00; 0x00; 0x00; 0x00] 1;
  magic [0x7F; 0x00; 0x00; 0x00; 0x00; 0x00; 0x00; 0x00] 1;
  magic [0x80; 0x00; 0x00; 0x00; 0x00; 0x00; 0x00; 0x00] 1;
  magic [0x81; 0x00; 0x00; 0x00; 0x00; 0x00; 0x00; 0x00] 1;
  magic [0xC0; 0x00; 0x00; 0x00; 0x00; 0x00; 0x00; 0x00] 1;
  magic [0xFE; 0x00; 0x00; 0x00; 0x00; 0x00; 0x00; 0x00] 1;
  magic [0xFF; 0x00; 0x00; 0x00; 0x00; 0x00; 0x00; 0x00] 1;
  (* 2B - NE *)
  magic [0x00; 0x00; 0x00; 0x00; 0x00; 0x00; 0x00; 0x00] 2;
  magic [0x01; 0x01; 0x00; 0x00; 0x00; 0x00; 0x00; 0x00] 2;
  magic [0x80; 0x80; 0x00; 0x00; 0x00; 0x00; 0x00; 0x00] 2;
  magic [0xFF; 0xFF; 0x00; 0x00; 0x00; 0x00; 0x00; 0x00] 2;
  (* 2B - BE *)
  magic [0x00; 0x01; 0x00; 0x00; 0x00; 0x00; 0x00; 0x00] 2;
  magic [0x00; 0x02; 0x00; 0x00; 0x00; 0x00; 0x00; 0x00] 2;
  magic [0x00; 0x03; 0x00; 0x00; 0x00; 0x00; 0x00; 0x00] 2;
  magic [0x00; 0x04; 0x00; 0x00; 0x00; 0x00; 0x00; 0x00] 2;
  magic [0x00; 0x05; 0x00; 0x00; 0x00; 0x00; 0x00; 0x00] 2;
  magic [0x00; 0x06; 0x00; 0x00; 0x00; 0x00; 0x00; 0x00] 2;
  magic [0x00; 0x07; 0x00; 0x00; 0x00; 0x00; 0x00; 0x00] 2;
  magic [0x00; 0x08; 0x00; 0x00; 0x00; 0x00; 0x00; 0x00] 2;
  magic [0x00; 0x09; 0x00; 0x00; 0x00; 0x00; 0x00; 0x00] 2;
  magic [0x00; 0x0A; 0x00; 0x00; 0x00; 0x00; 0x00; 0x00] 2;
  magic [0x00; 0x0B; 0x00; 0x00; 0x00; 0x00; 0x00; 0x00] 2;
  magic [0x00; 0x0C; 0x00; 0x00; 0x00; 0x00; 0x00; 0x00] 2;
  magic [0x00; 0x0D; 0x00; 0x00; 0x00; 0x00; 0x00; 0x00] 2;
  magic [0x00; 0x0E; 0x00; 0x00; 0x00; 0x00; 0x00; 0x00] 2;
  magic [0x00; 0x0F; 0x00; 0x00; 0x00; 0x00; 0x00; 0x00] 2;
  magic [0x00; 0x10; 0x00; 0x00; 0x00; 0x00; 0x00; 0x00] 2;
  magic [0x00; 0x20; 0x00; 0x00; 0x00; 0x00; 0x00; 0x00] 2;
  magic [0x00; 0x40; 0x00; 0x00; 0x00; 0x00; 0x00; 0x00] 2;
  magic [0x00; 0x7E; 0x00; 0x00; 0x00; 0x00; 0x00; 0x00] 2;
  magic [0x00; 0x7F; 0x00; 0x00; 0x00; 0x00; 0x00; 0x00] 2;
  magic [0x00; 0x80; 0x00; 0x00; 0x00; 0x00; 0x00; 0x00] 2;
  magic [0x00; 0x81; 0x00; 0x00; 0x00; 0x00; 0x00; 0x00] 2;
  magic [0x00; 0xC0; 0x00; 0x00; 0x00; 0x00; 0x00; 0x00] 2;
  magic [0x00; 0xFE; 0x00; 0x00; 0x00; 0x00; 0x00; 0x00] 2;
  magic [0x00; 0xFF; 0x00; 0x00; 0x00; 0x00; 0x00; 0x00] 2;
  magic [0x7E; 0xFF; 0x00; 0x00; 0x00; 0x00; 0x00; 0x00] 2;
  magic [0x7F; 0xFF; 0x00; 0x00; 0x00; 0x00; 0x00; 0x00] 2;
  magic [0x80; 0x00; 0x00; 0x00; 0x00; 0x00; 0x00; 0x00] 2;
  magic [0x80; 0x01; 0x00; 0x00; 0x00; 0x00; 0x00; 0x00] 2;
  magic [0xFF; 0xFE; 0x00; 0x00; 0x00; 0x00; 0x00; 0x00] 2;
  (* 2B - LE *)
  magic [0x00; 0x00; 0x00; 0x00; 0x00; 0x00; 0x00; 0x00] 2;
  magic [0x01; 0x00; 0x00; 0x00; 0x00; 0x00; 0x00; 0x00] 2;
  magic [0x02; 0x00; 0x00; 0x00; 0x00; 0x00; 0x00; 0x00] 2;
  magic [0x03; 0x00; 0x00; 0x00; 0x00; 0x00; 0x00; 0x00] 2;
  magic [0x04; 0x00; 0x00; 0x00; 0x00; 0x00; 0x00; 0x00] 2;
  magic [0x05; 0x00; 0x00; 0x00; 0x00; 0x00; 0x00; 0x00] 2;
  magic [0x06; 0x00; 0x00; 0x00; 0x00; 0x00; 0x00; 0x00] 2;
  magic [0x07; 0x00; 0x00; 0x00; 0x00; 0x00; 0x00; 0x00] 2;
  magic [0x08; 0x00; 0x00; 0x00; 0x00; 0x00; 0x00; 0x00] 2;
  magic [0x09; 0x00; 0x00; 0x00; 0x00; 0x00; 0x00; 0x00] 2;
  magic [0x0A; 0x00; 0x00; 0x00; 0x00; 0x00; 0x00; 0x00] 2;
  magic [0x0B; 0x00; 0x00; 0x00; 0x00; 0x00; 0x00; 0x00] 2;
  magic [0x0C; 0x00; 0x00; 0x00; 0x00; 0x00; 0x00; 0x00] 2;
  magic [0x0D; 0x00; 0x00; 0x00; 0x00; 0x00; 0x00; 0x00] 2;
  magic [0x0E; 0x00; 0x00; 0x00; 0x00; 0x00; 0x00; 0x00] 2;
  magic [0x0F; 0x00; 0x00; 0x00; 0x00; 0x00; 0x00; 0x00] 2;
  magic [0x10; 0x00; 0x00; 0x00; 0x00; 0x00; 0x00; 0x00] 2;
  magic [0x20; 0x00; 0x00; 0x00; 0x00; 0x00; 0x00; 0x00] 2;
  magic [0x40; 0x00; 0x00; 0x00; 0x00; 0x00; 0x00; 0x00] 2;
  magic [0x7E; 0x00; 0x00; 0x00; 0x00; 0x00; 0x00; 0x00] 2;
  magic [0x7F; 0x00; 0x00; 0x00; 0x00; 0x00; 0x00; 0x00] 2;
  magic [0x80; 0x00; 0x00; 0x00; 0x00; 0x00; 0x00; 0x00] 2;
  magic [0x81; 0x00; 0x00; 0x00; 0x00; 0x00; 0x00; 0x00] 2;
  magic [0xC0; 0x00; 0x00; 0x00; 0x00; 0x00; 0x00; 0x00] 2;
  magic [0xFE; 0x00; 0x00; 0x00; 0x00; 0x00; 0x00; 0x00] 2;
  magic [0xFF; 0x00; 0x00; 0x00; 0x00; 0x00; 0x00; 0x00] 2;
  magic [0xFF; 0x7E; 0x00; 0x00; 0x00; 0x00; 0x00; 0x00] 2;
  magic [0xFF; 0x7F; 0x00; 0x00; 0x00; 0x00; 0x00; 0x00] 2;
  magic [0x00; 0x80; 0x00; 0x00; 0x00; 0x00; 0x00; 0x00] 2;
  magic [0x01; 0x80; 0x00; 0x00; 0x00; 0x00; 0x00; 0x00] 2;
  magic [0xFE; 0xFF; 0x00; 0x00; 0x00; 0x00; 0x00; 0x00] 2;
  (* 4B - NE *)
  magic [0x00; 0x00; 0x00; 0x00; 0x00; 0x00; 0x00; 0x00] 4;
  magic [0x01; 0x01; 0x01; 0x01; 0x00; 0x00; 0x00; 0x00] 4;
  magic [0x80; 0x80; 0x80; 0x80; 0x00; 0x00; 0x00; 0x00] 4;
  magic [0xFF; 0xFF; 0xFF; 0xFF; 0x00; 0x00; 0x00; 0x00] 4;
  (* 4B - BE *)
  magic [0x00; 0x00; 0x00; 0x01; 0x00; 0x00; 0x00; 0x00] 4;
  magic [0x00; 0x00; 0x00; 0x02; 0x00; 0x00; 0x00; 0x00] 4;
  magic [0x00; 0x00; 0x00; 0x03; 0x00; 0x00; 0x00; 0x00] 4;
  magic [0x00; 0x00; 0x00; 0x04; 0x00; 0x00; 0x00; 0x00] 4;
  magic [0x00; 0x00; 0x00; 0x05; 0x00; 0x00; 0x00; 0x00] 4;
  magic [0x00; 0x00; 0x00; 0x06; 0x00; 0x00; 0x00; 0x00] 4;
  magic [0x00; 0x00; 0x00; 0x07; 0x00; 0x00; 0x00; 0x00] 4;
  magic [0x00; 0x00; 0x00; 0x08; 0x00; 0x00; 0x00; 0x00] 4;
  magic [0x00; 0x00; 0x00; 0x09; 0x00; 0x00; 0x00; 0x00] 4;
  magic [0x00; 0x00; 0x00; 0x0A; 0x00; 0x00; 0x00; 0x00] 4;
  magic [0x00; 0x00; 0x00; 0x0B; 0x00; 0x00; 0x00; 0x00] 4;
  magic [0x00; 0x00; 0x00; 0x0C; 0x00; 0x00; 0x00; 0x00] 4;
  magic [0x00; 0x00; 0x00; 0x0D; 0x00; 0x00; 0x00; 0x00] 4;
  magic [0x00; 0x00; 0x00; 0x0E; 0x00; 0x00; 0x00; 0x00] 4;
  magic [0x00; 0x00; 0x00; 0x0F; 0x00; 0x00; 0x00; 0x00] 4;
  magic [0x00; 0x00; 0x00; 0x10; 0x00; 0x00; 0x00; 0x00] 4;
  magic [0x00; 0x00; 0x00; 0x20; 0x00; 0x00; 0x00; 0x00] 4;
  magic [0x00; 0x00; 0x00; 0x40; 0x00; 0x00; 0x00; 0x00] 4;
  magic [0x00; 0x00; 0x00; 0x7E; 0x00; 0x00; 0x00; 0x00] 4;
  magic [0x00; 0x00; 0x00; 0x7F; 0x00; 0x00; 0x00; 0x00] 4;
  magic [0x00; 0x00; 0x00; 0x80; 0x00; 0x00; 0x00; 0x00] 4;
  magic [0x00; 0x00; 0x00; 0x81; 0x00; 0x00; 0x00; 0x00] 4;
  magic [0x00; 0x00; 0x00; 0xC0; 0x00; 0x00; 0x00; 0x00] 4;
  magic [0x00; 0x00; 0x00; 0xFE; 0x00; 0x00; 0x00; 0x00] 4;
  magic [0x00; 0x00; 0x00; 0xFF; 0x00; 0x00; 0x00; 0x00] 4;
  magic [0x7E; 0xFF; 0xFF; 0xFF; 0x00; 0x00; 0x00; 0x00] 4;
  magic [0x7F; 0xFF; 0xFF; 0xFF; 0x00; 0x00; 0x00; 0x00] 4;
  magic [0x80; 0x00; 0x00; 0x00; 0x00; 0x00; 0x00; 0x00] 4;
  magic [0x80; 0x00; 0x00; 0x01; 0x00; 0x00; 0x00; 0x00] 4;
  magic [0xFF; 0xFF; 0xFF; 0xFE; 0x00; 0x00; 0x00; 0x00] 4;
  (* 4B - LE *)
  magic [0x00; 0x00; 0x00; 0x00; 0x00; 0x00; 0x00; 0x00] 4;
  magic [0x01; 0x00; 0x00; 0x00; 0x00; 0x00; 0x00; 0x00] 4;
  magic [0x02; 0x00; 0x00; 0x00; 0x00; 0x00; 0x00; 0x00] 4;
  magic [0x03; 0x00; 0x00; 0x00; 0x00; 0x00; 0x00; 0x00] 4;
  magic [0x04; 0x00; 0x00; 0x00; 0x00; 0x00; 0x00; 0x00] 4;
  magic [0x05; 0x00; 0x00; 0x00; 0x00; 0x00; 0x00; 0x00] 4;
  magic [0x06; 0x00; 0x00; 0x00; 0x00; 0x00; 0x00; 0x00] 4;
  magic [0x07; 0x00; 0x00; 0x00; 0x00; 0x00; 0x00; 0x00] 4;
  magic [0x08; 0x00; 0x00; 0x00; 0x00; 0x00; 0x00; 0x00] 4;
  magic [0x09; 0x00; 0x00; 0x00; 0x00; 0x00; 0x00; 0x00] 4;
  magic [0x0A; 0x00; 0x00; 0x00; 0x00; 0x00; 0x00; 0x00] 4;
  magic [0x0B; 0x00; 0x00; 0x00; 0x00; 0x00; 0x00; 0x00] 4;
  magic [0x0C; 0x00; 0x00; 0x00; 0x00; 0x00; 0x00; 0x00] 4;
  magic [0x0D; 0x00; 0x00; 0x00; 0x00; 0x00; 0x00; 0x00] 4;
  magic [0x0E; 0x00; 0x00; 0x00; 0x00; 0x00; 0x00; 0x00] 4;
  magic [0x0F; 0x00; 0x00; 0x00; 0x00; 0x00; 0x00; 0x00] 4;
  magic [0x10; 0x00; 0x00; 0x00; 0x00; 0x00; 0x00; 0x00] 4;
  magic [0x20; 0x00; 0x00; 0x00; 0x00; 0x00; 0x00; 0x00] 4;
  magic [0x40; 0x00; 0x00; 0x00; 0x00; 0x00; 0x00; 0x00] 4;
  magic [0x7E; 0x00; 0x00; 0x00; 0x00; 0x00; 0x00; 0x00] 4;
  magic [0x7F; 0x00; 0x00; 0x00; 0x00; 0x00; 0x00; 0x00] 4;
  magic [0x80; 0x00; 0x00; 0x00; 0x00; 0x00; 0x00; 0x00] 4;
  magic [0x81; 0x00; 0x00; 0x00; 0x00; 0x00; 0x00; 0x00] 4;
  magic [0xC0; 0x00; 0x00; 0x00; 0x00; 0x00; 0x00; 0x00] 4;
  magic [0xFE; 0x00; 0x00; 0x00; 0x00; 0x00; 0x00; 0x00] 4;
  magic [0xFF; 0x00; 0x00; 0x00; 0x00; 0x00; 0x00; 0x00] 4;
  magic [0xFF; 0xFF; 0xFF; 0x7E; 0x00; 0x00; 0x00; 0x00] 4;
  magic [0xFF; 0xFF; 0xFF; 0x7F; 0x00; 0x00; 0x00; 0x00] 4;
  magic [0x00; 0x00; 0x00; 0x80; 0x00; 0x00; 0x00; 0x00] 4;
  magic [0x01; 0x00; 0x00; 0x80; 0x00; 0x00; 0x00; 0x00] 4;
  magic [0xFE; 0xFF; 0xFF; 0xFF; 0x00; 0x00; 0x00; 0x00] 4;
  (* 8B - NE *)
  magic [0x00; 0x00; 0x00; 0x00; 0x00; 0x00; 0x00; 0x00] 8;
  magic [0x01; 0x01; 0x01; 0x01; 0x01; 0x01; 0x01; 0x01] 8;
  magic [0x80; 0x80; 0x80; 0x80; 0x80; 0x80; 0x80; 0x80] 8;
  magic [0xFF; 0xFF; 0xFF; 0xFF; 0xFF; 0xFF; 0xFF; 0xFF] 8;
  (* 8B - BE *)
  magic [0x00; 0x00; 0x00; 0x00; 0x00; 0x00; 0x00; 0x01] 8;
  magic [0x00; 0x00; 0x00; 0x00; 0x00; 0x00; 0x00; 0x02] 8;
  magic [0x00; 0x00; 0x00; 0x00; 0x00; 0x00; 0x00; 0x03] 8;
  magic [0x00; 0x00; 0x00; 0x00; 0x00; 0x00; 0x00; 0x04] 8;
  magic [0x00; 0x00; 0x00; 0x00; 0x00; 0x00; 0x00; 0x05] 8;
  magic [0x00; 0x00; 0x00; 0x00; 0x00; 0x00; 0x00; 0x06] 8;
  magic [0x00; 0x00; 0x00; 0x00; 0x00; 0x00; 0x00; 0x07] 8;
  magic [0x00; 0x00; 0x00; 0x00; 0x00; 0x00; 0x00; 0x08] 8;
  magic [0x00; 0x00; 0x00; 0x00; 0x00; 0x00; 0x00; 0x09] 8;
  magic [0x00; 0x00; 0x00; 0x00; 0x00; 0x00; 0x00; 0x0A] 8;
  magic [0x00; 0x00; 0x00; 0x00; 0x00; 0x00; 0x00; 0x0B] 8;
  magic [0x00; 0x00; 0x00; 0x00; 0x00; 0x00; 0x00; 0x0C] 8;
  magic [0x00; 0x00; 0x00; 0x00; 0x00; 0x00; 0x00; 0x0D] 8;
  magic [0x00; 0x00; 0x00; 0x00; 0x00; 0x00; 0x00; 0x0E] 8;
  magic [0x00; 0x00; 0x00; 0x00; 0x00; 0x00; 0x00; 0x0F] 8;
  magic [0x00; 0x00; 0x00; 0x00; 0x00; 0x00; 0x00; 0x10] 8;
  magic [0x00; 0x00; 0x00; 0x00; 0x00; 0x00; 0x00; 0x20] 8;
  magic [0x00; 0x00; 0x00; 0x00; 0x00; 0x00; 0x00; 0x40] 8;
  magic [0x00; 0x00; 0x00; 0x00; 0x00; 0x00; 0x00; 0x7E] 8;
  magic [0x00; 0x00; 0x00; 0x00; 0x00; 0x00; 0x00; 0x7F] 8;
  magic [0x00; 0x00; 0x00; 0x00; 0x00; 0x00; 0x00; 0x80] 8;
  magic [0x00; 0x00; 0x00; 0x00; 0x00; 0x00; 0x00; 0x81] 8;
  magic [0x00; 0x00; 0x00; 0x00; 0x00; 0x00; 0x00; 0xC0] 8;
  magic [0x00; 0x00; 0x00; 0x00; 0x00; 0x00; 0x00; 0xFE] 8;
  magic [0x00; 0x00; 0x00; 0x00; 0x00; 0x00; 0x00; 0xFF] 8;
  magic [0x7E; 0xFF; 0xFF; 0xFF; 0xFF; 0xFF; 0xFF; 0xFF] 8;
  magic [0x7F; 0xFF; 0xFF; 0xFF; 0xFF; 0xFF; 0xFF; 0xFF] 8;
  magic [0x80; 0x00; 0x00; 0x00; 0x00; 0x00; 0x00; 0x00] 8;
  magic [0x80; 0x00; 0x00; 0x00; 0x00; 0x00; 0x00; 0x01] 8;
  magic [0xFF; 0xFF; 0xFF; 0xFF; 0xFF; 0xFF; 0xFF; 0xFE] 8;
  (* 8B - LE *)
  magic [0x00; 0x00; 0x00; 0x00; 0x00; 0x00; 0x00; 0x00] 8;
  magic [0x01; 0x00; 0x00; 0x00; 0x00; 0x00; 0x00; 0x00] 8;
  magic [0x02; 0x00; 0x00; 0x00; 0x00; 0x00; 0x00; 0x00] 8;
  magic [0x03; 0x00; 0x00; 0x00; 0x00; 0x00; 0x00; 0x00] 8;
  magic [0x04; 0x00; 0x00; 0x00; 0x00; 0x00; 0x00; 0x00] 8;
  magic [0x05; 0x00; 0x00; 0x00; 0x00; 0x00; 0x00; 0x00] 8;
  magic [0x06; 0x00; 0x00; 0x00; 0x00; 0x00; 0x00; 0x00] 8;
  magic [0x07; 0x00; 0x00; 0x00; 0x00; 0x00; 0x00; 0x00] 8;
  magic [0x08; 0x00; 0x00; 0x00; 0x00; 0x00; 0x00; 0x00] 8;
  magic [0x09; 0x00; 0x00; 0x00; 0x00; 0x00; 0x00; 0x00] 8;
  magic [0x0A; 0x00; 0x00; 0x00; 0x00; 0x00; 0x00; 0x00] 8;
  magic [0x0B; 0x00; 0x00; 0x00; 0x00; 0x00; 0x00; 0x00] 8;
  magic [0x0C; 0x00; 0x00; 0x00; 0x00; 0x00; 0x00; 0x00] 8;
  magic [0x0D; 0x00; 0x00; 0x00; 0x00; 0x00; 0x00; 0x00] 8;
  magic [0x0E; 0x00; 0x00; 0x00; 0x00; 0x00; 0x00; 0x00] 8;
  magic [0x0F; 0x00; 0x00; 0x00; 0x00; 0x00; 0x00; 0x00] 8;
  magic [0x10; 0x00; 0x00; 0x00; 0x00; 0x00; 0x00; 0x00] 8;
  magic [0x20; 0x00; 0x00; 0x00; 0x00; 0x00; 0x00; 0x00] 8;
  magic [0x40; 0x00; 0x00; 0x00; 0x00; 0x00; 0x00; 0x00] 8;
  magic [0x7E; 0x00; 0x00; 0x00; 0x00; 0x00; 0x00; 0x00] 8;
  magic [0x7F; 0x00; 0x00; 0x00; 0x00; 0x00; 0x00; 0x00] 8;
  magic [0x80; 0x00; 0x00; 0x00; 0x00; 0x00; 0x00; 0x00] 8;
  magic [0x81; 0x00; 0x00; 0x00; 0x00; 0x00; 0x00; 0x00] 8;
  magic [0xC0; 0x00; 0x00; 0x00; 0x00; 0x00; 0x00; 0x00] 8;
  magic [0xFE; 0x00; 0x00; 0x00; 0x00; 0x00; 0x00; 0x00] 8;
  magic [0xFF; 0x00; 0x00; 0x00; 0x00; 0x00; 0x00; 0x00] 8;
  magic [0xFF; 0xFF; 0xFF; 0xFF; 0xFF; 0xFF; 0xFF; 0x7E] 8;
  magic [0xFF; 0xFF; 0xFF; 0xFF; 0xFF; 0xFF; 0xFF; 0x7F] 8;
  magic [0x00; 0x00; 0x00; 0x00; 0x00; 0x00; 0x00; 0x80] 8;
  magic [0x01; 0x00; 0x00; 0x00; 0x00; 0x00; 0x00; 0x80] 8;
  magic [0xFE; 0xFF; 0xFF; 0xFF; 0xFF; 0xFF; 0xFF; 0xFF] 8
].

Definition ARRAYSIZE {A : Type} (a : list A) : Z := Z.of_nat (length a).

Definition mangle_Magic (run : run_t) (printable : bool) : Rnd run_t :=
  off <- util_rndGet 0 (size_t (dynamicFileSz run - 1)) ;;
  choice <- util_rndGet 0 (ARRAYSIZE mangleMagicVals - 1) ;;
  let m := nth (Z.to_nat choice) mangleMagicVals (magic [] 0) in
  let run := mangle_Overwrite run (val m) off (size m) in
  ret (if printable then turnToPrintable_at run off (size m) else run).

Definition mangle_MemSetWithVal (run : run_t) (val : Z) : Rnd run_t :=
  off <- util_rndGet 0 (size_t (dynamicFileSz run - 1)) ;;
  sz <- util_rndGet 1 (size_t (dynamicFileSz run - off)) ;;
  ret (set_dynamicFile run (memset (dynamicFile run) off val sz)).

Definition mangle_MemSet (run : run_t) (printable : bool) : Rnd run_t :=
  val <- (if printable then util_rndPrintable else util_rndGet 0 UINT8_MAX) ;;
  mangle_MemSetWithVal run (int val).

Definition mangle_Random (run : run_t) (printable : bool) : Rnd run_t :=
  off <- util_rndGet 0 (size_t (dynamicFileSz run - 1)) ;;
  len <- util_rndGet 1 (size_t (dynamicFileSz run - off)) ;;
  rndBuf_at run off len printable.

(** One of the [case 2], [case 4] and [case 8] blocks of the switch of
    [mangle_AddSubWithRange], for a variable of [w] bytes: the value is
    read from the buffer in host (little endian) order, [delta] is added to
    it, or to its byte-swapped form, with the wrap-around of a signed
    integer of [w] bytes, and the bytes are written back. *)
Definition AddSub_case (run : run_t) (off varLen delta : Z) (w : nat)
  : Rnd run_t :=
  let bits := 8 * Z.of_nat w in
  let val := swrap bits (of_bytes (memread (dynamicFile run) (Z.to_nat off) w)) in
  r <- util_rnd64 ;;
  let val :=
    if Z.land r 1 =? 1 then swrap bits (val + delta)
    else
      (* Foreign endianess *)
      let val := swrap bits (bswap w val) in
      let val := swrap bits (val + delta) in
      swrap bits (bswap w val) in
  ret (mangle_Overwrite run (to_bytes w val) off varLen).

(** The [default] case of the switch calls [LOG_F], which ends the process:
    the run returned there stands for no result of the code.
    [mangle_AddSub], the only caller, passes 1, 2, 4 or 8, and the theorems
    on the sum are stated for these widths. *)
Definition mangle_AddSubWithRange (run : run_t) (off varLen : Z) : Rnd run_t :=
  r <- util_rndGet 0 8192 ;;
  let delta := int (int r - 4096) in
  if varLen =? 1 then
    ret (store run off (uint8_t (load (dynamicFile run) off + delta)))
  else if varLen =? 2 then AddSub_case run off varLen delta 2
  else if varLen =? 4 then AddSub_case run off varLen delta 4
  else if varLen =? 8 then AddSub_case run off varLen delta 8
  else ret run (* LOG_F: the process is aborted *).

Definition mangle_AddSub (run : run_t) (printable : bool) : Rnd run_t :=
  off <- util_rndGet 0 (size_t (dynamicFileSz run - 1)) ;;
  (* 1,2,4,8 *)
  e <- util_rndGet 0 3 ;;
  let varLen := uint64_t (Z.shiftl 1 e) in
  let varLen := if size_t (dynamicFileSz run - off) <? varLen then 1 else varLen in
  run <- mangle_AddSubWithRange run off varLen ;;
  ret (if printable then turnToPrintable_at run off varLen else run).

Definition mangle_IncByte (run : run_t) (printable : bool) : Rnd run_t :=
  off <- util_rndGet 0 (size_t (dynamicFileSz run - 1)) ;;
  ret (if printable
       then store run off
              (uint8_t (Z.rem (load (dynamicFile run) off - 32 + 1) 95 + 32))
       else store run off (uint8_t (load (dynamicFile run) off + 1))).

Definition mangle_DecByte (run : run_t) (printable : bool) : Rnd run_t :=
  off <- util_rndGet 0 (size_t (dynamicFileSz run - 1)) ;;
  ret (if printable
       then store run off
              (uint8_t (Z.rem (load (dynamicFile run) off - 32 + 94) 95 + 32))
       else store run off (uint8_t (load (dynamicFile run) off - 1))).

Definition mangle_NegByte (run : run_t) (printable : bool) : Rnd run_t :=
  off <- util_rndGet 0 (size_t (dynamicFileSz run - 1)) ;;
  ret (if printable
       then store run off
              (uint8_t (94 - (load (dynamicFile run) off - 32) + 32))
       else store run off (uint8_t (Z.lnot (load (dynamicFile run) off)))).

Definition mangle_CloneByte (run : run_t) (printable : bool) : Rnd run_t :=
  off1 <- util_rndGet 0 (size_t (dynamicFileSz run - 1)) ;;
  off2 <- util_rndGet 0 (size_t (dynamicFileSz run - 1)) ;;
  let tmp := load (dynamicFile run) off1 in
  let run := store run off1 (load (dynamicFile run) off2) in
  ret (store run off2 tmp).

Definition mangle_Expand (run : run_t) (printable : bool) : Rnd run_t :=
  off <- util_rndGet 0 (size_t (dynamicFileSz run - 1)) ;;
  len <- util_rndGet 1 (size_t (dynamicFileSz run - off)) ;;
  mangle_Inflate run off len printable.

Definition mangle_Shrink (run : run_t) (printable : bool) : Rnd run_t :=
  if dynamicFileSz run <=? 1 then ret run
  else
    len <- util_rndGet 1 (size_t (dynamicFileSz run - 1)) ;;
    off <- util_rndGet 0 len ;;
    let run := input_setSize run (size_t (dynamicFileSz run - len)) in
    ret (mangle_Move run (size_t (off + len)) off (dynamicFileSz run)).

Definition mangle_Resize (run : run_t) (printable : bool) : Rnd run_t :=
  let oldsz := dynamicFileSz run in
  v <- util_rndGet 0 16 ;;
  newsz <-
    (if v =? 0 then
       n <- util_rndGet 1 (maxFileSz (mutate (global run))) ;;
       ret (ssize_t n)
     else if (1 <=? v) && (v <=? 8) then ret (ssize_t (oldsz + v))
     else if (9 <=? v) && (v <=? 16) then ret (ssize_t (oldsz + 8 - v))
     else ret 0 (* LOG_F: the process is aborted *)) ;;
  let newsz := if newsz <? 1 then 1 else newsz in
  let newsz :=
    if newsz >? ssize_t (maxFileSz (mutate (global run)))
    then ssize_t (maxFileSz (mutate (global run)))
    else newsz in
  let run := input_setSize run (size_t newsz) in
  if newsz >? ssize_t oldsz
  then rndBuf_at run oldsz (size_t (newsz - oldsz)) printable
  else ret run.

(** [snprintf(buf, sizeof(buf), "%" PRId64, v)]: the decimal digits of [v],
    after a minus sign when it is negative; at most 20 characters, which
    fit the 32 bytes of [buf]. *)
Fixpoint uint_chars (u : Decimal.uint) : list Z :=
  match u with
  | Decimal.Nil => []
  | Decimal.D0 u' => 48 :: uint_chars u'
  | Decimal.D1 u' => 49 :: uint_chars u'
  | Decimal.D2 u' => 50 :: uint_chars u'
  | Decimal.D3 u' => 51 :: uint_chars u'
  | Decimal.D4 u' => 52 :: uint_chars u'
  | Decimal.D5 u' => 53 :: uint_chars u'
  | Decimal.D6 u' => 54 :: uint_chars u'
  | Decimal.D7 u' => 55 :: uint_chars u'
  | Decimal.D8 u' => 56 :: uint_chars u'
  | Decimal.D9 u' => 57 :: uint_chars u'
  end.

Definition snprintf_PRId64 (v : Z) : list Z :=
  match Z.to_int v with
  | Decimal.Pos u => uint_chars u
  | Decimal.Neg u => 45 :: uint_chars u
  end.

Definition strlen (buf : list Z) : Z := Z.of_nat (length buf).

Definition mangle_ASCIIVal (run : run_t) (printable : bool) : Rnd run_t :=
  r <- util_rnd64 ;;
  let buf := snprintf_PRId64 (swrap 64 r) in
  off <- util_rndGet 0 (size_t (dynamicFileSz run - 1)) ;;
  ret (mangle_Overwrite run buf off (strlen buf)).

(** ** The mutation session *)

Definition mangleFuncs : list (run_t -> bool -> Rnd run_t) := [
  mangle_Bit;
  mangle_Bytes;
  mangle_Magic;
  mangle_IncByte;
  mangle_DecByte;
  mangle_NegByte;
  mangle_AddSub;
  mangle_Dictionary;
  mangle_DictionaryInsert;
  mangle_MemMove;
  mangle_MemSet;
  mangle_Random;
  mangle_CloneByte;
  mangle_Expand;
  mangle_Shrink;
  mangle_ASCIIVal
].

(** The [for] loop of [mangle_mangleContent], [n] iterations. *)
Fixpoint mangle_loop (n : nat) (run : run_t) : Rnd run_t :=
  match n with
  | O => ret run
  | S n' =>
      choice <- util_rndGet 0 (ARRAYSIZE mangleFuncs - 1) ;;
      run <- nth (Z.to_nat choice) mangleFuncs (fun run _ => ret run)
               run (only_printable (cfg (global run))) ;;
      mangle_loop n' run
  end.

Definition mangle_mangleContent (run : run_t) : Rnd run_t :=
  if mutationsPerRun run =? 0 then ret run
  else
    run <- mangle_Resize run (only_printable (cfg (global run))) ;;
    (* Max number of stacked changes is, by default, 6 *)
    changesCnt <- util_rndGet 1 (mutate_mutationsPerRun (mutate (global run))) ;;
    mangle_loop (Z.to_nat changesCnt) run.

(** ** Scenarios of the specification, run on the model *)

Definition run0 (buf : list Z) (sz max : Z) (dict : list strings_t)
  (printable : bool) : run_t :=
  mk_run (mk_honggfuzz (mk_mutate max (Z.of_nat (length dict)) dict 6)
            (mk_cfg printable))
    buf sz 6.

(** ** Predicates on runs *)

(** The size invariant of the mutation context. *)
Definition size_ok (run : run_t) : Prop :=
  1 <= dynamicFileSz run <= maxFileSz (mutate (global run)).

(** [run'] differs from [run] in the contents of the buffer at most. *)
Definition same_frame (run run' : run_t) : Prop :=
  global run' = global run /\
  dynamicFileSz run' = dynamicFileSz run /\
  mutationsPerRun run' = mutationsPerRun run.

(** [run'] has the globals of [run], and a size within the bounds. *)
Definition size_kept (run run' : run_t) : Prop :=
  global run' = global run /\
  mutationsPerRun run' = mutationsPerRun run /\
  size_ok run'.

(** The operator [op] re-establishes the size invariant. *)
Definition keeps_size (op : run_t -> bool -> Rnd run_t) : Prop :=
  forall (run : run_t) (printable : bool) (t : rng),
    size_ok run -> maxFileSz (mutate (global run)) <= SSIZE_MAX ->
    size_kept run (fst (op run printable t)).

(** ** The table of magic values, group by group

    The groups as section 4.4 of the specification builds them, to be
    compared with [mangleMagicVals]. *)

(** [val[8]]: the bytes given, then zeroes up to eight bytes. *)
Definition magic_entry (bytes : list Z) (w : nat) : magic_t :=
  magic (bytes ++ repeat 0 (8 - w)) (Z.of_nat w).

(** The 26 one-byte magics. *)
Definition magic_bytes : list Z := [
  0x00; 0x01; 0x02; 0x03; 0x04; 0x05; 0x06; 0x07; 0x08; 0x09; 0x0A; 0x0B;
  0x0C; 0x0D; 0x0E; 0x0F; 0x10; 0x20; 0x40; 0x7E; 0x7F; 0x80; 0x81; 0xC0;
  0xFE; 0xFF
].

(** The five boundary values of a big-endian group of width [w]:
    [7E FF..], [7F FF..], [80 00..], [80 00.. 01], [FF.. FE]. *)
Definition boundary_BE (w : nat) : list (list Z) := [
  0x7E :: repeat 0xFF (w - 1);
  0x7F :: repeat 0xFF (w - 1);
  0x80 :: repeat 0x00 (w - 1);
  0x80 :: repeat 0x00 (w - 2) ++ [0x01];
  repeat 0xFF (w - 1) ++ [0xFE]
].

Definition group_1B : list magic_t :=
  map (fun m => magic_entry [m] 1) magic_bytes.

(** Native order: the byte repeated, for [00], [01], [80] and [FF]. *)
Definition group_NE (w : nat) : list magic_t :=
  map (fun m => magic_entry (repeat m w) w) [0x00; 0x01; 0x80; 0xFF].

(** Big endian, from the one-byte magics [ms]: the zero-prefixed copy of
    each, then the five boundary values. *)
Definition group_BE (ms : list Z) (w : nat) : list magic_t :=
  map (fun m => magic_entry (repeat 0x00 (w - 1) ++ [m]) w) ms ++
  map (fun bytes => magic_entry bytes w) (boundary_BE w).

(** Little endian: each big-endian entry with its bytes reversed. *)
Definition group_LE (ms : list Z) (w : nat) : list magic_t :=
  map (fun m => magic_entry (m :: repeat 0x00 (w - 1)) w) ms ++
  map (fun bytes => magic_entry (rev bytes) w) (boundary_BE w).

(** The table with the big-endian groups built from the one-byte magics
    [be], the little-endian ones from all 26. *)
Definition magic_table (be : list Z) : list magic_t :=
  group_1B ++
  group_NE 2 ++ group_BE be 2 ++ group_LE magic_bytes 2 ++
  group_NE 4 ++ group_BE be 4 ++ group_LE magic_bytes 4 ++
  group_NE 8 ++ group_BE be 8 ++ group_LE magic_bytes 8.

(** The sizes of the ten groups of a table built that way. *)
Definition group_sizes (be : list Z) : list nat := [
  length group_1B;
  length (group_NE 2); length (group_BE be 2); length (group_LE magic_bytes 2);
  length (group_NE 4); length (group_BE be 4); length (group_LE magic_bytes 4);
  length (group_NE 8); length (group_BE be 8); length (group_LE magic_bytes 8)
].

(** ** Printable mode *)

Definition printable_byte (b : Z) : Prop := 32 <= b <= 126.

(** Every byte of every dictionary entry is printable. *)
Definition printable_dict (run : run_t) : Prop :=
  Forall (fun str => Forall printable_byte (s str)) (dictq (mutate (global run))).

(** The bytes of [buf] below index [n] are printable. *)
Definition printable_below (n : Z) (buf : list Z) : Prop :=
  forall i, 0 <= i < n -> printable_byte (load buf i).

(** The operator [op], run in printable mode on a buffer whose bytes below
    the size are printable, leaves a buffer whose bytes below the size are
    printable.  Nothing is asked of the bytes of the backing store at the
    size or beyond. *)
Definition keeps_printable (op : run_t -> bool -> Rnd run_t) : Prop :=
  forall (run : run_t) (t : rng),
    size_ok run -> maxFileSz (mutate (global run)) <= SSIZE_MAX ->
    dynamicFileSz run <= Z.of_nat (length (dynamicFile run)) ->
    printable_below (dynamicFileSz run) (dynamicFile run) ->
    printable_below (dynamicFileSz (fst (op run true t)))
      (dynamicFile (fst (op run true t))).

(** The bytes of [run'] below its size are printable, but for the last one
    when [run'] is larger than [run]. *)
Definition printable_but_last (run run' : run_t) : Prop :=
  printable_below (dynamicFileSz run' - 1) (dynamicFile run') /\
  (dynamicFileSz run' = dynamicFileSz run ->
   printable_below (dynamicFileSz run') (dynamicFile run')).

(** ** The bytes an operator stores *)

(** [stores_below sz buf buf']: [buf'] is [buf] after some stores, each of
    them to indices below [sz]. *)
Inductive stores_below (sz : nat) (buf : list Z) : list Z -> Prop :=
| stores_none : stores_below sz buf buf
| stores_more : forall (buf' : list Z) (off : nat) (src : list Z),
    stores_below sz buf buf' ->
    (off + length src <= sz)%nat ->
    stores_below sz buf (memwrite buf' off src).

(** Every store that leads from [run] to [run'] is to an index below the
    size of [run']. *)
Definition writes_inside (run run' : run_t) : Prop :=
  stores_below (Z.to_nat (dynamicFileSz run')) (dynamicFile run)
    (dynamicFile run').

(** The operator [op] stores inside the buffer it leaves. *)
Definition writes_ok (op : run_t -> bool -> Rnd run_t) (printable : bool) : Prop :=
  forall (run : run_t) (t : rng),
    size_ok run -> maxFileSz (mutate (global run)) <= SSIZE_MAX ->
    writes_inside run (fst (op run printable t)).

(** ** Bytes *)

(** Every element of the store is a byte. *)
Definition bytes_ok (buf : list Z) : Prop := Forall (fun b => 0 <= b <= 255) buf.

(** The count of the dictionary is the number of entries of its queue, and
    there is at least one. *)
Definition dict_ok (run : run_t) : Prop :=
  dictionaryCnt (mutate (global run)) =
    Z.of_nat (length (dictq (mutate (global run)))) /\
  0 < dictionaryCnt (mutate (global run)) <= SIZE_MAX.

(** The bound of the stores of a run: [maxFileSz], and seven bytes more in
    printable mode, where [mangle_Magic] converts the whole width of the
    entry. *)
Definition stores_bound (run : run_t) (printable : bool) : nat :=
  Z.to_nat (maxFileSz (mutate (global run)) + (if printable then 7 else 0)).

Definition stores_bounded (op : run_t -> bool -> Rnd run_t) : Prop :=
  forall (run : run_t) (printable : bool) (t : rng),
    size_ok run -> maxFileSz (mutate (global run)) <= SSIZE_MAX ->
    stores_below (stores_bound run printable) (dynamicFile run)
      (dynamicFile (fst (op run printable t))).

(** ** The value [mangle_AddSubWithRange] writes *)

(** The value that a [case] block of [mangle_AddSubWithRange] writes over
    the bytes [old]: the sum on the native path, the byte-swapped sum of the
    byte-swapped value on the other. *)
Definition AddSub_res (w : nat) (old : list Z) (delta : Z) (native : bool) : Z :=
  let bits := 8 * Z.of_nat w in
  let val := swrap bits (of_bytes old) in
  if native then swrap bits (val + delta)
  else swrap bits (bswap w (swrap bits (swrap bits (bswap w val) + delta))).
(** ** Facts about machine integers *)

Lemma size_t_small (x : Z) : 0 <= x <= SIZE_MAX -> size_t x = x.
Proof.
  unfold size_t, wrap, SIZE_MAX. intros H. apply Z.mod_small. lia.
Qed.

Lemma uint64_t_small (x : Z) : 0 <= x <= SIZE_MAX -> uint64_t x = x.
Proof. exact (size_t_small x). Qed.

Lemma ssize_t_small (x : Z) : - 2 ^ 63 <= x <= SSIZE_MAX -> ssize_t x = x.
Proof.
  unfold ssize_t, swrap, SSIZE_MAX. intros H.
  change (64 - 1) with 63. rewrite Z.mod_small; lia.
Qed.

Lemma int_small (x : Z) : - 2 ^ 31 <= x < 2 ^ 31 -> int x = x.
Proof.
  unfold int, swrap. intros H.
  change (32 - 1) with 31. rewrite Z.mod_small; lia.
Qed.

Lemma uint8_t_range (x : Z) : 0 <= uint8_t x <= 255.
Proof.
  unfold uint8_t, wrap. assert (0 <= x mod 2 ^ 8 < 2 ^ 8) by (apply Z.mod_pos_bound; lia). lia.
Qed.

(** ** Facts about the generator *)

Lemma util_rnd64_tape (t : rng) : snd (util_rnd64 t) = tl t.
Proof. destruct t; reflexivity. Qed.

Lemma util_rnd64_range (t : rng) : 0 <= fst (util_rnd64 t) <= SIZE_MAX.
Proof.
  destruct t as [|x t]; simpl.
  - unfold SIZE_MAX; lia.
  - unfold uint64_t, wrap, SIZE_MAX.
    assert (0 <= x mod 2 ^ 64 < 2 ^ 64) by (apply Z.mod_pos_bound; lia). lia.
Qed.

Lemma util_rndGet_tape (lo hi : Z) (t : rng) : snd (util_rndGet lo hi t) = tl t.
Proof. unfold util_rndGet, bind, ret. simpl. apply util_rnd64_tape. Qed.

Lemma util_rndGet_range (lo hi : Z) (t : rng) :
  lo <= hi -> lo <= fst (util_rndGet lo hi t) <= hi.
Proof.
  intros H. unfold util_rndGet, bind, ret. simpl.
  assert (0 <= fst (util_rnd64 t) mod (hi - lo + 1) < hi - lo + 1)
    by (apply Z.mod_pos_bound; lia).
  lia.
Qed.

(** Every value of the interval is drawn by some tape. *)
Lemma util_rndGet_onto (lo hi x : Z) (t : rng) :
  lo <= x <= hi -> hi - lo < SIZE_MAX ->
  util_rndGet lo hi ((x - lo) :: t) = (x, t).
Proof.
  intros H Hw. unfold util_rndGet, bind, ret. simpl.
  rewrite uint64_t_small by lia.
  rewrite Z.mod_small by lia. f_equal. lia.
Qed.

Lemma util_rndGet_head (lo hi x : Z) (t : rng) :
  0 <= x <= hi - lo -> hi - lo < SIZE_MAX ->
  util_rndGet lo hi (x :: t) = (x + lo, t).
Proof.
  intros H Hw. replace x with (x + lo - lo) at 1 by lia.
  apply util_rndGet_onto; lia.
Qed.

Arguments util_rnd64 : simpl never.
Arguments util_rndGet : simpl never.
Arguments size_t : simpl never.
Arguments ssize_t : simpl never.

(** ** Facts about memory *)

Lemma memwrite_nil (buf : list Z) (off : nat) : memwrite buf off [] = buf.
Proof.
  revert off. induction buf as [|b buf IH]; intros [|off]; simpl; auto.
  now rewrite IH.
Qed.

Lemma length_memwrite (buf : list Z) (off : nat) (src : list Z) :
  length (memwrite buf off src) = length buf.
Proof.
  revert off src. induction buf as [|b buf IH]; intros off src; simpl; auto.
  destruct off as [|off]; simpl.
  - destruct src as [|x src]; simpl; auto.
  - now rewrite IH.
Qed.

(** A byte of the array after a store: inside the stored range it is the
    byte of the source, outside it is the old byte. *)
Lemma nth_memwrite (buf : list Z) (off : nat) (src : list Z) (i : nat) (d : Z) :
  nth i (memwrite buf off src) d =
  if ((off <=? i) && (i <? off + length src) && (i <? length buf))%nat
  then nth (i - off) src d
  else nth i buf d.
Proof.
  revert off src i. induction buf as [|b buf IH]; intros off src i.
  - simpl. rewrite andb_false_r. reflexivity.
  - destruct off as [|off].
    + destruct src as [|x src].
      * simpl memwrite. simpl length.
        replace (i <? 0 + 0)%nat with false
          by (symmetry; apply Nat.ltb_ge; lia).
        rewrite andb_false_r. reflexivity.
      * simpl memwrite. destruct i as [|i]; [reflexivity|].
        simpl nth at 1. rewrite IH. simpl length.
        replace (S i - 0)%nat with (S (i - 0)) by lia.
        reflexivity.
    + simpl memwrite. destruct i as [|i]; [reflexivity|].
      simpl nth at 1. rewrite IH. reflexivity.
Qed.

Lemma nth_memwrite_out (buf : list Z) (off : nat) (src : list Z) (i : nat) (d : Z) :
  (i < off \/ off + length src <= i)%nat ->
  nth i (memwrite buf off src) d = nth i buf d.
Proof.
  intros H. rewrite nth_memwrite.
  destruct (off <=? i)%nat eqn:E1; simpl; auto.
  destruct (i <? off + length src)%nat eqn:E2; simpl; auto.
  apply Nat.leb_le in E1. apply Nat.ltb_lt in E2. lia.
Qed.

Lemma nth_memwrite_in (buf : list Z) (off : nat) (src : list Z) (i : nat) (d : Z) :
  (off <= i < off + length src)%nat -> (i < length buf)%nat ->
  nth i (memwrite buf off src) d = nth (i - off) src d.
Proof.
  intros H1 H2. rewrite nth_memwrite.
  replace (off <=? i)%nat with true by (symmetry; apply Nat.leb_le; lia).
  replace (i <? off + length src)%nat with true
    by (symmetry; apply Nat.ltb_lt; lia).
  replace (i <? length buf)%nat with true by (symmetry; apply Nat.ltb_lt; lia).
  reflexivity.
Qed.

Lemma Forall_memread (P : Z -> Prop) (buf : list Z) (off n : nat) :
  Forall P buf -> Forall P (memread buf off n).
Proof.
  intros H. unfold memread.
  rewrite <- (firstn_skipn off buf) in H. apply Forall_app in H.
  destruct H as [_ H].
  rewrite <- (firstn_skipn n (skipn off buf)) in H. apply Forall_app in H.
  tauto.
Qed.

Lemma length_memread (buf : list Z) (off n : nat) :
  (off + n <= length buf)%nat -> length (memread buf off n) = n.
Proof.
  intros H. unfold memread. rewrite length_firstn, length_skipn. lia.
Qed.

Lemma nth_memread (buf : list Z) (off n i : nat) (d : Z) :
  (i < n)%nat -> nth i (memread buf off n) d = nth (off + i) buf d.
Proof.
  intros H. unfold memread. rewrite nth_firstn.
  replace (i <? n)%nat with true by (symmetry; apply Nat.ltb_lt; lia).
  apply nth_skipn.
Qed.

Lemma list_eq_nth (a b : list Z) :
  length a = length b ->
  (forall i, (i < length a)%nat -> nth i a 0 = nth i b 0) -> a = b.
Proof.
  intros Hl Hn. apply (nth_ext a b 0 0); auto.
Qed.

(** A store that lies apart from the bytes another store reads and writes
    commutes with it. *)
Lemma memmove_memwrite_apart (buf : list Z) (dst src n k : nat) (v : Z) :
  (src + n <= k)%nat -> (dst + n <= k)%nat ->
  memwrite (memwrite buf k [v]) dst (memread (memwrite buf k [v]) src n) =
  memwrite (memwrite buf dst (memread buf src n)) k [v].
Proof.
  intros Hs Hd. apply list_eq_nth.
  - now rewrite !length_memwrite.
  - intros i Hi. rewrite !length_memwrite in Hi.
    assert (Hlen : forall b, (length (memread b src n) <= n)%nat).
    { intros b. unfold memread. rewrite length_firstn. lia. }
    assert (Hrd : forall j, (j < n)%nat ->
              nth j (memread (memwrite buf k [v]) src n) 0 =
              nth j (memread buf src n) 0).
    { intros j Hj. rewrite !nth_memread by lia.
      apply nth_memwrite_out. lia. }
    assert (Hsame : length (memread (memwrite buf k [v]) src n) =
                    length (memread buf src n)).
    { unfold memread. rewrite !length_firstn, !length_skipn, length_memwrite.
      reflexivity. }
    destruct (Nat.eq_dec i k) as [->|Hik].
    + rewrite nth_memwrite_out by (specialize (Hlen (memwrite buf k [v])); lia).
      rewrite !nth_memwrite_in by (simpl; rewrite ?length_memwrite; lia).
      reflexivity.
    + rewrite (nth_memwrite_out _ k [v]) by (simpl; lia).
      rewrite (nth_memwrite (memwrite buf k [v])), (nth_memwrite buf dst).
      rewrite Hsame, length_memwrite.
      destruct ((dst <=? i)%nat && (i <? dst + length (memread buf src n))%nat
                && (i <? length buf)%nat) eqn:E.
      * apply andb_prop in E. destruct E as [E _].
        apply andb_prop in E. destruct E as [E1 E2].
        apply Nat.leb_le in E1. apply Nat.ltb_lt in E2.
        apply Hrd. specialize (Hlen buf). lia.
      * apply nth_memwrite_out. simpl. lia.
Qed.

(** [mangle_Move] on offsets inside the buffer: one [memmove] of the
    clamped length. *)
Lemma mangle_Move_inside (run : run_t) (off_from off_to len : Z) :
  dynamicFileSz run <= SSIZE_MAX ->
  0 <= off_from < dynamicFileSz run ->
  0 <= off_to < dynamicFileSz run ->
  0 <= len <= SSIZE_MAX ->
  mangle_Move run off_from off_to len =
  set_dynamicFile run
    (memmove (dynamicFile run) off_to off_from
       (Z.min len (Z.min (dynamicFileSz run - off_from - 1)
                         (dynamicFileSz run - off_to - 1)))).
Proof.
  intros Hsz Hf Ht Hl. unfold mangle_Move.
  destruct (Z.geb_spec off_from (dynamicFileSz run)); [lia|].
  destruct (Z.geb_spec off_to (dynamicFileSz run)); [lia|].
  assert (HS : SSIZE_MAX < SIZE_MAX) by (unfold SSIZE_MAX, SIZE_MAX; lia).
  assert (HM : - 2 ^ 63 <= 0) by lia.
  rewrite (ssize_t_small len) by lia.
  rewrite (ssize_t_small (dynamicFileSz run - off_from - 1)) by lia.
  rewrite (ssize_t_small (dynamicFileSz run - off_to - 1)) by lia.
  rewrite (size_t_small (dynamicFileSz run - off_from - 1)) by lia.
  rewrite (size_t_small (dynamicFileSz run - off_to - 1)) by lia.
  destruct (Z.gtb_spec len (dynamicFileSz run - off_from - 1)).
  - rewrite (ssize_t_small (dynamicFileSz run - off_from - 1)) by lia.
    destruct (Z.gtb_spec (dynamicFileSz run - off_from - 1)
                (dynamicFileSz run - off_to - 1)); f_equal; f_equal; lia.
  - rewrite (ssize_t_small len) by lia.
    destruct (Z.gtb_spec len (dynamicFileSz run - off_to - 1));
      f_equal; f_equal; lia.
Qed.

Lemma mangle_Move_outside (run : run_t) (off_from off_to len : Z) :
  off_from >= dynamicFileSz run \/ off_to >= dynamicFileSz run ->
  mangle_Move run off_from off_to len = run.
Proof.
  intros H. unfold mangle_Move.
  destruct (Z.geb_spec off_from (dynamicFileSz run)); [reflexivity|].
  destruct (Z.geb_spec off_to (dynamicFileSz run)); [reflexivity|lia].
Qed.

Lemma load_memmove (buf : list Z) (dst src n i : Z) :
  0 <= dst -> 0 <= src -> 0 <= n -> 0 <= i ->
  dst + n <= Z.of_nat (length buf) ->
  src + n <= Z.of_nat (length buf) ->
  load (memmove buf dst src n) i =
  if (dst <=? i) && (i <? dst + n) then load buf (src + (i - dst))
  else load buf i.
Proof.
  intros Hd Hs Hn Hi Hlen Hlen'. unfold load, memmove.
  assert (Hr : length (memread buf (Z.to_nat src) (Z.to_nat n)) = Z.to_nat n)
    by (apply length_memread; lia).
  destruct (Z.leb_spec dst i); simpl.
  - destruct (Z.ltb_spec i (dst + n)).
    + rewrite nth_memwrite_in by lia.
      rewrite nth_memread by lia. f_equal. lia.
    + apply nth_memwrite_out. lia.
  - apply nth_memwrite_out. lia.
Qed.


(** ** The frame of the operators

    No primitive touches the globals, and only [input_setSize] changes the
    size. *)

Lemma same_frame_refl (run : run_t) : same_frame run run.
Proof. repeat split. Qed.

Lemma same_frame_set (run : run_t) (buf : list Z) :
  same_frame run (set_dynamicFile run buf).
Proof. repeat split. Qed.

Lemma same_frame_trans (r1 r2 r3 : run_t) :
  same_frame r1 r2 -> same_frame r2 r3 -> same_frame r1 r3.
Proof.
  unfold same_frame. intros (A & B & C) (D & E & F).
  repeat split; congruence.
Qed.

Lemma same_frame_Overwrite (run : run_t) (src : list Z) (off sz : Z) :
  same_frame run (mangle_Overwrite run src off sz).
Proof. apply same_frame_set. Qed.

Lemma same_frame_Move (run : run_t) (off_from off_to len : Z) :
  same_frame run (mangle_Move run off_from off_to len).
Proof.
  unfold mangle_Move.
  destruct (off_from >=? dynamicFileSz run); [apply same_frame_refl|].
  destruct (off_to >=? dynamicFileSz run); [apply same_frame_refl|].
  apply same_frame_set.
Qed.

Lemma same_frame_store (run : run_t) (off v : Z) :
  same_frame run (store run off v).
Proof. apply same_frame_set. Qed.

Lemma same_frame_turnToPrintable_at (run : run_t) (off n : Z) :
  same_frame run (turnToPrintable_at run off n).
Proof. apply same_frame_set. Qed.

Lemma same_frame_rndBuf_at (run : run_t) (off n : Z) (printable : bool) (t : rng) :
  same_frame run (fst (rndBuf_at run off n printable t)).
Proof. apply same_frame_set. Qed.

Create HintDb frame.

#[local] Hint Resolve same_frame_refl same_frame_set same_frame_Overwrite
  same_frame_Move same_frame_store same_frame_turnToPrintable_at
  same_frame_rndBuf_at : frame.

(** [if] commutes with a frame. *)
Lemma same_frame_if (b : bool) (run r1 r2 : run_t) :
  same_frame run r1 -> same_frame run r2 ->
  same_frame run (if b then r1 else r2).
Proof. destruct b; auto. Qed.

#[local] Hint Resolve same_frame_if : frame.

Ltac frame_run :=
  unfold bind, ret; cbv beta; cbn [fst snd];
  repeat first
    [ solve [eauto with frame]
    | apply same_frame_if
    | eapply same_frame_trans; [|solve [eauto with frame]] ].

Lemma same_frame_MemMove (run : run_t) (printable : bool) (t : rng) :
  same_frame run (fst (mangle_MemMove run printable t)).
Proof. unfold mangle_MemMove. frame_run. Qed.

Lemma same_frame_Bytes (run : run_t) (printable : bool) (t : rng) :
  same_frame run (fst (mangle_Bytes run printable t)).
Proof. unfold mangle_Bytes. frame_run. Qed.

Lemma same_frame_Bit (run : run_t) (printable : bool) (t : rng) :
  same_frame run (fst (mangle_Bit run printable t)).
Proof. unfold mangle_Bit. frame_run. Qed.

Lemma same_frame_DictionaryNoCheck (run : run_t) (t : rng) :
  same_frame run (fst (mangle_DictionaryNoCheck run t)).
Proof. unfold mangle_DictionaryNoCheck. frame_run. Qed.

Lemma same_frame_Dictionary (run : run_t) (printable : bool) (t : rng) :
  same_frame run (fst (mangle_Dictionary run printable t)).
Proof.
  unfold mangle_Dictionary.
  destruct (dictionaryCnt (mutate (global run)) =? 0).
  - apply same_frame_Bit.
  - apply same_frame_DictionaryNoCheck.
Qed.

Lemma same_frame_Magic (run : run_t) (printable : bool) (t : rng) :
  same_frame run (fst (mangle_Magic run printable t)).
Proof. unfold mangle_Magic. frame_run. Qed.

Lemma same_frame_MemSetWithVal (run : run_t) (v : Z) (t : rng) :
  same_frame run (fst (mangle_MemSetWithVal run v t)).
Proof. unfold mangle_MemSetWithVal. frame_run. Qed.

Lemma same_frame_MemSet (run : run_t) (printable : bool) (t : rng) :
  same_frame run (fst (mangle_MemSet run printable t)).
Proof.
  unfold mangle_MemSet, bind. cbv beta. apply same_frame_MemSetWithVal.
Qed.

Lemma same_frame_Random (run : run_t) (printable : bool) (t : rng) :
  same_frame run (fst (mangle_Random run printable t)).
Proof.
  unfold mangle_Random, bind. cbv beta. apply same_frame_rndBuf_at.
Qed.

Lemma same_frame_AddSub_case (run : run_t) (off varLen delta : Z) (w : nat) (t : rng) :
  same_frame run (fst (AddSub_case run off varLen delta w t)).
Proof. unfold AddSub_case. frame_run. Qed.

Lemma same_frame_AddSubWithRange (run : run_t) (off varLen : Z) (t : rng) :
  same_frame run (fst (mangle_AddSubWithRange run off varLen t)).
Proof.
  unfold mangle_AddSubWithRange, bind. cbv beta.
  repeat match goal with
         | |- context [if ?b then _ else _] => destruct b
         end;
    try apply same_frame_AddSub_case; apply same_frame_set || apply same_frame_refl.
Qed.

#[local] Hint Resolve same_frame_AddSubWithRange : frame.

Lemma same_frame_AddSub (run : run_t) (printable : bool) (t : rng) :
  same_frame run (fst (mangle_AddSub run printable t)).
Proof. unfold mangle_AddSub. frame_run. Qed.

Lemma same_frame_IncByte (run : run_t) (printable : bool) (t : rng) :
  same_frame run (fst (mangle_IncByte run printable t)).
Proof. unfold mangle_IncByte. frame_run. Qed.

Lemma same_frame_DecByte (run : run_t) (printable : bool) (t : rng) :
  same_frame run (fst (mangle_DecByte run printable t)).
Proof. unfold mangle_DecByte. frame_run. Qed.

Lemma same_frame_NegByte (run : run_t) (printable : bool) (t : rng) :
  same_frame run (fst (mangle_NegByte run printable t)).
Proof. unfold mangle_NegByte. frame_run. Qed.

Lemma same_frame_CloneByte (run : run_t) (printable : bool) (t : rng) :
  same_frame run (fst (mangle_CloneByte run printable t)).
Proof. unfold mangle_CloneByte. frame_run. Qed.

Lemma same_frame_ASCIIVal (run : run_t) (printable : bool) (t : rng) :
  same_frame run (fst (mangle_ASCIIVal run printable t)).
Proof. unfold mangle_ASCIIVal. frame_run. Qed.

(** ** The size after the operators that resize *)

Lemma same_frame_size_kept (run run' : run_t) :
  size_ok run -> same_frame run run' -> size_kept run run'.
Proof.
  unfold same_frame, size_kept, size_ok. intros H (A & B & C).
  rewrite A, B, C. auto.
Qed.

Lemma size_kept_frame (run r1 r2 : run_t) :
  size_kept run r1 -> same_frame r1 r2 -> size_kept run r2.
Proof.
  unfold same_frame, size_kept, size_ok. intros (A & B & C) (D & E & F).
  rewrite D, E, F. rewrite A in *. auto.
Qed.

Lemma size_kept_Inflate (run : run_t) (off n : Z) (printable : bool) (t : rng) :
  size_ok run -> maxFileSz (mutate (global run)) <= SIZE_MAX -> 0 <= n ->
  size_kept run (fst (mangle_Inflate run off n printable t)) /\
  dynamicFileSz (fst (mangle_Inflate run off n printable t)) =
    dynamicFileSz run +
    Z.min n (maxFileSz (mutate (global run)) - dynamicFileSz run).
Proof.
  intros Hok Hmax Hn. unfold size_ok in Hok. unfold mangle_Inflate.
  destruct (Z.geb_spec (dynamicFileSz run) (maxFileSz (mutate (global run)))).
  - simpl. split; [apply same_frame_size_kept; auto with frame|lia].
  - rewrite (size_t_small (maxFileSz (mutate (global run)) - dynamicFileSz run))
      by lia.
    set (n' := if n >? maxFileSz (mutate (global run)) - dynamicFileSz run
               then maxFileSz (mutate (global run)) - dynamicFileSz run
               else n).
    assert (Hn' : n' = Z.min n (maxFileSz (mutate (global run)) - dynamicFileSz run)).
    { unfold n'.
      destruct (Z.gtb_spec n (maxFileSz (mutate (global run)) - dynamicFileSz run));
        lia. }
    rewrite (size_t_small (dynamicFileSz run + n')) by lia.
    split.
    + eapply size_kept_frame; [|apply same_frame_rndBuf_at].
      eapply size_kept_frame; [|apply same_frame_Move].
      unfold size_kept, size_ok. simpl. repeat split; lia.
    + destruct (same_frame_rndBuf_at
                  (mangle_Move (input_setSize run (dynamicFileSz run + n')) off
                     (size_t (off + n'))
                     (dynamicFileSz (input_setSize run (dynamicFileSz run + n'))))
                  off n' printable t) as (_ & E & _).
      rewrite E.
      destruct (same_frame_Move (input_setSize run (dynamicFileSz run + n')) off
                  (size_t (off + n'))
                  (dynamicFileSz (input_setSize run (dynamicFileSz run + n'))))
        as (_ & E' & _).
      rewrite E'. simpl. lia.
Qed.

Lemma off_range (run : run_t) (t : rng) :
  size_ok run -> maxFileSz (mutate (global run)) <= SIZE_MAX ->
  0 <= fst (util_rndGet 0 (size_t (dynamicFileSz run - 1)) t)
    <= dynamicFileSz run - 1.
Proof.
  intros Hok Hmax. unfold size_ok in Hok.
  rewrite size_t_small by lia. apply util_rndGet_range. lia.
Qed.

Lemma size_kept_Expand (run : run_t) (printable : bool) (t : rng) :
  size_ok run -> maxFileSz (mutate (global run)) <= SIZE_MAX ->
  size_kept run (fst (mangle_Expand run printable t)).
Proof.
  intros Hok Hmax. unfold mangle_Expand, bind. cbv beta.
  apply size_kept_Inflate; auto.
  pose proof (off_range run t Hok Hmax) as Hoff.
  unfold size_ok in Hok.
  rewrite (size_t_small (dynamicFileSz run - _)) by lia.
  match goal with
  | |- 0 <= fst (util_rndGet 1 ?hi ?t') =>
      pose proof (util_rndGet_range 1 hi t' ltac:(lia))
  end.
  lia.
Qed.

Lemma size_kept_DictionaryInsertNoCheck (run : run_t) (printable : bool) (t : rng) :
  size_ok run -> maxFileSz (mutate (global run)) <= SIZE_MAX ->
  size_kept run (fst (mangle_DictionaryInsertNoCheck run printable t)).
Proof.
  intros Hok Hmax. unfold mangle_DictionaryInsertNoCheck, bind, ret.
  cbv beta. cbn [fst snd].
  eapply size_kept_frame; [|apply same_frame_Overwrite].
  apply size_kept_Inflate; auto. unfold len. lia.
Qed.

Lemma size_kept_DictionaryInsert (run : run_t) (printable : bool) (t : rng) :
  size_ok run -> maxFileSz (mutate (global run)) <= SIZE_MAX ->
  size_kept run (fst (mangle_DictionaryInsert run printable t)).
Proof.
  intros Hok Hmax. unfold mangle_DictionaryInsert.
  destruct (dictionaryCnt (mutate (global run)) =? 0).
  - apply same_frame_size_kept; auto. apply same_frame_Bit.
  - apply size_kept_DictionaryInsertNoCheck; auto.
Qed.

Lemma size_kept_Shrink (run : run_t) (printable : bool) (t : rng) :
  size_ok run -> maxFileSz (mutate (global run)) <= SIZE_MAX ->
  size_kept run (fst (mangle_Shrink run printable t)).
Proof.
  intros Hok Hmax. unfold mangle_Shrink.
  destruct (Z.leb_spec (dynamicFileSz run) 1).
  - apply same_frame_size_kept; auto. apply same_frame_refl.
  - unfold bind, ret. cbv beta. cbn [fst snd].
    eapply size_kept_frame; [|apply same_frame_Move].
    unfold size_ok in Hok.
    rewrite (size_t_small (dynamicFileSz run - 1)) by lia.
    pose proof (util_rndGet_range 1 (dynamicFileSz run - 1) t ltac:(lia)) as Hlen.
    rewrite (size_t_small (dynamicFileSz run - _)) by lia.
    unfold size_kept, size_ok, input_setSize.
    cbn [global dynamicFileSz mutationsPerRun]. repeat split; lia.
Qed.

(** The size [mangle_Resize] asks for, whatever was drawn. *)
Lemma clamp_range (newsz max : Z) :
  1 <= max <= SSIZE_MAX ->
  let newsz1 := if newsz <? 1 then 1 else newsz in
  let newsz2 := if newsz1 >? ssize_t max then ssize_t max else newsz1 in
  newsz2 = Z.max 1 (Z.min max newsz).
Proof.
  intros Hmax. cbv zeta.
  rewrite (ssize_t_small max) by lia.
  destruct (Z.ltb_spec newsz 1).
  - destruct (Z.gtb_spec 1 max); lia.
  - destruct (Z.gtb_spec newsz max); lia.
Qed.

Lemma size_kept_Resize (run : run_t) (printable : bool) (t : rng) :
  size_ok run -> maxFileSz (mutate (global run)) <= SSIZE_MAX ->
  size_kept run (fst (mangle_Resize run printable t)).
Proof.
  intros Hok Hmax. unfold size_ok in Hok. unfold mangle_Resize.
  unfold bind at 1. cbv beta. unfold bind at 1. cbv beta.
  match goal with
  | |- context [if (if ?x <? 1 then 1 else ?x) >? ssize_t ?m then _ else _] =>
      rewrite (clamp_range x m) by lia;
      set (newsz := Z.max 1 (Z.min m x))
  end.
  assert (Hnew : 1 <= newsz <= maxFileSz (mutate (global run)))
    by (unfold newsz; lia).
  assert (HS : SSIZE_MAX < SIZE_MAX) by (unfold SSIZE_MAX, SIZE_MAX; lia).
  rewrite (size_t_small newsz) by lia.
  match goal with
  | |- context [if ?b then _ else _] => destruct b
  end.
  - eapply size_kept_frame; [|apply same_frame_rndBuf_at].
    unfold size_kept, size_ok. simpl. repeat split; lia.
  - unfold ret. cbn [fst]. unfold size_kept, size_ok. simpl. repeat split; lia.
Qed.

Lemma SSIZE_MAX_lt_SIZE_MAX : SSIZE_MAX < SIZE_MAX.
Proof. unfold SSIZE_MAX, SIZE_MAX. lia. Qed.

Lemma size_kept_trans (r1 r2 r3 : run_t) :
  size_kept r1 r2 -> size_kept r2 r3 -> size_kept r1 r3.
Proof.
  unfold size_kept. intros (A & B & C) (D & E & F).
  split; [congruence|]. split; [congruence|exact F].
Qed.

Lemma keeps_size_frame (op : run_t -> bool -> Rnd run_t) :
  (forall run printable t, same_frame run (fst (op run printable t))) ->
  keeps_size op.
Proof.
  intros H run printable t Hok _. apply same_frame_size_kept; auto.
Qed.

Lemma keeps_size_mangleFuncs : Forall keeps_size mangleFuncs.
Proof.
  pose proof SSIZE_MAX_lt_SIZE_MAX as HS.
  unfold mangleFuncs.
  repeat match goal with
         | |- Forall _ (_ :: _) => constructor
         | |- Forall _ [] => constructor
         end.
  - apply keeps_size_frame, same_frame_Bit.
  - apply keeps_size_frame, same_frame_Bytes.
  - apply keeps_size_frame, same_frame_Magic.
  - apply keeps_size_frame, same_frame_IncByte.
  - apply keeps_size_frame, same_frame_DecByte.
  - apply keeps_size_frame, same_frame_NegByte.
  - apply keeps_size_frame, same_frame_AddSub.
  - apply keeps_size_frame, same_frame_Dictionary.
  - intros run printable t Hok Hmax. apply size_kept_DictionaryInsert; auto. lia.
  - apply keeps_size_frame, same_frame_MemMove.
  - apply keeps_size_frame, same_frame_MemSet.
  - apply keeps_size_frame, same_frame_Random.
  - apply keeps_size_frame, same_frame_CloneByte.
  - intros run printable t Hok Hmax. apply size_kept_Expand; auto. lia.
  - intros run printable t Hok Hmax. apply size_kept_Shrink; auto. lia.
  - apply keeps_size_frame, same_frame_ASCIIVal.
Qed.

Lemma keeps_size_nth (choice : nat) :
  keeps_size (nth choice mangleFuncs (fun run _ => ret run)).
Proof.
  destruct (Nat.lt_ge_cases choice (length mangleFuncs)) as [H|H].
  - apply (proj1 (Forall_forall keeps_size mangleFuncs) keeps_size_mangleFuncs).
    apply nth_In. exact H.
  - rewrite nth_overflow by exact H.
    apply keeps_size_frame. intros. apply same_frame_refl.
Qed.

Lemma size_kept_loop (n : nat) :
  forall (run : run_t) (t : rng),
    size_ok run -> maxFileSz (mutate (global run)) <= SSIZE_MAX ->
    size_kept run (fst (mangle_loop n run t)).
Proof.
  induction n as [|n IH]; intros run t Hok Hmax.
  - simpl. apply same_frame_size_kept; auto. apply same_frame_refl.
  - cbn [mangle_loop]. unfold bind at 1. cbv beta. unfold bind at 1. cbv beta.
    match goal with
    | |- size_kept _ (fst (mangle_loop n (fst (nth ?c _ _ run ?p ?t')) _)) =>
        pose proof (keeps_size_nth c run p t' Hok Hmax) as Hstep
    end.
    eapply size_kept_trans; [exact Hstep|].
    destruct Hstep as (A & B & C).
    apply IH; [exact C|]. rewrite A. exact Hmax.
Qed.

Lemma size_kept_mangleContent (run : run_t) (t : rng) :
  size_ok run -> maxFileSz (mutate (global run)) <= SSIZE_MAX ->
  size_kept run (fst (mangle_mangleContent run t)).
Proof.
  intros Hok Hmax. unfold mangle_mangleContent.
  destruct (mutationsPerRun run =? 0).
  - apply same_frame_size_kept; auto. apply same_frame_refl.
  - unfold bind at 1. cbv beta. unfold bind at 1. cbv beta.
    pose proof (size_kept_Resize run (only_printable (cfg (global run))) t Hok Hmax)
      as Hres.
    eapply size_kept_trans; [exact Hres|].
    destruct Hres as (A & B & C).
    apply size_kept_loop; [exact C|]. rewrite A. exact Hmax.
Qed.

(** ** [mangle_Overwrite], byte by byte *)

Lemma mangle_Overwrite_eq (run : run_t) (src : list Z) (off sz : Z) :
  0 <= off <= dynamicFileSz run -> dynamicFileSz run <= SIZE_MAX ->
  mangle_Overwrite run src off sz =
  set_dynamicFile run
    (memmove_in (dynamicFile run) off src (Z.min sz (dynamicFileSz run - off))).
Proof.
  intros Hoff Hsz. unfold mangle_Overwrite.
  rewrite size_t_small by lia.
  destruct (Z.gtb_spec sz (dynamicFileSz run - off)); f_equal; f_equal; lia.
Qed.

Lemma load_Overwrite (run : run_t) (src : list Z) (off sz i : Z) :
  0 <= off <= dynamicFileSz run -> dynamicFileSz run <= SIZE_MAX ->
  dynamicFileSz run <= Z.of_nat (length (dynamicFile run)) ->
  0 <= sz <= Z.of_nat (length src) -> 0 <= i ->
  load (dynamicFile (mangle_Overwrite run src off sz)) i =
  if (off <=? i) && (i <? off + Z.min sz (dynamicFileSz run - off))
  then nth (Z.to_nat (i - off)) src 0
  else load (dynamicFile run) i.
Proof.
  intros Hoff Hsz Hcap Hlen Hi. rewrite mangle_Overwrite_eq by lia.
  unfold set_dynamicFile, memmove_in, load. cbn [dynamicFile].
  set (n := Z.min sz (dynamicFileSz run - off)).
  assert (Hn : 0 <= n <= sz) by (unfold n; lia).
  assert (Hf : length (firstn (Z.to_nat n) src) = Z.to_nat n)
    by (rewrite length_firstn; lia).
  destruct (Z.leb_spec off i); simpl.
  - destruct (Z.ltb_spec i (off + n)).
    + rewrite nth_memwrite_in by (unfold n in *; lia).
      rewrite nth_firstn.
      replace (Z.to_nat i - Z.to_nat off <? Z.to_nat n)%nat with true
        by (symmetry; apply Nat.ltb_lt; lia).
      f_equal. lia.
    + apply nth_memwrite_out. lia.
  - apply nth_memwrite_out. lia.
Qed.

(** ** The random fill *)

Lemma rndBuf_n_spec (n : nat) (t : rng) :
  length (fst (rndBuf_n n t)) = n /\
  Forall (fun b => 0 <= b <= 255) (fst (rndBuf_n n t)) /\
  snd (rndBuf_n n t) = skipn n t.
Proof.
  revert t. induction n as [|n IH]; intros t.
  - simpl. auto.
  - cbn [rndBuf_n]. unfold bind, ret. cbv beta. cbn [fst snd].
    rewrite util_rndGet_tape.
    destruct (IH (tl t)) as (A & B & C).
    split; [simpl; now rewrite A|]. split.
    + constructor; [|exact B].
      apply (util_rndGet_range 0 UINT8_MAX). unfold UINT8_MAX. lia.
    + rewrite C. destruct t; [destruct n|]; reflexivity.
Qed.

Lemma rndBufPrintable_n_spec (n : nat) (t : rng) :
  length (fst (rndBufPrintable_n n t)) = n /\
  Forall (fun b => 32 <= b <= 126) (fst (rndBufPrintable_n n t)) /\
  snd (rndBufPrintable_n n t) = skipn n t.
Proof.
  revert t. induction n as [|n IH]; intros t.
  - simpl. auto.
  - cbn [rndBufPrintable_n]. unfold bind, ret. cbv beta. cbn [fst snd].
    unfold util_rndPrintable. rewrite util_rndGet_tape.
    destruct (IH (tl t)) as (A & B & C).
    split; [simpl; now rewrite A|]. split.
    + constructor; [|exact B].
      apply (util_rndGet_range 32 126). lia.
    + rewrite C. destruct t; [destruct n|]; reflexivity.
Qed.

(** [mangle_Resize] when no addition wraps around: the size drawn, clamped,
    and the fill when the buffer grows. *)
Lemma mangle_Resize_eq (run : run_t) (printable : bool) (t : rng) :
  size_ok run ->
  maxFileSz (mutate (global run)) + 8 <= SSIZE_MAX ->
  let oldSize := dynamicFileSz run in
  let max := maxFileSz (mutate (global run)) in
  let v := fst (util_rndGet 0 16 t) in
  let t1 := if v =? 0 then tl (tl t) else tl t in
  let drawn :=
    if v =? 0 then fst (util_rndGet 1 max (tl t))
    else if v <=? 8 then oldSize + v
    else oldSize + 8 - v in
  let newSize := Z.max 1 (Z.min max drawn) in
  mangle_Resize run printable t =
  if newSize >? oldSize
  then rndBuf_at (input_setSize run newSize) oldSize (newSize - oldSize)
         printable t1
  else (input_setSize run newSize, t1).
Proof.
  intros Hok Hmax oldSize max v t1 drawn newSize.
  unfold size_ok in Hok. fold max in Hok, Hmax. fold oldSize in Hok.
  pose proof SSIZE_MAX_lt_SIZE_MAX as HS.
  assert (Hv : 0 <= v <= 16) by (apply util_rndGet_range; lia).
  unfold mangle_Resize. fold oldSize max.
  unfold bind at 1. cbv beta. fold v. rewrite util_rndGet_tape.
  unfold bind at 1. cbv beta.
  set (m := if v =? 0 then _ else _).
  assert (Hm : m (tl t) = (drawn, t1)).
  { unfold m, drawn, t1.
    destruct (Z.eqb_spec v 0).
    - unfold bind, ret. cbv beta. rewrite util_rndGet_tape.
      pose proof (util_rndGet_range 1 max (tl t) ltac:(lia)).
      rewrite ssize_t_small by lia. reflexivity.
    - destruct (Z.leb_spec 1 v); [|lia].
      destruct (Z.leb_spec v 8); cbn [andb].
      + unfold ret. rewrite ssize_t_small by lia. reflexivity.
      + destruct (Z.leb_spec 9 v); [|lia].
        destruct (Z.leb_spec v 16); [|lia]. cbn [andb].
        unfold ret. rewrite ssize_t_small by lia. reflexivity. }
  rewrite Hm. cbn [fst snd].
  rewrite (clamp_range drawn max) by lia. fold newSize.
  assert (Hnew : 1 <= newSize <= max) by (unfold newSize; lia).
  rewrite (size_t_small newSize) by lia.
  rewrite (ssize_t_small oldSize) by lia.
  destruct (Z.gtb_spec newSize oldSize).
  - rewrite size_t_small by lia. reflexivity.
  - reflexivity.
Qed.

Lemma rndBuf_fill_spec (n : Z) (printable : bool) (t : rng) :
  0 <= n ->
  let fill :=
    fst ((if printable then util_rndBufPrintable n else util_rndBuf n) t) in
  Z.of_nat (length fill) = n /\
  Forall (fun b => if printable then 32 <= b <= 126 else 0 <= b <= 255) fill /\
  snd ((if printable then util_rndBufPrintable n else util_rndBuf n) t) =
    skipn (Z.to_nat n) t.
Proof.
  intros Hn. destruct printable; cbv zeta.
  - unfold util_rndBufPrintable.
    destruct (rndBufPrintable_n_spec (Z.to_nat n) t) as (A & B & C).
    rewrite A. repeat split; auto. lia.
  - unfold util_rndBuf.
    destruct (rndBuf_n_spec (Z.to_nat n) t) as (A & B & C).
    rewrite A. repeat split; auto. lia.
Qed.

(** ** Wrap-around *)

(** A signed integer of [w] bits lies in the signed range and differs from
    the exact value by a multiple of [2 ^ w]. *)
Lemma swrap_spec (w x : Z) :
  0 < w ->
  - 2 ^ (w - 1) <= swrap w x < 2 ^ (w - 1) /\
  (swrap w x - x) mod 2 ^ w = 0.
Proof.
  intros Hw. unfold swrap.
  assert (Hp : 2 ^ w = 2 * 2 ^ (w - 1)).
  { replace w with (Z.succ (w - 1)) at 1 by lia. apply Z.pow_succ_r. lia. }
  assert (Hh : 0 < 2 ^ (w - 1)) by (apply Z.pow_pos_nonneg; lia).
  pose proof (Z.mod_pos_bound (x + 2 ^ (w - 1)) (2 ^ w) ltac:(lia)) as Hb.
  split; [lia|].
  pose proof (Z.div_mod (x + 2 ^ (w - 1)) (2 ^ w) ltac:(lia)) as Hdm.
  replace ((x + 2 ^ (w - 1)) mod 2 ^ w - 2 ^ (w - 1) - x)
    with (- ((x + 2 ^ (w - 1)) / 2 ^ w) * 2 ^ w) by lia.
  apply Z.mod_mul. lia.
Qed.

Lemma uint64_t_odd (k : Z) : Z.land (uint64_t (2 * k + 1)) 1 = 1.
Proof.
  unfold uint64_t, wrap.
  change 1 with (Z.ones 1) at 2. rewrite Z.land_ones by lia.
  change (2 ^ 1) with 2.
  change (2 ^ 64) with (2 * 2 ^ 63).
  rewrite Z.rem_mul_r by lia.
  replace (2 * k + 1) with (1 + k * 2) by lia. rewrite Z.mod_add by lia.
  change (1 mod 2) with 1.
  replace (1 + 2 * (((1 + k * 2) / 2) mod 2 ^ 63))
    with (1 + (((1 + k * 2) / 2) mod 2 ^ 63) * 2) by lia.
  rewrite Z.mod_add by lia. reflexivity.
Qed.

Lemma delta_range (t : rng) :
  let r := fst (util_rndGet 0 8192 t) in
  0 <= r <= 8192 /\ int (int r - 4096) = r - 4096.
Proof.
  cbv zeta. pose proof (util_rndGet_range 0 8192 t ltac:(lia)) as Hr.
  split; [exact Hr|].
  rewrite (int_small (fst (util_rndGet 0 8192 t))) by lia.
  apply int_small. lia.
Qed.

(** ** Printable bytes and lengths *)

Lemma turnToPrintable_byte_printable (b : Z) :
  printable_byte (turnToPrintable_byte b).
Proof.
  unfold printable_byte, turnToPrintable_byte.
  destruct (Z.ltb_spec b 32); simpl.
  - pose proof (Z.mod_pos_bound b 95 ltac:(lia)). lia.
  - destruct (Z.gtb_spec b 126).
    + pose proof (Z.mod_pos_bound b 95 ltac:(lia)). lia.
    + lia.
Qed.

Lemma Forall_nth_Z (P : Z -> Prop) (l : list Z) :
  (forall i, (i < length l)%nat -> P (nth i l 0)) -> Forall P l.
Proof.
  intros H. apply Forall_forall. intros x Hx.
  destruct (In_nth l x 0 Hx) as (i & Hi & <-). auto.
Qed.

Lemma nth_Forall_Z (P : Z -> Prop) (l : list Z) (i : nat) :
  Forall P l -> (i < length l)%nat -> P (nth i l 0).
Proof.
  intros H Hi. apply (proj1 (Forall_forall P l) H). apply nth_In. exact Hi.
Qed.

Lemma uint8_t_printable (b : Z) : printable_byte b -> uint8_t b = b.
Proof.
  unfold printable_byte, uint8_t, wrap. intros H.
  apply Z.mod_small. change (2 ^ 8) with 256. lia.
Qed.

Lemma Forall_firstn_Z (P : Z -> Prop) (n : nat) (l : list Z) :
  Forall P l -> Forall P (firstn n l).
Proof. intros H. apply (Forall_memread P l 0 n H). Qed.

Lemma uint_chars_printable (u : Decimal.uint) :
  Forall printable_byte (uint_chars u).
Proof.
  induction u; simpl; constructor; auto; unfold printable_byte; lia.
Qed.

Lemma snprintf_PRId64_printable (v : Z) :
  Forall printable_byte (snprintf_PRId64 v).
Proof.
  unfold snprintf_PRId64. destruct (Z.to_int v).
  - apply uint_chars_printable.
  - constructor; [unfold printable_byte; lia|apply uint_chars_printable].
Qed.

(** The length of the backing store never changes. *)
Lemma length_Overwrite (run : run_t) (src : list Z) (off sz : Z) :
  length (dynamicFile (mangle_Overwrite run src off sz)) =
  length (dynamicFile run).
Proof. apply length_memwrite. Qed.

Lemma length_Move (run : run_t) (off_from off_to n : Z) :
  length (dynamicFile (mangle_Move run off_from off_to n)) =
  length (dynamicFile run).
Proof.
  unfold mangle_Move.
  destruct (off_from >=? dynamicFileSz run); auto.
  destruct (off_to >=? dynamicFileSz run); auto.
  apply length_memwrite.
Qed.

Lemma length_rndBuf_at (run : run_t) (off n : Z) (printable : bool) (t : rng) :
  length (dynamicFile (fst (rndBuf_at run off n printable t))) =
  length (dynamicFile run).
Proof. apply length_memwrite. Qed.

Lemma length_store (run : run_t) (off v : Z) :
  length (dynamicFile (store run off v)) = length (dynamicFile run).
Proof. apply length_memwrite. Qed.

Lemma length_turnToPrintable_at (run : run_t) (off n : Z) :
  length (dynamicFile (turnToPrintable_at run off n)) = length (dynamicFile run).
Proof. apply length_memwrite. Qed.


Lemma rem95_printable (b k : Z) :
  printable_byte b -> 0 <= k ->
  printable_byte (uint8_t (Z.rem (b - 32 + k) 95 + 32)).
Proof.
  intros Hb Hk. unfold printable_byte in Hb.
  rewrite Z.rem_mod_nonneg by lia.
  pose proof (Z.mod_pos_bound (b - 32 + k) 95 ltac:(lia)) as Hm.
  assert (Hp : printable_byte ((b - 32 + k) mod 95 + 32))
    by (unfold printable_byte; lia).
  rewrite uint8_t_printable; auto.
Qed.

(** [mangle_AddSubWithRange] stores at most [varLen] bytes at [off]. *)
Lemma AddSubWithRange_shape (run : run_t) (off varLen : Z) (t : rng) :
  exists src,
    dynamicFile (fst (mangle_AddSubWithRange run off varLen t)) =
      memwrite (dynamicFile run) (Z.to_nat off) src /\
    (length src <= Z.to_nat varLen)%nat.
Proof.
  unfold mangle_AddSubWithRange. unfold bind at 1. cbv beta.
  assert (Hcase : forall delta w t',
            exists src,
              dynamicFile (fst (AddSub_case run off varLen delta w t')) =
                memwrite (dynamicFile run) (Z.to_nat off) src /\
              (length src <= Z.to_nat varLen)%nat).
  { intros delta w t'. unfold AddSub_case, bind, ret. cbv beta. cbn [fst snd].
    unfold mangle_Overwrite, memmove_in. cbn [set_dynamicFile dynamicFile].
    eexists. split; [reflexivity|].
    rewrite length_firstn.
    match goal with
    | |- context [if ?a >? ?b then _ else _] => destruct (Z.gtb_spec a b)
    end; lia. }
  destruct (Z.eqb_spec varLen 1) as [->|].
  - unfold ret, store. cbn [fst set_dynamicFile dynamicFile].
    eexists. split; [reflexivity|]. simpl. lia.
  - destruct (varLen =? 2); [apply Hcase|].
    destruct (varLen =? 4); [apply Hcase|].
    destruct (varLen =? 8); [apply Hcase|].
    exists []. unfold ret. cbn [fst]. rewrite memwrite_nil.
    split; [reflexivity|simpl; lia].
Qed.

Lemma dict_entry_printable (run : run_t) (choice : Z) :
  printable_dict run ->
  Forall printable_byte (s (dict_entry (dictq (mutate (global run))) choice)).
Proof.
  intros Hd. unfold dict_entry, printable_dict in *.
  destruct (Nat.lt_ge_cases (Z.to_nat choice)
              (length (dictq (mutate (global run))))) as [H|H].
  - apply (proj1 (Forall_forall _ _) Hd). apply nth_In. exact H.
  - rewrite nth_overflow by exact H. constructor.
Qed.

(** ** The bytes the operators store

    Every operator but [mangle_Magic] in printable mode stores below the
    size of the buffer it leaves; [mangle_Magic] in printable mode stores
    below [size + 7]. *)

Lemma stores_below_tail (sz : nat) (buf buf' : list Z) :
  stores_below sz buf buf' ->
  length buf' = length buf /\
  forall i, (sz <= i)%nat -> nth i buf' 0 = nth i buf 0.
Proof.
  induction 1 as [|buf' off src Hs [IHl IHn] Hle].
  - auto.
  - split.
    + rewrite length_memwrite. exact IHl.
    + intros i Hi. rewrite nth_memwrite_out by lia. apply IHn. exact Hi.
Qed.

Lemma stores_below_trans (sz : nat) (a b c : list Z) :
  stores_below sz a b -> stores_below sz b c -> stores_below sz a c.
Proof.
  intros Hab Hbc. induction Hbc; [exact Hab|].
  apply stores_more; auto.
Qed.

Lemma stores_below_mono (sz sz' : nat) (a b : list Z) :
  (sz <= sz')%nat -> stores_below sz a b -> stores_below sz' a b.
Proof.
  intros Hle Hab. induction Hab; [apply stores_none|].
  apply stores_more; auto. lia.
Qed.

Lemma stores_below_one (sz : nat) (buf : list Z) (off : nat) (src : list Z) :
  (off + length src <= sz)%nat -> stores_below sz buf (memwrite buf off src).
Proof. intros H. apply stores_more; [apply stores_none|exact H]. Qed.

Lemma stores_store (run : run_t) (off v : Z) :
  0 <= off < dynamicFileSz run ->
  stores_below (Z.to_nat (dynamicFileSz run)) (dynamicFile run)
    (dynamicFile (store run off v)).
Proof.
  intros H. unfold store. cbn [set_dynamicFile dynamicFile].
  apply stores_below_one. simpl. lia.
Qed.

Lemma stores_Overwrite (run : run_t) (src : list Z) (off sz : Z) :
  0 <= off <= dynamicFileSz run -> dynamicFileSz run <= SIZE_MAX ->
  stores_below (Z.to_nat (dynamicFileSz run)) (dynamicFile run)
    (dynamicFile (mangle_Overwrite run src off sz)).
Proof.
  intros Hoff Hsz. rewrite mangle_Overwrite_eq by lia.
  unfold memmove_in. cbn [set_dynamicFile dynamicFile].
  apply stores_below_one. rewrite length_firstn. lia.
Qed.

Lemma stores_Move (run : run_t) (off_from off_to n : Z) :
  dynamicFileSz run <= SSIZE_MAX ->
  0 <= off_from -> 0 <= off_to -> 0 <= n <= SSIZE_MAX ->
  stores_below (Z.to_nat (dynamicFileSz run)) (dynamicFile run)
    (dynamicFile (mangle_Move run off_from off_to n)).
Proof.
  intros Hsz Hf Ht Hn.
  destruct (Z.lt_ge_cases off_from (dynamicFileSz run)) as [Hf'|Hf'];
    [destruct (Z.lt_ge_cases off_to (dynamicFileSz run)) as [Ht'|Ht']|].
  - rewrite mangle_Move_inside by lia.
    unfold memmove, memread. cbn [set_dynamicFile dynamicFile].
    apply stores_below_one. rewrite length_firstn. lia.
  - rewrite mangle_Move_outside by lia. apply stores_none.
  - rewrite mangle_Move_outside by lia. apply stores_none.
Qed.

Lemma stores_rndBuf_at (run : run_t) (off n : Z) (printable : bool) (t : rng) :
  0 <= off -> 0 <= n -> off + n <= dynamicFileSz run ->
  stores_below (Z.to_nat (dynamicFileSz run)) (dynamicFile run)
    (dynamicFile (fst (rndBuf_at run off n printable t))).
Proof.
  intros Hoff Hn Hle. unfold rndBuf_at, bind, ret. cbv beta.
  cbn [fst set_dynamicFile dynamicFile].
  apply stores_below_one.
  destruct (rndBuf_fill_spec n printable t Hn) as (Hl & _). lia.
Qed.

Lemma stores_turnToPrintable_at (sz : nat) (run : run_t) (off n : Z) :
  0 <= off -> (Z.to_nat off + Z.to_nat n <= sz)%nat ->
  stores_below sz (dynamicFile run) (dynamicFile (turnToPrintable_at run off n)).
Proof.
  intros Hoff Hle. unfold turnToPrintable_at, util_turnToPrintable, memread.
  cbn [set_dynamicFile dynamicFile].
  apply stores_below_one. rewrite length_map, length_firstn. lia.
Qed.

Lemma writes_inside_frame (run r1 r2 : run_t) :
  writes_inside run r1 -> same_frame r1 r2 ->
  stores_below (Z.to_nat (dynamicFileSz r1)) (dynamicFile r1) (dynamicFile r2) ->
  writes_inside run r2.
Proof.
  unfold writes_inside. intros H1 (_ & E & _) H2. rewrite E.
  eapply stores_below_trans; eassumption.
Qed.

Lemma writes_inside_refl (run : run_t) : writes_inside run run.
Proof. apply stores_none. Qed.

Lemma writes_ok_MemMove (printable : bool) : writes_ok mangle_MemMove printable.
Proof.
  intros run t Hok Hmax. pose proof SSIZE_MAX_lt_SIZE_MAX as HS.
  unfold mangle_MemMove, bind, ret. cbv beta. cbn [fst snd].
  eapply writes_inside_frame;
    [apply writes_inside_refl|apply same_frame_Move|].
  unfold size_ok in Hok.
  apply stores_Move; try lia.
  - apply off_range; [exact Hok|lia].
  - apply off_range; [exact Hok|lia].
  - match goal with
    | |- 0 <= fst (util_rndGet 0 ?hi ?t') <= _ =>
        pose proof (util_rndGet_range 0 hi t' ltac:(lia))
    end. lia.
Qed.

Lemma writes_ok_Bytes (printable : bool) : writes_ok mangle_Bytes printable.
Proof.
  intros run t Hok Hmax. pose proof SSIZE_MAX_lt_SIZE_MAX as HS.
  unfold mangle_Bytes, bind, ret. cbv beta. cbn [fst snd].
  eapply writes_inside_frame;
    [apply writes_inside_refl|apply same_frame_Overwrite|].
  pose proof (off_range run t Hok ltac:(lia)).
  unfold size_ok in Hok. apply stores_Overwrite; lia.
Qed.

Lemma writes_ok_Bit (printable : bool) : writes_ok mangle_Bit printable.
Proof.
  intros run t Hok Hmax. pose proof SSIZE_MAX_lt_SIZE_MAX as HS.
  unfold mangle_Bit, bind, ret. cbv beta. cbn [fst snd].
  pose proof (off_range run t Hok ltac:(lia)) as Hoff.
  set (off := fst (util_rndGet 0 (size_t (dynamicFileSz run - 1)) t)) in *.
  match goal with
  | |- context [store run off ?v] => set (r1 := store run off v)
  end.
  assert (H1 : writes_inside run r1).
  { eapply writes_inside_frame;
      [apply writes_inside_refl|apply same_frame_store|].
    apply stores_store. lia. }
  destruct printable; [|exact H1].
  eapply writes_inside_frame;
    [exact H1|apply same_frame_turnToPrintable_at|].
  apply stores_turnToPrintable_at; [lia|]. simpl. cbn. lia.
Qed.

Lemma writes_ok_Magic : writes_ok mangle_Magic false.
Proof.
  intros run t Hok Hmax. pose proof SSIZE_MAX_lt_SIZE_MAX as HS.
  unfold mangle_Magic, bind, ret. cbv beta. cbn [fst snd].
  eapply writes_inside_frame;
    [apply writes_inside_refl|apply same_frame_Overwrite|].
  pose proof (off_range run t Hok ltac:(lia)).
  unfold size_ok in Hok. apply stores_Overwrite; lia.
Qed.

Lemma writes_ok_IncByte (printable : bool) : writes_ok mangle_IncByte printable.
Proof.
  intros run t Hok Hmax. pose proof SSIZE_MAX_lt_SIZE_MAX as HS.
  unfold mangle_IncByte, bind, ret. cbv beta. cbn [fst snd].
  pose proof (off_range run t Hok ltac:(lia)).
  destruct printable;
    (eapply writes_inside_frame;
     [apply writes_inside_refl|apply same_frame_store|apply stores_store; lia]).
Qed.

Lemma writes_ok_DecByte (printable : bool) : writes_ok mangle_DecByte printable.
Proof.
  intros run t Hok Hmax. pose proof SSIZE_MAX_lt_SIZE_MAX as HS.
  unfold mangle_DecByte, bind, ret. cbv beta. cbn [fst snd].
  pose proof (off_range run t Hok ltac:(lia)).
  destruct printable;
    (eapply writes_inside_frame;
     [apply writes_inside_refl|apply same_frame_store|apply stores_store; lia]).
Qed.

Lemma writes_ok_NegByte (printable : bool) : writes_ok mangle_NegByte printable.
Proof.
  intros run t Hok Hmax. pose proof SSIZE_MAX_lt_SIZE_MAX as HS.
  unfold mangle_NegByte, bind, ret. cbv beta. cbn [fst snd].
  pose proof (off_range run t Hok ltac:(lia)).
  destruct printable;
    (eapply writes_inside_frame;
     [apply writes_inside_refl|apply same_frame_store|apply stores_store; lia]).
Qed.

Lemma writes_inside_AddSubWithRange (run : run_t) (off varLen : Z) (t : rng) :
  0 <= off < dynamicFileSz run -> dynamicFileSz run <= SIZE_MAX ->
  writes_inside run (fst (mangle_AddSubWithRange run off varLen t)).
Proof.
  intros Hoff Hsz.
  assert (Hcase : forall delta w t',
            writes_inside run (fst (AddSub_case run off varLen delta w t'))).
  { intros delta w t'. unfold AddSub_case, bind, ret. cbv beta. cbn [fst snd].
    eapply writes_inside_frame;
      [apply writes_inside_refl|apply same_frame_Overwrite|].
    apply stores_Overwrite; lia. }
  unfold mangle_AddSubWithRange. unfold bind at 1. cbv beta.
  destruct (varLen =? 1).
  - unfold ret. cbn [fst].
    eapply writes_inside_frame;
      [apply writes_inside_refl|apply same_frame_store|apply stores_store; lia].
  - destruct (varLen =? 2); [apply Hcase|].
    destruct (varLen =? 4); [apply Hcase|].
    destruct (varLen =? 8); [apply Hcase|].
    apply writes_inside_refl.
Qed.

Lemma writes_ok_AddSub (printable : bool) : writes_ok mangle_AddSub printable.
Proof.
  intros run t Hok Hmax. pose proof SSIZE_MAX_lt_SIZE_MAX as HS.
  unfold mangle_AddSub, bind, ret. cbv beta. cbn [fst snd].
  pose proof (off_range run t Hok ltac:(lia)) as Hoff.
  set (off := fst (util_rndGet 0 (size_t (dynamicFileSz run - 1)) t)) in *.
  unfold size_ok in Hok.
  rewrite (size_t_small (dynamicFileSz run - off)) by lia.
  match goal with
  | |- context [mangle_AddSubWithRange run off ?v ?t'] =>
      set (varLen := v);
      pose proof (writes_inside_AddSubWithRange run off varLen t'
                    ltac:(lia) ltac:(lia)) as H1;
      pose proof (same_frame_AddSubWithRange run off varLen t') as F1;
      set (r1 := fst (mangle_AddSubWithRange run off varLen t')) in *
  end.
  destruct printable; [|exact H1].
  eapply writes_inside_frame;
    [exact H1|apply same_frame_turnToPrintable_at|].
  destruct F1 as (_ & E & _). rewrite E.
  apply stores_turnToPrintable_at; [lia|].
  unfold varLen.
  match goal with
  | |- context [if ?a <? ?b then _ else _] => destruct (Z.ltb_spec a b)
  end; lia.
Qed.

Lemma writes_ok_Dictionary (printable : bool) : writes_ok mangle_Dictionary printable.
Proof.
  intros run t Hok Hmax. pose proof SSIZE_MAX_lt_SIZE_MAX as HS.
  unfold mangle_Dictionary.
  destruct (dictionaryCnt (mutate (global run)) =? 0).
  - apply writes_ok_Bit; auto.
  - unfold mangle_DictionaryNoCheck, bind, ret. cbv beta. cbn [fst snd].
    eapply writes_inside_frame;
      [apply writes_inside_refl|apply same_frame_Overwrite|].
    pose proof (off_range run t Hok ltac:(lia)).
    unfold size_ok in Hok. apply stores_Overwrite; lia.
Qed.

Lemma writes_inside_Inflate (run : run_t) (off n : Z) (printable : bool) (t : rng) :
  size_ok run -> maxFileSz (mutate (global run)) <= SSIZE_MAX ->
  0 <= off <= dynamicFileSz run -> 0 <= n ->
  writes_inside run (fst (mangle_Inflate run off n printable t)).
Proof.
  intros Hok Hmax Hoff Hn. pose proof SSIZE_MAX_lt_SIZE_MAX as HS.
  unfold size_ok in Hok. unfold mangle_Inflate.
  destruct (Z.geb_spec (dynamicFileSz run) (maxFileSz (mutate (global run)))).
  - apply writes_inside_refl.
  - rewrite (size_t_small (maxFileSz (mutate (global run)) - dynamicFileSz run))
      by lia.
    set (n' := if n >? maxFileSz (mutate (global run)) - dynamicFileSz run
               then maxFileSz (mutate (global run)) - dynamicFileSz run
               else n).
    assert (Hn' : 0 <= n' <= maxFileSz (mutate (global run)) - dynamicFileSz run).
    { unfold n'.
      destruct (Z.gtb_spec n (maxFileSz (mutate (global run)) - dynamicFileSz run));
        lia. }
    rewrite (size_t_small (dynamicFileSz run + n')) by lia.
    rewrite (size_t_small (off + n')) by lia.
    set (r1 := input_setSize run (dynamicFileSz run + n')).
    set (r2 := mangle_Move r1 off (off + n') (dynamicFileSz r1)).
    assert (E2 : dynamicFileSz r2 = dynamicFileSz run + n')
      by (apply (same_frame_Move r1)).
    assert (H2 : stores_below (Z.to_nat (dynamicFileSz run + n'))
                   (dynamicFile run) (dynamicFile r2)).
    { apply (stores_Move r1); unfold r1; cbn [input_setSize dynamicFileSz]; lia. }
    unfold writes_inside.
    destruct (same_frame_rndBuf_at r2 off n' printable t) as (_ & E3 & _).
    rewrite E3, E2.
    eapply stores_below_trans; [exact H2|].
    rewrite <- E2. apply stores_rndBuf_at; lia.
Qed.

Lemma writes_ok_DictionaryInsert (printable : bool) :
  writes_ok mangle_DictionaryInsert printable.
Proof.
  intros run t Hok Hmax. pose proof SSIZE_MAX_lt_SIZE_MAX as HS.
  unfold mangle_DictionaryInsert.
  destruct (dictionaryCnt (mutate (global run)) =? 0).
  - apply writes_ok_Bit; auto.
  - unfold mangle_DictionaryInsertNoCheck, bind, ret. cbv beta. cbn [fst snd].
    match goal with
    | |- context [mangle_Inflate run ?o ?n printable ?t'] =>
        pose proof (off_range run (snd (util_rndGet 0
                      (uint64_t (dictionaryCnt (mutate (global run)) - 1)) t))
                      Hok ltac:(lia)) as Hoff;
        pose proof (writes_inside_Inflate run o n printable t' Hok Hmax
                      ltac:(lia) ltac:(unfold len; lia)) as H1;
        destruct (size_kept_Inflate run o n printable t' Hok ltac:(lia)
                    ltac:(unfold len; lia)) as [(_ & _ & Hok1) Hsz1];
        set (r1 := fst (mangle_Inflate run o n printable t')) in *
    end.
    eapply writes_inside_frame; [exact H1|apply same_frame_Overwrite|].
    unfold size_ok in Hok1.
    apply stores_Overwrite; [|].
    + rewrite Hsz1.
      match goal with
      | |- 0 <= _ <= _ + Z.min ?a ?b =>
          assert (0 <= Z.min a b) by (unfold size_ok in Hok; unfold len; lia)
      end. lia.
    + destruct (size_kept_Inflate run
                  (fst (util_rndGet 0 (size_t (dynamicFileSz run - 1))
                          (snd (util_rndGet 0
                                  (uint64_t (dictionaryCnt (mutate (global run)) - 1))
                                  t))))
                  (len (dict_entry (dictq (mutate (global run)))
                          (fst (util_rndGet 0
                                  (uint64_t (dictionaryCnt (mutate (global run)) - 1))
                                  t))))
                  printable
                  (snd (util_rndGet 0 (size_t (dynamicFileSz run - 1))
                          (snd (util_rndGet 0
                                  (uint64_t (dictionaryCnt (mutate (global run)) - 1))
                                  t))))
                  Hok ltac:(lia) ltac:(unfold len; lia)) as [(Hg & _ & _) _].
      fold r1 in Hg. rewrite Hg in Hok1. lia.
Qed.

Lemma writes_ok_MemSet (printable : bool) : writes_ok mangle_MemSet printable.
Proof.
  intros run t Hok Hmax. pose proof SSIZE_MAX_lt_SIZE_MAX as HS.
  unfold mangle_MemSet, mangle_MemSetWithVal, bind, ret. cbv beta.
  cbn [fst snd].
  unfold writes_inside. cbn [set_dynamicFile dynamicFile dynamicFileSz].
  unfold memset. apply stores_below_one. rewrite repeat_length.
  match goal with
  | |- context [util_rndGet 0 (size_t (dynamicFileSz run - 1)) ?t'] =>
      pose proof (off_range run t' Hok ltac:(lia)) as Hoff;
      set (off := fst (util_rndGet 0 (size_t (dynamicFileSz run - 1)) t')) in *
  end.
  unfold size_ok in Hok.
  rewrite (size_t_small (dynamicFileSz run - off)) by lia.
  match goal with
  | |- context [util_rndGet 1 ?hi ?t'] =>
      pose proof (util_rndGet_range 1 hi t' ltac:(lia))
  end.
  lia.
Qed.

Lemma writes_ok_Random (printable : bool) : writes_ok mangle_Random printable.
Proof.
  intros run t Hok Hmax. pose proof SSIZE_MAX_lt_SIZE_MAX as HS.
  unfold mangle_Random, bind. cbv beta.
  pose proof (off_range run t Hok ltac:(lia)) as Hoff.
  set (off := fst (util_rndGet 0 (size_t (dynamicFileSz run - 1)) t)) in *.
  unfold size_ok in Hok.
  rewrite (size_t_small (dynamicFileSz run - off)) by lia.
  match goal with
  | |- context [util_rndGet 1 ?hi ?t'] =>
      pose proof (util_rndGet_range 1 hi t' ltac:(lia))
  end.
  eapply writes_inside_frame;
    [apply writes_inside_refl|apply same_frame_rndBuf_at|].
  apply stores_rndBuf_at; lia.
Qed.

Lemma writes_ok_CloneByte (printable : bool) : writes_ok mangle_CloneByte printable.
Proof.
  intros run t Hok Hmax. pose proof SSIZE_MAX_lt_SIZE_MAX as HS.
  unfold mangle_CloneByte, bind, ret. cbv beta. cbn [fst snd].
  pose proof (off_range run t Hok ltac:(lia)) as Hoff1.
  pose proof (off_range run (snd (util_rndGet 0 (size_t (dynamicFileSz run - 1)) t))
                Hok ltac:(lia)) as Hoff2.
  eapply writes_inside_frame; [|apply same_frame_store|].
  - eapply writes_inside_frame;
      [apply writes_inside_refl|apply same_frame_store|].
    apply stores_store. lia.
  - apply stores_store. cbn [store set_dynamicFile dynamicFileSz]. lia.
Qed.

Lemma writes_ok_Expand (printable : bool) : writes_ok mangle_Expand printable.
Proof.
  intros run t Hok Hmax. pose proof SSIZE_MAX_lt_SIZE_MAX as HS.
  unfold mangle_Expand, bind. cbv beta.
  pose proof (off_range run t Hok ltac:(lia)) as Hoff.
  set (off := fst (util_rndGet 0 (size_t (dynamicFileSz run - 1)) t)) in *.
  apply writes_inside_Inflate; auto; [lia|].
  unfold size_ok in Hok.
  rewrite (size_t_small (dynamicFileSz run - off)) by lia.
  match goal with
  | |- context [util_rndGet 1 ?hi ?t'] =>
      pose proof (util_rndGet_range 1 hi t' ltac:(lia))
  end.
  lia.
Qed.

Lemma writes_ok_Shrink (printable : bool) : writes_ok mangle_Shrink printable.
Proof.
  intros run t Hok Hmax. pose proof SSIZE_MAX_lt_SIZE_MAX as HS.
  unfold mangle_Shrink.
  destruct (Z.leb_spec (dynamicFileSz run) 1); [apply writes_inside_refl|].
  unfold bind, ret. cbv beta. cbn [fst snd].
  unfold size_ok in Hok.
  rewrite (size_t_small (dynamicFileSz run - 1)) by lia.
  pose proof (util_rndGet_range 1 (dynamicFileSz run - 1) t ltac:(lia)) as Hlen.
  set (n := fst (util_rndGet 1 (dynamicFileSz run - 1) t)) in *.
  pose proof (util_rndGet_range 0 n (snd (util_rndGet 1 (dynamicFileSz run - 1) t))
                ltac:(lia)) as Hoff.
  set (off := fst (util_rndGet 0 n _)) in *.
  assert (HS2 : 2 * SSIZE_MAX < SIZE_MAX) by (unfold SSIZE_MAX, SIZE_MAX; lia).
  rewrite (size_t_small (dynamicFileSz run - n)) by lia.
  rewrite (size_t_small (off + n)) by lia.
  set (r1 := input_setSize run (dynamicFileSz run - n)).
  unfold writes_inside.
  destruct (same_frame_Move r1 (off + n) off (dynamicFileSz r1)) as (_ & E & _).
  rewrite E.
  apply (stores_Move r1); unfold r1; cbn [input_setSize dynamicFileSz]; lia.
Qed.

Lemma writes_ok_ASCIIVal (printable : bool) : writes_ok mangle_ASCIIVal printable.
Proof.
  intros run t Hok Hmax. pose proof SSIZE_MAX_lt_SIZE_MAX as HS.
  unfold mangle_ASCIIVal, bind, ret. cbv beta. cbn [fst snd].
  eapply writes_inside_frame;
    [apply writes_inside_refl|apply same_frame_Overwrite|].
  pose proof (off_range run (snd (util_rnd64 t)) Hok ltac:(lia)).
  unfold size_ok in Hok. apply stores_Overwrite; lia.
Qed.

Lemma writes_inside_Resize (run : run_t) (printable : bool) (t : rng) :
  size_ok run -> maxFileSz (mutate (global run)) + 8 <= SSIZE_MAX ->
  writes_inside run (fst (mangle_Resize run printable t)).
Proof.
  intros Hok Hmax.
  rewrite (mangle_Resize_eq run printable t Hok Hmax). cbv zeta.
  unfold size_ok in Hok.
  match goal with
  | |- context [if ?a >? ?b then _ else _] =>
      destruct (Z.gtb_spec a b) as [Hgrow|Hkeep]
  end.
  - match goal with
    | |- writes_inside _ (fst (rndBuf_at ?r ?o ?n ?p ?t')) =>
        destruct (same_frame_rndBuf_at r o n p t') as (_ & E & _);
        unfold writes_inside; rewrite E;
        apply (stores_rndBuf_at r); cbn [input_setSize dynamicFileSz]; lia
    end.
  - apply stores_none.
Qed.

Lemma magic_size_le_8 (choice : nat) :
  0 <= size (nth choice mangleMagicVals (magic [] 0)) <= 8.
Proof.
  assert (H : forallb (fun m => (0 <=? size m) && (size m <=? 8)) mangleMagicVals
              = true) by (vm_compute; reflexivity).
  destruct (Nat.lt_ge_cases choice (length mangleMagicVals)) as [Hc|Hc].
  - pose proof (proj1 (forallb_forall _ _) H _ (nth_In _ (magic [] 0) Hc)) as Hm.
    apply andb_prop in Hm. destruct Hm as [H0 H8].
    apply Z.leb_le in H0. apply Z.leb_le in H8. lia.
  - rewrite nth_overflow by exact Hc. simpl. lia.
Qed.

(** [mangle_Magic] in printable mode stores below [size + 7]. *)
Lemma stores_Magic_printable (run : run_t) (t : rng) :
  size_ok run -> maxFileSz (mutate (global run)) <= SSIZE_MAX ->
  stores_below (Z.to_nat (dynamicFileSz run + 7)) (dynamicFile run)
    (dynamicFile (fst (mangle_Magic run true t))).
Proof.
  intros Hok Hmax. pose proof SSIZE_MAX_lt_SIZE_MAX as HS.
  unfold mangle_Magic, bind, ret. cbv beta. cbn [fst snd].
  pose proof (off_range run t Hok ltac:(lia)) as Hoff.
  set (off := fst (util_rndGet 0 (size_t (dynamicFileSz run - 1)) t)) in *.
  match goal with
  | |- context [nth ?c mangleMagicVals _] =>
      pose proof (magic_size_le_8 c) as Hm;
      set (m := nth c mangleMagicVals (magic [] 0)) in *
  end.
  unfold size_ok in Hok.
  apply (stores_below_trans _ _
           (dynamicFile (mangle_Overwrite run (val m) off (size m)))).
  - apply (stores_below_mono (Z.to_nat (dynamicFileSz run))); [lia|].
    apply stores_Overwrite; lia.
  - apply stores_turnToPrintable_at; lia.
Qed.

(** X3: Every operator stores inside the buffer it leaves, [mangle_Magic] when
    it is not in printable mode. *)
Theorem writes_inside_operators (run : run_t) (printable : bool) (t : rng) :
  size_ok run -> maxFileSz (mutate (global run)) + 8 <= SSIZE_MAX ->
  (forall op, In op mangleFuncs ->
     (op = mangle_Magic -> printable = false) ->
     writes_inside run (fst (op run printable t))) /\
  writes_inside run (fst (mangle_Resize run printable t)).
Proof.
  intros Hok Hmax.
  assert (Hmax' : maxFileSz (mutate (global run)) <= SSIZE_MAX) by lia.
  split; [|apply writes_inside_Resize; auto].
  intros op Hin Hmagic. unfold mangleFuncs in Hin. cbn [In] in Hin.
  repeat match goal with
         | H : _ \/ _ |- _ => destruct H as [H | H]
         end; try contradiction; subst op.
  - apply writes_ok_Bit; auto.
  - apply writes_ok_Bytes; auto.
  - rewrite (Hmagic eq_refl). apply writes_ok_Magic; auto.
  - apply writes_ok_IncByte; auto.
  - apply writes_ok_DecByte; auto.
  - apply writes_ok_NegByte; auto.
  - apply writes_ok_AddSub; auto.
  - apply writes_ok_Dictionary; auto.
  - apply writes_ok_DictionaryInsert; auto.
  - apply writes_ok_MemMove; auto.
  - apply writes_ok_MemSet; auto.
  - apply writes_ok_Random; auto.
  - apply writes_ok_CloneByte; auto.
  - apply writes_ok_Expand; auto.
  - apply writes_ok_Shrink; auto.
  - apply writes_ok_ASCIIVal; auto.
Qed.

(** ** Scenarios and small properties of the specification *)

(** S1: a bit flip at offset 1, bit 3. *)
Example scenario_S1_Bit (t : rng) :
  mangle_Bit (run0 [0xAA; 0xBB; 0xCC] 3 3 [] false) false (1 :: 3 :: t) =
  (set_dynamicFile (run0 [0xAA; 0xBB; 0xCC] 3 3 [] false) [0xAA; 0xB3; 0xCC], t).
Proof. vm_compute. reflexivity. Qed.

(** S2: the 4-byte big-endian one (entry 95 of the table) at offset 2. *)
Example scenario_S2_Magic (t : rng) :
  nth 95 mangleMagicVals (magic [] 0) = magic [0; 0; 0; 1; 0; 0; 0; 0] 4 /\
  mangle_Magic (run0 [0; 0; 0; 0; 0; 0; 0; 0] 8 8 [] false) false (2 :: 95 :: t) =
  (set_dynamicFile (run0 [0; 0; 0; 0; 0; 0; 0; 0] 8 8 [] false)
     [0; 0; 0; 0; 0; 1; 0; 0], t).
Proof. split; vm_compute; reflexivity. Qed.

(** With [mutationsPerRun = 0] the session leaves the run and the tape. *)
Lemma mangleContent_zero (run : run_t) (t : rng) :
  mutationsPerRun run = 0 -> mangle_mangleContent run t = (run, t).
Proof. intros H. unfold mangle_mangleContent. rewrite H. reflexivity. Qed.

(** [mangle_Shrink] on a buffer of one byte does nothing. *)
Lemma Shrink_size_1 (run : run_t) (printable : bool) (t : rng) :
  dynamicFileSz run = 1 -> mangle_Shrink run printable t = (run, t).
Proof. intros H. unfold mangle_Shrink. rewrite H. reflexivity. Qed.

(** [mangle_Inflate] moves [size - off - 1] bytes only: the last byte of the
    grown buffer is the byte the backing store held there, and the last
    byte of the old contents is lost. *)
Example Inflate_leaves_stale_last_byte (t : rng) :
  mangle_Expand (run0 [65; 66; 67; 0; 0; 0] 3 6 [] true) true
    (1 :: 1 :: 56 :: 57 :: t) =
  (input_setSize
     (set_dynamicFile (run0 [65; 66; 67; 0; 0; 0] 3 6 [] true)
        [65; 88; 89; 66; 0; 0]) 5, t).
Proof. vm_compute. reflexivity. Qed.

(** ** Loads after stores *)

Lemma load_memwrite (buf : list Z) (off : Z) (src : list Z) (i : Z) :
  0 <= off -> 0 <= i ->
  off + Z.of_nat (length src) <= Z.of_nat (length buf) ->
  load (memwrite buf (Z.to_nat off) src) i =
  if (off <=? i) && (i <? off + Z.of_nat (length src))
  then nth (Z.to_nat (i - off)) src 0
  else load buf i.
Proof.
  intros Hoff Hi Hlen. unfold load.
  destruct (Z.leb_spec off i); simpl.
  - destruct (Z.ltb_spec i (off + Z.of_nat (length src))).
    + rewrite nth_memwrite_in by lia. f_equal. lia.
    + apply nth_memwrite_out. lia.
  - apply nth_memwrite_out. lia.
Qed.

Lemma load_store (run : run_t) (off v i : Z) :
  0 <= off < Z.of_nat (length (dynamicFile run)) -> 0 <= i ->
  load (dynamicFile (store run off v)) i =
  if i =? off then v else load (dynamicFile run) i.
Proof.
  intros Hoff Hi. unfold store, load. cbn [set_dynamicFile dynamicFile].
  destruct (Z.eqb_spec i off) as [->|Hne].
  - rewrite nth_memwrite_in by (simpl; lia).
    replace (Z.to_nat off - Z.to_nat off)%nat with 0%nat by lia. reflexivity.
  - apply nth_memwrite_out. simpl. lia.
Qed.

Lemma buf_eq_load (a b : list Z) :
  length a = length b ->
  (forall i, 0 <= i < Z.of_nat (length a) -> load a i = load b i) ->
  a = b.
Proof.
  intros Hl H. apply list_eq_nth; auto.
  intros i Hi. specialize (H (Z.of_nat i) ltac:(lia)).
  unfold load in H. rewrite Nat2Z.id in H. exact H.
Qed.

Lemma load_bytes_ok (buf : list Z) (off : Z) :
  bytes_ok buf -> 0 <= off < Z.of_nat (length buf) -> 0 <= load buf off <= 255.
Proof.
  intros H Hoff. unfold load.
  apply (nth_Forall_Z (fun b => 0 <= b <= 255)); auto. lia.
Qed.

(** The offset every operator draws first lies inside the buffer. *)
Lemma drawn_off (run : run_t) (t : rng) :
  size_ok run -> maxFileSz (mutate (global run)) <= SIZE_MAX ->
  dynamicFileSz run <= Z.of_nat (length (dynamicFile run)) ->
  0 <= fst (util_rndGet 0 (size_t (dynamicFileSz run - 1)) t)
    < Z.of_nat (length (dynamicFile run)).
Proof.
  intros Hok Hmax Hcap. pose proof (off_range run t Hok Hmax). lia.
Qed.

Lemma run_eq (r r' : run_t) :
  same_frame r r' -> dynamicFile r' = dynamicFile r -> r' = r.
Proof.
  destruct r, r'. unfold same_frame. simpl. intros (A & B & C) D.
  subst. reflexivity.
Qed.

Lemma same_frame_sym (r r' : run_t) : same_frame r r' -> same_frame r' r.
Proof. unfold same_frame. intros (A & B & C). auto. Qed.

(** ** Bits of a byte *)

Lemma lxor_byte (a b : Z) :
  0 <= a <= 255 -> 0 <= b <= 255 -> 0 <= Z.lxor a b <= 255.
Proof.
  intros Ha Hb.
  assert (Hn : 0 <= Z.lxor a b) by (apply Z.lxor_nonneg; lia).
  split; [exact Hn|].
  destruct (Z.eq_dec (Z.lxor a b) 0) as [->|Hz]; [lia|].
  assert (Hl : Z.log2 (Z.lxor a b) < 8).
  { pose proof (Z.log2_lxor a b ltac:(lia) ltac:(lia)) as Hx.
    assert (La : Z.log2 a < 8).
    { destruct (Z.eq_dec a 0) as [->|]; [simpl; lia|].
      apply Z.log2_lt_pow2; [lia|]. change (2 ^ 8) with 256. lia. }
    assert (Lb : Z.log2 b < 8).
    { destruct (Z.eq_dec b 0) as [->|]; [simpl; lia|].
      apply Z.log2_lt_pow2; [lia|]. change (2 ^ 8) with 256. lia. }
    lia. }
  apply Z.log2_lt_pow2 in Hl; [|lia]. change (2 ^ 8) with 256 in Hl. lia.
Qed.

Lemma lxor_twice (a m : Z) : Z.lxor (Z.lxor a m) m = a.
Proof. rewrite Z.lxor_assoc, Z.lxor_nilpotent, Z.lxor_0_r. reflexivity. Qed.

Lemma lxor_changes (a m : Z) : m <> 0 -> Z.lxor a m <> a.
Proof.
  intros Hm H. apply Hm.
  assert (E : m = Z.lxor a (Z.lxor a m)).
  { rewrite <- Z.lxor_assoc, Z.lxor_nilpotent, Z.lxor_0_l. reflexivity. }
  rewrite H in E. rewrite Z.lxor_nilpotent in E. exact E.
Qed.

Lemma bit_mask (bit : Z) :
  0 <= bit <= 7 -> uint8_t (Z.shiftl 1 bit) = 2 ^ bit /\ 1 <= 2 ^ bit <= 128.
Proof.
  intros H. rewrite Z.shiftl_1_l.
  assert (Hp : 1 <= 2 ^ bit <= 128).
  { assert (bit = 0 \/ bit = 1 \/ bit = 2 \/ bit = 3 \/ bit = 4 \/ bit = 5 \/
            bit = 6 \/ bit = 7) as Hc by lia.
    repeat (destruct Hc as [->|Hc]; [simpl; lia|]). subst. simpl. lia. }
  split; [|exact Hp].
  unfold uint8_t, wrap. apply Z.mod_small. change (2 ^ 8) with 256. lia.
Qed.

(** ** A byte rewritten twice *)

Lemma store_store_back (run : run_t) (off v w : Z) :
  0 <= off < Z.of_nat (length (dynamicFile run)) ->
  w = load (dynamicFile run) off ->
  store (store run off v) off w = run.
Proof.
  intros Hoff Hw. apply run_eq.
  - eapply same_frame_trans; apply same_frame_store.
  - apply buf_eq_load.
    + rewrite !length_store. reflexivity.
    + rewrite !length_store. intros i Hi.
      rewrite load_store by (rewrite ?length_store; lia).
      destruct (Z.eqb_spec i off) as [->|Hne]; [exact Hw|].
      rewrite load_store by lia.
      destruct (Z.eqb_spec i off); [contradiction|reflexivity].
Qed.

Lemma load_store_same (run : run_t) (off v : Z) :
  0 <= off < Z.of_nat (length (dynamicFile run)) ->
  load (dynamicFile (store run off v)) off = v.
Proof.
  intros Hoff. rewrite load_store by lia. rewrite Z.eqb_refl. reflexivity.
Qed.

Lemma inc_dec_byte (b : Z) :
  0 <= b <= 255 ->
  uint8_t (uint8_t (b + 1) - 1) = b /\ uint8_t (uint8_t (b - 1) + 1) = b.
Proof.
  intros Hb. unfold uint8_t, wrap. change (2 ^ 8) with 256.
  split; Z.div_mod_to_equations; lia.
Qed.

Lemma inc_dec_printable (b : Z) :
  printable_byte b ->
  let inc := uint8_t (Z.rem (b - 32 + 1) 95 + 32) in
  let dec := uint8_t (Z.rem (b - 32 + 94) 95 + 32) in
  inc = (if b =? 126 then 32 else b + 1) /\
  dec = (if b =? 32 then 126 else b - 1) /\
  uint8_t (Z.rem (inc - 32 + 94) 95 + 32) = b /\
  uint8_t (Z.rem (dec - 32 + 1) 95 + 32) = b.
Proof.
  intros Hb inc dec. unfold printable_byte in Hb.
  assert (Hstep : forall x, 0 <= x ->
            uint8_t (Z.rem x 95 + 32) = x mod 95 + 32).
  { intros x Hx. rewrite Z.rem_mod_nonneg by lia.
    unfold uint8_t, wrap. change (2 ^ 8) with 256.
    pose proof (Z.mod_pos_bound x 95 ltac:(lia)).
    apply Z.mod_small. lia. }
  assert (Hinc : inc = if b =? 126 then 32 else b + 1).
  { unfold inc. rewrite Hstep by lia.
    destruct (Z.eqb_spec b 126); Z.div_mod_to_equations; lia. }
  assert (Hdec : dec = if b =? 32 then 126 else b - 1).
  { unfold dec. rewrite Hstep by lia.
    destruct (Z.eqb_spec b 32); Z.div_mod_to_equations; lia. }
  split; [exact Hinc|]. split; [exact Hdec|].
  rewrite Hinc, Hdec.
  split.
  - destruct (Z.eqb_spec b 126); rewrite Hstep by lia;
      Z.div_mod_to_equations; lia.
  - destruct (Z.eqb_spec b 32); rewrite Hstep by lia;
      Z.div_mod_to_equations; lia.
Qed.

Lemma neg_neg_byte (b : Z) :
  0 <= b <= 255 ->
  uint8_t (Z.lnot b) = 255 - b /\ uint8_t (Z.lnot (uint8_t (Z.lnot b))) = b.
Proof.
  intros Hb. unfold Z.lnot, uint8_t, wrap. change (2 ^ 8) with 256.
  rewrite <- !Z.sub_1_r.
  split; Z.div_mod_to_equations; lia.
Qed.

Lemma neg_neg_printable (b : Z) :
  printable_byte b ->
  uint8_t (94 - (b - 32) + 32) = 158 - b /\
  printable_byte (158 - b) /\
  uint8_t (94 - (uint8_t (94 - (b - 32) + 32) - 32) + 32) = b.
Proof.
  unfold printable_byte. intros Hb.
  unfold uint8_t, wrap. change (2 ^ 8) with 256.
  repeat split; try lia; Z.div_mod_to_equations; lia.
Qed.

(** ** [mangle_Inflate] and [mangle_Shrink], as stores *)

Lemma Inflate_shape (run : run_t) (off n : Z) (printable : bool) (t : rng) :
  size_ok run -> maxFileSz (mutate (global run)) <= SSIZE_MAX ->
  0 <= off < dynamicFileSz run -> 0 <= n ->
  dynamicFileSz run < maxFileSz (mutate (global run)) ->
  let grow := Z.min n (maxFileSz (mutate (global run)) - dynamicFileSz run) in
  let rnd := (if printable then util_rndBufPrintable grow else util_rndBuf grow) t in
  mangle_Inflate run off n printable t =
  (set_dynamicFile (input_setSize run (dynamicFileSz run + grow))
     (memwrite
        (memmove (dynamicFile run) (off + grow) off (dynamicFileSz run - off - 1))
        (Z.to_nat off) (fst rnd)),
   snd rnd).
Proof.
  intros Hok Hmax Hoff Hn Hroom grow rnd.
  pose proof SSIZE_MAX_lt_SIZE_MAX as HS.
  unfold size_ok in Hok. unfold mangle_Inflate.
  destruct (Z.geb_spec (dynamicFileSz run) (maxFileSz (mutate (global run))));
    [lia|].
  rewrite (size_t_small (maxFileSz (mutate (global run)) - dynamicFileSz run))
    by lia.
  replace (if n >? maxFileSz (mutate (global run)) - dynamicFileSz run
           then maxFileSz (mutate (global run)) - dynamicFileSz run
           else n) with grow
    by (unfold grow;
        destruct (Z.gtb_spec n (maxFileSz (mutate (global run)) - dynamicFileSz run));
        lia).
  assert (Hg : 0 <= grow <= maxFileSz (mutate (global run)) - dynamicFileSz run)
    by (unfold grow; lia).
  rewrite (size_t_small (dynamicFileSz run + grow)) by lia.
  rewrite (size_t_small (off + grow)) by lia.
  rewrite mangle_Move_inside
    by (cbn [input_setSize dynamicFileSz]; lia).
  cbn [input_setSize dynamicFileSz dynamicFile].
  replace (Z.min (dynamicFileSz run + grow)
             (Z.min (dynamicFileSz run + grow - off - 1)
                (dynamicFileSz run + grow - (off + grow) - 1)))
    with (dynamicFileSz run - off - 1) by lia.
  unfold rndBuf_at, bind, ret. cbv beta. reflexivity.
Qed.

Lemma memmove_zero (buf : list Z) (dst src : Z) : memmove buf dst src 0 = buf.
Proof. unfold memmove, memread. simpl. apply memwrite_nil. Qed.

Lemma Shrink_shape (run : run_t) (printable : bool) (t : rng) :
  size_ok run -> 2 <= dynamicFileSz run ->
  maxFileSz (mutate (global run)) <= SSIZE_MAX ->
  let n := fst (util_rndGet 1 (size_t (dynamicFileSz run - 1)) t) in
  let off := fst (util_rndGet 0 n (tl t)) in
  let newsz := dynamicFileSz run - n in
  1 <= n <= dynamicFileSz run - 1 /\
  0 <= off <= n /\
  mangle_Shrink run printable t =
  (set_dynamicFile (input_setSize run newsz)
     (memmove (dynamicFile run) off (off + n) (Z.max 0 (newsz - off - n - 1))),
   tl (tl t)).
Proof.
  intros Hok H2 Hmax n off newsz.
  pose proof SSIZE_MAX_lt_SIZE_MAX as HS.
  assert (HS2 : 2 * SSIZE_MAX < SIZE_MAX) by (unfold SSIZE_MAX, SIZE_MAX; lia).
  unfold size_ok in Hok.
  assert (Hn : 1 <= n <= dynamicFileSz run - 1).
  { unfold n. rewrite size_t_small by lia. apply util_rndGet_range. lia. }
  assert (Hoff : 0 <= off <= n) by (apply util_rndGet_range; lia).
  split; [exact Hn|]. split; [exact Hoff|].
  unfold mangle_Shrink.
  destruct (Z.leb_spec (dynamicFileSz run) 1); [lia|].
  unfold bind, ret. cbv beta. rewrite !util_rndGet_tape. fold n. fold off.
  cbn [fst snd].
  rewrite (size_t_small (dynamicFileSz run - n)) by lia. fold newsz.
  rewrite (size_t_small (off + n)) by lia.
  f_equal.
  destruct (Z.lt_ge_cases (off + n) newsz) as [Hin|Hout].
  - rewrite mangle_Move_inside
      by (cbn [input_setSize dynamicFileSz]; unfold newsz in *; lia).
    cbn [input_setSize dynamicFileSz dynamicFile].
    f_equal. f_equal. lia.
  - rewrite mangle_Move_outside
      by (cbn [input_setSize dynamicFileSz]; lia).
    replace (Z.max 0 (newsz - off - n - 1)) with 0 by lia.
    rewrite memmove_zero.
    unfold set_dynamicFile, input_setSize. reflexivity.
Qed.

(** ** Integers in memory *)

Lemma pow_bits_succ (w : nat) :
  2 ^ (8 * Z.of_nat (S w)) = 256 * 2 ^ (8 * Z.of_nat w).
Proof.
  replace (8 * Z.of_nat (S w)) with (8 + 8 * Z.of_nat w) by lia.
  rewrite Z.pow_add_r by lia. reflexivity.
Qed.

Lemma pow_bits_pos (w : nat) : 0 < 2 ^ (8 * Z.of_nat w).
Proof. apply Z.pow_pos_nonneg; lia. Qed.

Lemma length_to_bytes (w : nat) (x : Z) : length (to_bytes w x) = w.
Proof. revert x. induction w as [|w IH]; intros x; simpl; auto. Qed.

Lemma to_bytes_ok (w : nat) (x : Z) : bytes_ok (to_bytes w x).
Proof.
  revert x. induction w as [|w IH]; intros x; simpl; constructor.
  - pose proof (Z.mod_pos_bound x 256 ltac:(lia)). lia.
  - apply IH.
Qed.

Lemma of_bytes_to_bytes (w : nat) (x : Z) :
  of_bytes (to_bytes w x) = x mod 2 ^ (8 * Z.of_nat w).
Proof.
  revert x. induction w as [|w IH]; intros x.
  - simpl. rewrite Z.mod_1_r. reflexivity.
  - cbn [to_bytes of_bytes]. rewrite IH, pow_bits_succ.
    pose proof (pow_bits_pos w).
    rewrite Z.rem_mul_r by lia. reflexivity.
Qed.

Lemma of_bytes_range (bs : list Z) :
  bytes_ok bs -> 0 <= of_bytes bs < 2 ^ (8 * Z.of_nat (length bs)).
Proof.
  induction 1 as [|b bs Hb _ IH].
  - simpl. lia.
  - cbn [of_bytes length]. rewrite pow_bits_succ. lia.
Qed.

Lemma to_bytes_of_bytes (bs : list Z) :
  bytes_ok bs -> to_bytes (length bs) (of_bytes bs) = bs.
Proof.
  induction 1 as [|b bs Hb _ IH].
  - reflexivity.
  - cbn [of_bytes length to_bytes]. f_equal.
    + rewrite (Z.mul_comm 256), Z.mod_add by lia. apply Z.mod_small. lia.
    + rewrite (Z.mul_comm 256), Z.div_add by lia.
      rewrite Z.div_small by lia. exact IH.
Qed.

Lemma to_bytes_mod (w : nat) (x : Z) :
  to_bytes w (x mod 2 ^ (8 * Z.of_nat w)) = to_bytes w x.
Proof.
  rewrite <- of_bytes_to_bytes.
  rewrite <- (length_to_bytes w x) at 1.
  apply to_bytes_of_bytes, to_bytes_ok.
Qed.

Lemma swrap_mod (w x : Z) : 0 < w -> swrap w x mod 2 ^ w = x mod 2 ^ w.
Proof.
  intros Hw. destruct (swrap_spec w x Hw) as [_ H].
  assert (Hp : 0 < 2 ^ w) by (apply Z.pow_pos_nonneg; lia).
  replace (swrap w x) with (x + (swrap w x - x)) by lia.
  rewrite Z.add_mod by lia. rewrite H, Z.add_0_r.
  apply Z.mod_mod. lia.
Qed.

Lemma to_bytes_swrap (w : nat) (x : Z) :
  (0 < w)%nat -> to_bytes w (swrap (8 * Z.of_nat w) x) = to_bytes w x.
Proof.
  intros Hw. rewrite <- to_bytes_mod. rewrite swrap_mod by lia.
  apply to_bytes_mod.
Qed.

Lemma bswap_bytes (w : nat) (x : Z) :
  bswap w x = of_bytes (rev (to_bytes w x)).
Proof. unfold bswap, wrap. rewrite to_bytes_mod. reflexivity. Qed.

Lemma bswap_swrap (w : nat) (x : Z) :
  (0 < w)%nat -> bswap w (swrap (8 * Z.of_nat w) x) = bswap w x.
Proof. intros Hw. rewrite !bswap_bytes, to_bytes_swrap by lia. reflexivity. Qed.

Lemma bytes_ok_rev (bs : list Z) : bytes_ok bs -> bytes_ok (rev bs).
Proof.
  unfold bytes_ok. rewrite !Forall_forall. intros H x Hx.
  apply H. apply in_rev. exact Hx.
Qed.

Lemma to_bytes_bswap (w : nat) (x : Z) :
  to_bytes w (bswap w x) = rev (to_bytes w x).
Proof.
  rewrite bswap_bytes.
  rewrite <- (length_to_bytes w x) at 1. rewrite <- length_rev.
  apply to_bytes_of_bytes, bytes_ok_rev, to_bytes_ok.
Qed.

Lemma memread_memwrite_same (buf : list Z) (off : nat) (src : list Z) :
  (off + length src <= length buf)%nat ->
  memread (memwrite buf off src) off (length src) = src.
Proof.
  intros H. apply list_eq_nth.
  - apply length_memread. rewrite length_memwrite. exact H.
  - intros i Hi. rewrite length_memread in Hi
      by (rewrite length_memwrite; exact H).
    rewrite nth_memread by exact Hi.
    rewrite nth_memwrite_in by lia. f_equal. lia.
Qed.

Lemma bytes_ok_memread (buf : list Z) (off n : nat) :
  bytes_ok buf -> bytes_ok (memread buf off n).
Proof. apply Forall_memread. Qed.

(** ** The entries of the table *)

Lemma magic_entry_ok (choice : nat) :
  (choice < length mangleMagicVals)%nat ->
  let m := nth choice mangleMagicVals (magic [] 0) in
  In m mangleMagicVals /\ length (val m) = 8%nat /\ 1 <= size m <= 8.
Proof.
  intros Hc m.
  assert (H : forallb (fun m => Nat.eqb (length (val m)) 8
                               && (1 <=? size m) && (size m <=? 8))
                mangleMagicVals = true) by (vm_compute; reflexivity).
  assert (Hin : In m mangleMagicVals) by (apply nth_In; exact Hc).
  pose proof (proj1 (forallb_forall _ _) H m Hin) as Hm.
  apply andb_prop in Hm. destruct Hm as [Hm H8].
  apply andb_prop in Hm. destruct Hm as [Hl H1].
  apply Nat.eqb_eq in Hl. apply Z.leb_le in H1. apply Z.leb_le in H8.
  auto.
Qed.

Lemma nth_repeat_Z (v : Z) (n i : nat) :
  (i < n)%nat -> nth i (repeat v n) 0 = v.
Proof.
  intros H. rewrite (nth_indep _ 0 v) by (rewrite repeat_length; exact H).
  apply nth_repeat.
Qed.

(** ** The walk along the dictionary *)

Lemma dict_choice (run : run_t) (t : rng) :
  dict_ok run ->
  let choice :=
    fst (util_rndGet 0 (uint64_t (dictionaryCnt (mutate (global run)) - 1)) t) in
  0 <= choice < dictionaryCnt (mutate (global run)) /\
  In (dict_entry (dictq (mutate (global run))) choice)
     (dictq (mutate (global run))).
Proof.
  intros [Hcnt Hpos] choice.
  assert (Hc : 0 <= choice <= dictionaryCnt (mutate (global run)) - 1).
  { unfold choice. rewrite uint64_t_small by lia.
    apply util_rndGet_range. lia. }
  split; [lia|]. unfold dict_entry. apply nth_In. lia.
Qed.

Lemma memmove_onto_itself (buf : list Z) (off n : Z) :
  0 <= off -> 0 <= n -> memmove buf off off n = buf.
Proof.
  intros Hoff Hn. unfold memmove. apply list_eq_nth.
  - apply length_memwrite.
  - intros i Hi. rewrite length_memwrite in Hi.
    rewrite nth_memwrite.
    destruct ((Z.to_nat off <=? i)%nat
              && (i <? Z.to_nat off
                       + length (memread buf (Z.to_nat off) (Z.to_nat n)))%nat
              && (i <? length buf)%nat) eqn:E; [|reflexivity].
    apply andb_prop in E. destruct E as [E _].
    apply andb_prop in E. destruct E as [E1 E2].
    apply Nat.leb_le in E1. apply Nat.ltb_lt in E2.
    unfold memread in *. rewrite length_firstn in E2.
    rewrite nth_firstn.
    replace (i - Z.to_nat off <? Z.to_nat n)%nat with true
      by (symmetry; apply Nat.ltb_lt; lia).
    rewrite nth_skipn. f_equal. lia.
Qed.

(** ** The stores of a session *)

Lemma stores_bounded_writes_ok (op : run_t -> bool -> Rnd run_t) :
  keeps_size op -> (forall printable, writes_ok op printable) ->
  stores_bounded op.
Proof.
  intros Hk Hw run printable t Hok Hmax.
  destruct (Hk run printable t Hok Hmax) as (A & _ & C).
  unfold size_ok in C. rewrite A in C.
  eapply stores_below_mono; [|apply (Hw printable run t Hok Hmax)].
  unfold stores_bound. destruct printable; lia.
Qed.

Lemma stores_bounded_Magic : stores_bounded mangle_Magic.
Proof.
  intros run printable t Hok Hmax. unfold stores_bound.
  pose proof Hok as Hok'. unfold size_ok in Hok'.
  destruct printable.
  - eapply stores_below_mono; [|apply stores_Magic_printable; auto]. lia.
  - pose proof (writes_ok_Magic run t Hok Hmax) as Hw.
    unfold writes_inside in Hw.
    destruct (same_frame_Magic run false t) as (_ & E & _).
    rewrite E in Hw.
    eapply stores_below_mono; [|exact Hw]. lia.
Qed.

Lemma stores_bounded_mangleFuncs : Forall stores_bounded mangleFuncs.
Proof.
  pose proof keeps_size_mangleFuncs as Hk. unfold mangleFuncs in *.
  repeat match goal with
         | H : Forall _ (_ :: _) |- _ => inversion H; subst; clear H
         end.
  repeat match goal with
         | |- Forall _ (_ :: _) => constructor
         | |- Forall _ [] => constructor
         end;
    try apply stores_bounded_Magic;
    apply stores_bounded_writes_ok; try assumption; intros printable.
  - apply writes_ok_Bit.
  - apply writes_ok_Bytes.
  - apply writes_ok_IncByte.
  - apply writes_ok_DecByte.
  - apply writes_ok_NegByte.
  - apply writes_ok_AddSub.
  - apply writes_ok_Dictionary.
  - apply writes_ok_DictionaryInsert.
  - apply writes_ok_MemMove.
  - apply writes_ok_MemSet.
  - apply writes_ok_Random.
  - apply writes_ok_CloneByte.
  - apply writes_ok_Expand.
  - apply writes_ok_Shrink.
  - apply writes_ok_ASCIIVal.
Qed.

Lemma stores_bounded_nth (choice : nat) :
  stores_bounded (nth choice mangleFuncs (fun run _ => ret run)).
Proof.
  destruct (Nat.lt_ge_cases choice (length mangleFuncs)) as [H|H].
  - apply (proj1 (Forall_forall stores_bounded mangleFuncs)
             stores_bounded_mangleFuncs).
    apply nth_In. exact H.
  - rewrite nth_overflow by exact H.
    intros run printable t _ _. apply stores_none.
Qed.

Lemma stores_loop (n : nat) :
  forall (run : run_t) (t : rng),
    size_ok run -> maxFileSz (mutate (global run)) <= SSIZE_MAX ->
    stores_below (stores_bound run (only_printable (cfg (global run))))
      (dynamicFile run) (dynamicFile (fst (mangle_loop n run t))).
Proof.
  induction n as [|n IH]; intros run t Hok Hmax.
  - simpl. apply stores_none.
  - cbn [mangle_loop]. unfold bind at 1. cbv beta. unfold bind at 1. cbv beta.
    match goal with
    | |- stores_below _ _
           (dynamicFile (fst (mangle_loop n (fst (nth ?c _ _ run ?p ?t')) ?t''))) =>
        pose proof (keeps_size_nth c run p t' Hok Hmax) as Hstep;
        pose proof (stores_bounded_nth c run p t' Hok Hmax) as Hst;
        set (run1 := fst (nth c mangleFuncs (fun run _ => ret run) run p t')) in *;
        set (t1 := t'')
    end.
    destruct Hstep as (A & B & C).
    eapply stores_below_trans; [exact Hst|].
    pose proof (IH run1 t1 C ltac:(rewrite A; exact Hmax)) as Hrest.
    unfold stores_bound in *. rewrite A in Hrest. exact Hrest.
Qed.

Lemma stores_mangleContent (run : run_t) (t : rng) :
  size_ok run -> maxFileSz (mutate (global run)) + 8 <= SSIZE_MAX ->
  stores_below (stores_bound run (only_printable (cfg (global run))))
    (dynamicFile run) (dynamicFile (fst (mangle_mangleContent run t))).
Proof.
  intros Hok Hmax.
  assert (Hmax' : maxFileSz (mutate (global run)) <= SSIZE_MAX) by lia.
  unfold mangle_mangleContent.
  destruct (mutationsPerRun run =? 0); [apply stores_none|].
  unfold bind at 1. cbv beta. unfold bind at 1. cbv beta.
  pose proof (size_kept_Resize run (only_printable (cfg (global run))) t Hok Hmax')
    as Hres.
  pose proof (writes_inside_Resize run (only_printable (cfg (global run))) t
                Hok Hmax) as Hw.
  set (run1 := fst (mangle_Resize run (only_printable (cfg (global run))) t)) in *.
  destruct Hres as (A & B & C).
  eapply (stores_below_trans _ _ (dynamicFile run1)).
  - unfold writes_inside in Hw. eapply stores_below_mono; [|exact Hw].
    unfold size_ok in C. rewrite A in C. unfold stores_bound.
    destruct (only_printable (cfg (global run))); lia.
  - match goal with
    | |- stores_below _ _ (dynamicFile (fst (mangle_loop ?n _ ?t'))) =>
        pose proof (stores_loop n run1 t' C ltac:(rewrite A; exact Hmax')) as Hl
    end.
    unfold stores_bound in *.
    replace (maxFileSz (mutate (global run)))
      with (maxFileSz (mutate (global run1))) by (rewrite A; reflexivity).
    replace (only_printable (cfg (global run)))
      with (only_printable (cfg (global run1))) at 1 by (rewrite A; reflexivity).
    exact Hl.
Qed.

(** ** The text of [snprintf] *)

Lemma uint_chars_digits (u : Decimal.uint) :
  Forall (fun c => 48 <= c <= 57) (uint_chars u).
Proof. induction u; simpl; constructor; auto; lia. Qed.

Lemma uint_chars_nonempty (u : Decimal.uint) :
  u <> Decimal.Nil -> (1 <= length (uint_chars u))%nat.
Proof. destruct u; simpl; intros H; try lia. congruence. Qed.

Lemma snprintf_PRId64_shape (v : Z) :
  exists digits : list Z,
    snprintf_PRId64 v = (if v <? 0 then [45] else []) ++ digits /\
    (1 <= length digits <= length (snprintf_PRId64 v))%nat /\
    Forall (fun c => 48 <= c <= 57) digits.
Proof.
  unfold snprintf_PRId64. destruct v as [|p|p]; simpl.
  - exists [48]. repeat split; simpl; try lia. constructor; [lia|constructor].
  - exists (uint_chars (Pos.to_uint p)). repeat split.
    + apply uint_chars_nonempty. apply DecimalPos.Unsigned.to_uint_nonnil.
    + lia.
    + apply uint_chars_digits.
  - exists (uint_chars (Pos.to_uint p)). repeat split.
    + apply uint_chars_nonempty. apply DecimalPos.Unsigned.to_uint_nonnil.
    + simpl. lia.
    + apply uint_chars_digits.
Qed.

(** ** [mangle_AddSubWithRange] on 2, 4 and 8 bytes *)

Lemma uint64_t_even (k : Z) : Z.land (uint64_t (2 * k)) 1 = 0.
Proof.
  unfold uint64_t, wrap. change 1 with (Z.ones 1). rewrite Z.land_ones by lia.
  change (2 ^ 1) with 2. change (2 ^ 64) with (2 * 2 ^ 63).
  pose proof (Z.pow_pos_nonneg 2 63 ltac:(lia) ltac:(lia)).
  Z.div_mod_to_equations. lia.
Qed.

Lemma AddSubWithRange_wide (run : run_t) (off : Z) (w : nat) (t : rng) :
  (w = 2 \/ w = 4 \/ w = 8)%nat ->
  0 <= off -> off + Z.of_nat w <= dynamicFileSz run ->
  dynamicFileSz run <= SIZE_MAX ->
  dynamicFileSz run <= Z.of_nat (length (dynamicFile run)) ->
  let delta := fst (util_rndGet 0 8192 t) - 4096 in
  let native := Z.land (fst (util_rnd64 (tl t))) 1 =? 1 in
  let res := AddSub_res w (memread (dynamicFile run) (Z.to_nat off) w) delta native in
  let run' := fst (mangle_AddSubWithRange run off (Z.of_nat w) t) in
  snd (mangle_AddSubWithRange run off (Z.of_nat w) t) = tl (tl t) /\
  dynamicFile run' = memwrite (dynamicFile run) (Z.to_nat off) (to_bytes w res) /\
  memread (dynamicFile run') (Z.to_nat off) w = to_bytes w res.
Proof.
  intros Hw Hoff Hin Hsz Hcap delta native res run'.
  assert (Hcall : mangle_AddSubWithRange run off (Z.of_nat w) t =
                  (mangle_Overwrite run (to_bytes w res) off (Z.of_nat w), tl (tl t))).
  { unfold mangle_AddSubWithRange. unfold bind at 1. cbv beta.
    rewrite util_rndGet_tape.
    destruct (delta_range t) as [_ ->]. fold delta.
    assert (Hc : AddSub_case run off (Z.of_nat w) delta w (tl t) =
                 (mangle_Overwrite run (to_bytes w res) off (Z.of_nat w),
                  tl (tl t))).
    { unfold AddSub_case, bind, ret. cbv beta. rewrite util_rnd64_tape.
      fold native. reflexivity. }
    destruct Hw as [Hw | [Hw | Hw]]; subst w; exact Hc. }
  assert (Hbuf : dynamicFile run' =
                 memwrite (dynamicFile run) (Z.to_nat off) (to_bytes w res)).
  { unfold run'. rewrite Hcall. cbn [fst].
    rewrite mangle_Overwrite_eq by lia.
    unfold memmove_in. cbn [set_dynamicFile dynamicFile].
    replace (Z.to_nat (Z.min (Z.of_nat w) (dynamicFileSz run - off))) with w by lia.
    rewrite firstn_all2 by (rewrite length_to_bytes; lia). reflexivity. }
  split; [rewrite Hcall; reflexivity|]. split; [exact Hbuf|].
  rewrite Hbuf.
  pose proof (memread_memwrite_same (dynamicFile run) (Z.to_nat off)
                (to_bytes w res)) as E.
  rewrite length_to_bytes in E. apply E. lia.
Qed.

(** On either path the bytes written hold the old value plus [delta]
    modulo [2 ^ (8 * w)]: in little-endian order on the native path, in
    big-endian order on the other. *)
Lemma AddSub_res_sum (w : nat) (old : list Z) (delta : Z) (native : bool) :
  (0 < w)%nat -> length old = w -> bytes_ok old ->
  let new := to_bytes w (AddSub_res w old delta native) in
  if native
  then of_bytes new = (of_bytes old + delta) mod 2 ^ (8 * Z.of_nat w)
  else of_bytes (rev new) = (of_bytes (rev old) + delta) mod 2 ^ (8 * Z.of_nat w).
Proof.
  intros Hw0 Hold Hold_ok new. unfold new, AddSub_res. cbv zeta.
  set (bits := 8 * Z.of_nat w).
  assert (Hbits : 0 < bits) by (unfold bits; lia).
  assert (Hpow : 0 < 2 ^ bits) by (apply Z.pow_pos_nonneg; lia).
  set (val := swrap bits (of_bytes old)).
  assert (Hval : val mod 2 ^ bits = of_bytes old mod 2 ^ bits)
    by (apply swrap_mod; exact Hbits).
  destruct native.
  - rewrite of_bytes_to_bytes. fold bits.
    rewrite swrap_mod by exact Hbits.
    rewrite <- Z.add_mod_idemp_l by lia. rewrite Hval.
    rewrite Z.add_mod_idemp_l by lia. reflexivity.
  - unfold bits. rewrite to_bytes_swrap by exact Hw0.
    rewrite to_bytes_bswap, rev_involutive.
    rewrite to_bytes_swrap by exact Hw0.
    rewrite of_bytes_to_bytes. fold bits.
    rewrite <- Z.add_mod_idemp_l by lia.
    rewrite swrap_mod by exact Hbits.
    rewrite Z.add_mod_idemp_l by lia.
    f_equal. f_equal.
    unfold val, bits. rewrite bswap_swrap by exact Hw0.
    rewrite bswap_bytes. rewrite <- Hold at 1.
    rewrite to_bytes_of_bytes by exact Hold_ok. reflexivity.
Qed.

(** ** Printable mode: the bytes below the size

    In printable mode an operator is given a buffer whose bytes below the
    size are printable; nothing is known of the backing store beyond the
    size. *)

Lemma printable_below_le (n m : Z) (buf : list Z) :
  m <= n -> printable_below n buf -> printable_below m buf.
Proof. intros H Hb i Hi. apply Hb. lia. Qed.

Lemma printable_below_memwrite_outside (n : Z) (buf : list Z) (off : nat)
  (src : list Z) :
  n <= Z.of_nat (length buf) ->
  Forall printable_byte src ->
  (forall i, 0 <= i < n ->
     ~ (Z.of_nat off <= i < Z.of_nat off + Z.of_nat (length src)) ->
     printable_byte (load buf i)) ->
  printable_below n (memwrite buf off src).
Proof.
  intros Hcap Hs Hout i Hi. unfold load. rewrite nth_memwrite.
  destruct ((off <=? Z.to_nat i)%nat
            && (Z.to_nat i <? off + length src)%nat
            && (Z.to_nat i <? length buf)%nat) eqn:E.
  - apply andb_prop in E. destruct E as [E _].
    apply andb_prop in E. destruct E as [E1 E2].
    apply Nat.leb_le in E1. apply Nat.ltb_lt in E2.
    apply nth_Forall_Z; [exact Hs|lia].
  - change (printable_byte (load buf i)). apply (Hout i Hi). intros [A B].
    destruct (Nat.leb_spec off (Z.to_nat i)); [|lia].
    destruct (Nat.ltb_spec (Z.to_nat i) (off + length src)); [|lia].
    destruct (Nat.ltb_spec (Z.to_nat i) (length buf)); [discriminate E|lia].
Qed.

Lemma printable_below_memwrite (n : Z) (buf : list Z) (off : nat) (src : list Z) :
  n <= Z.of_nat (length buf) ->
  printable_below n buf -> Forall printable_byte src ->
  printable_below n (memwrite buf off src).
Proof.
  intros Hcap Hb Hs. apply printable_below_memwrite_outside; auto.
Qed.

(** A store of at most [len] bytes at [off] followed by
    [util_turnToPrintable] on the [len] bytes at [off]. *)
Lemma printable_below_write_turn (n : Z) (buf src : list Z) (off len : nat) :
  n <= Z.of_nat (length buf) ->
  printable_below n buf -> (length src <= len)%nat ->
  printable_below n
    (memwrite (memwrite buf off src) off
       (util_turnToPrintable (memread (memwrite buf off src) off len))).
Proof.
  intros Hcap Hb Hs.
  set (buf1 := memwrite buf off src).
  assert (Hr : length (util_turnToPrintable (memread buf1 off len)) =
               Nat.min len (length buf - off)).
  { unfold util_turnToPrintable, memread, buf1.
    rewrite length_map, length_firstn, length_skipn, length_memwrite.
    reflexivity. }
  apply printable_below_memwrite_outside.
  - unfold buf1. rewrite length_memwrite. exact Hcap.
  - unfold util_turnToPrintable. apply Forall_forall. intros x Hx.
    apply in_map_iff in Hx. destruct Hx as (b & <- & _).
    apply turnToPrintable_byte_printable.
  - intros i Hi Hout. rewrite Hr in Hout. unfold load, buf1.
    rewrite nth_memwrite_out by lia. apply (Hb i Hi).
Qed.

Lemma printable_below_memmove (n : Z) (buf : list Z) (dst src len : Z) :
  n <= Z.of_nat (length buf) -> printable_below n buf ->
  0 <= src -> 0 <= len -> src + len <= n ->
  printable_below n (memmove buf dst src len).
Proof.
  intros Hcap Hb Hsrc Hlen Hin. unfold memmove.
  apply printable_below_memwrite; auto.
  apply Forall_nth_Z. intros i Hi.
  assert (Hl : length (memread buf (Z.to_nat src) (Z.to_nat len)) = Z.to_nat len)
    by (apply length_memread; lia).
  rewrite Hl in Hi. rewrite nth_memread by exact Hi.
  replace (Z.to_nat src + i)%nat with (Z.to_nat (src + Z.of_nat i)) by lia.
  apply (Hb (src + Z.of_nat i)). lia.
Qed.

Lemma printable_below_Overwrite (n : Z) (run : run_t) (src : list Z) (off sz : Z) :
  n <= Z.of_nat (length (dynamicFile run)) ->
  printable_below n (dynamicFile run) -> Forall printable_byte src ->
  printable_below n (dynamicFile (mangle_Overwrite run src off sz)).
Proof.
  intros Hcap Hb Hs. unfold mangle_Overwrite, memmove_in.
  cbn [set_dynamicFile dynamicFile].
  apply printable_below_memwrite; auto. apply Forall_firstn_Z; auto.
Qed.

Lemma printable_below_store (n : Z) (run : run_t) (off v : Z) :
  n <= Z.of_nat (length (dynamicFile run)) ->
  printable_below n (dynamicFile run) -> printable_byte v ->
  printable_below n (dynamicFile (store run off v)).
Proof.
  intros Hcap Hb Hv. unfold store. cbn [set_dynamicFile dynamicFile].
  apply printable_below_memwrite; auto.
Qed.

Lemma printable_below_Move (run : run_t) (off_from off_to n : Z) :
  1 <= dynamicFileSz run <= SSIZE_MAX ->
  dynamicFileSz run <= Z.of_nat (length (dynamicFile run)) ->
  printable_below (dynamicFileSz run) (dynamicFile run) ->
  0 <= off_from -> 0 <= off_to -> 0 <= n <= SSIZE_MAX ->
  printable_below (dynamicFileSz run)
    (dynamicFile (mangle_Move run off_from off_to n)).
Proof.
  intros Hsz Hcap Hb Hfrom Hto Hn.
  destruct (Z_lt_ge_dec off_from (dynamicFileSz run)) as [H1|H1];
    [|rewrite mangle_Move_outside by (left; exact H1); exact Hb].
  destruct (Z_lt_ge_dec off_to (dynamicFileSz run)) as [H2|H2];
    [|rewrite mangle_Move_outside by (right; exact H2); exact Hb].
  rewrite mangle_Move_inside by lia. cbn [set_dynamicFile dynamicFile].
  apply printable_below_memmove; auto; lia.
Qed.

(** The operators that keep the size *)

Lemma keeps_printable_MemMove : keeps_printable mangle_MemMove.
Proof.
  intros run t Hok Hmax Hcap Hb.
  pose proof SSIZE_MAX_lt_SIZE_MAX as HS.
  destruct (same_frame_MemMove run true t) as (_ & E & _). rewrite E.
  unfold mangle_MemMove, bind, ret. cbv beta. cbn [fst snd].
  pose proof (off_range run t Hok ltac:(lia)) as H1.
  pose proof (off_range run (snd (util_rndGet 0 (size_t (dynamicFileSz run - 1)) t))
                Hok ltac:(lia)) as H2.
  unfold size_ok in Hok.
  match goal with
  | |- context [mangle_Move run _ _ (fst (util_rndGet 0 ?hi ?t'))] =>
      pose proof (util_rndGet_range 0 hi t' ltac:(lia)) as H3
  end.
  apply printable_below_Move; auto; lia.
Qed.

Lemma keeps_printable_Bytes : keeps_printable mangle_Bytes.
Proof.
  intros run t Hok Hmax Hcap Hb.
  destruct (same_frame_Bytes run true t) as (_ & E & _). rewrite E.
  unfold mangle_Bytes, bind, ret. cbv beta. cbn [fst snd].
  apply printable_below_Overwrite; auto.
  unfold util_rndBufPrintable. apply rndBufPrintable_n_spec.
Qed.

Lemma keeps_printable_Bit : keeps_printable mangle_Bit.
Proof.
  intros run t Hok Hmax Hcap Hb.
  destruct (same_frame_Bit run true t) as (_ & E & _). rewrite E.
  unfold mangle_Bit, bind, ret. cbv beta. cbn [fst snd].
  unfold turnToPrintable_at, store. cbn [set_dynamicFile dynamicFile].
  apply printable_below_write_turn; auto.
Qed.

Lemma keeps_printable_Magic : keeps_printable mangle_Magic.
Proof.
  intros run t Hok Hmax Hcap Hb.
  destruct (same_frame_Magic run true t) as (_ & E & _). rewrite E.
  unfold mangle_Magic, bind, ret. cbv beta. cbn [fst snd].
  unfold turnToPrintable_at, mangle_Overwrite, memmove_in.
  cbn [set_dynamicFile dynamicFile].
  apply printable_below_write_turn; auto.
  rewrite length_firstn.
  match goal with
  | |- context [if ?a >? ?b then _ else _] => destruct (Z.gtb_spec a b)
  end; lia.
Qed.

Lemma load_printable_below (run : run_t) (t : rng) :
  size_ok run -> maxFileSz (mutate (global run)) <= SSIZE_MAX ->
  printable_below (dynamicFileSz run) (dynamicFile run) ->
  printable_byte
    (load (dynamicFile run)
       (fst (util_rndGet 0 (size_t (dynamicFileSz run - 1)) t))).
Proof.
  intros Hok Hmax Hb. pose proof SSIZE_MAX_lt_SIZE_MAX as HS.
  pose proof (off_range run t Hok ltac:(lia)). apply Hb. lia.
Qed.

Lemma keeps_printable_IncByte : keeps_printable mangle_IncByte.
Proof.
  intros run t Hok Hmax Hcap Hb.
  destruct (same_frame_IncByte run true t) as (_ & E & _). rewrite E.
  unfold mangle_IncByte, bind, ret. cbv beta. cbn [fst snd].
  apply printable_below_store; auto. apply rem95_printable; [|lia].
  apply load_printable_below; auto.
Qed.

Lemma keeps_printable_DecByte : keeps_printable mangle_DecByte.
Proof.
  intros run t Hok Hmax Hcap Hb.
  destruct (same_frame_DecByte run true t) as (_ & E & _). rewrite E.
  unfold mangle_DecByte, bind, ret. cbv beta. cbn [fst snd].
  apply printable_below_store; auto. apply rem95_printable; [|lia].
  apply load_printable_below; auto.
Qed.

Lemma keeps_printable_NegByte : keeps_printable mangle_NegByte.
Proof.
  intros run t Hok Hmax Hcap Hb.
  destruct (same_frame_NegByte run true t) as (_ & E & _). rewrite E.
  unfold mangle_NegByte, bind, ret. cbv beta. cbn [fst snd].
  apply printable_below_store; auto.
  pose proof (load_printable_below run t Hok Hmax Hb) as Hl.
  set (b := load _ _) in *.
  assert (Hn : printable_byte (94 - (b - 32) + 32))
    by (unfold printable_byte in *; lia).
  rewrite uint8_t_printable; auto.
Qed.

Lemma keeps_printable_AddSub : keeps_printable mangle_AddSub.
Proof.
  intros run t Hok Hmax Hcap Hb.
  destruct (same_frame_AddSub run true t) as (_ & E & _). rewrite E.
  unfold mangle_AddSub, bind, ret. cbv beta. cbn [fst snd].
  match goal with
  | |- context [mangle_AddSubWithRange run ?o ?v ?t'] =>
      destruct (AddSubWithRange_shape run o v t') as (src & Hsrc & Hlen);
      set (r1 := fst (mangle_AddSubWithRange run o v t')) in *
  end.
  unfold turnToPrintable_at. cbn [set_dynamicFile dynamicFile].
  rewrite Hsrc. apply printable_below_write_turn; auto.
Qed.

Lemma keeps_printable_MemSet : keeps_printable mangle_MemSet.
Proof.
  intros run t Hok Hmax Hcap Hb.
  destruct (same_frame_MemSet run true t) as (_ & E & _). rewrite E.
  unfold mangle_MemSet, mangle_MemSetWithVal, bind, ret. cbv beta iota.
  cbn [fst snd set_dynamicFile dynamicFile].
  unfold memset. apply printable_below_memwrite; auto.
  apply Forall_forall. intros x Hx. apply repeat_spec in Hx. subst x.
  pose proof (util_rndGet_range 32 126 t ltac:(lia)) as Hv.
  unfold util_rndPrintable.
  rewrite int_small by lia.
  rewrite uint8_t_printable; exact Hv.
Qed.

Lemma keeps_printable_Random : keeps_printable mangle_Random.
Proof.
  intros run t Hok Hmax Hcap Hb.
  destruct (same_frame_Random run true t) as (_ & E & _). rewrite E.
  unfold mangle_Random, bind. cbv beta.
  unfold rndBuf_at, bind, ret. cbv beta.
  cbn [fst set_dynamicFile dynamicFile].
  apply printable_below_memwrite; auto.
  unfold util_rndBufPrintable. apply rndBufPrintable_n_spec.
Qed.

Lemma keeps_printable_CloneByte : keeps_printable mangle_CloneByte.
Proof.
  intros run t Hok Hmax Hcap Hb.
  destruct (same_frame_CloneByte run true t) as (_ & E & _). rewrite E.
  unfold mangle_CloneByte, bind, ret. cbv beta. cbn [fst snd].
  apply printable_below_store.
  - rewrite length_store. exact Hcap.
  - apply printable_below_store; auto. apply load_printable_below; auto.
  - apply load_printable_below; auto.
Qed.

Lemma keeps_printable_ASCIIVal : keeps_printable mangle_ASCIIVal.
Proof.
  intros run t Hok Hmax Hcap Hb.
  destruct (same_frame_ASCIIVal run true t) as (_ & E & _). rewrite E.
  unfold mangle_ASCIIVal, bind, ret. cbv beta. cbn [fst snd].
  apply printable_below_Overwrite; auto. apply snprintf_PRId64_printable.
Qed.

(** [mangle_Shrink]: the bytes moved down are read below the new size. *)
Lemma keeps_printable_Shrink : keeps_printable mangle_Shrink.
Proof.
  intros run t Hok Hmax Hcap Hb.
  destruct (Z_le_gt_dec (dynamicFileSz run) 1) as [H1|H1].
  - unfold mangle_Shrink.
    destruct (Z.leb_spec (dynamicFileSz run) 1); [|lia].
    unfold ret. cbn [fst]. exact Hb.
  - destruct (Shrink_shape run true t Hok ltac:(lia) Hmax) as (Hn & Hoff & ->).
    cbn [fst set_dynamicFile input_setSize dynamicFile dynamicFileSz].
    set (n := fst (util_rndGet 1 (size_t (dynamicFileSz run - 1)) t)) in *.
    set (off := fst (util_rndGet 0 n (tl t))) in *.
    assert (Hb' : printable_below (dynamicFileSz run - n) (dynamicFile run))
      by (apply (printable_below_le (dynamicFileSz run)); [lia|exact Hb]).
    destruct (Z_le_gt_dec (dynamicFileSz run - n - off - n - 1) 0) as [H0|H0].
    + replace (Z.max 0 (dynamicFileSz run - n - off - n - 1)) with 0 by lia.
      rewrite memmove_zero. exact Hb'.
    + apply printable_below_memmove; auto; lia.
Qed.

(** [mangle_Resize]: the bytes added are random printable bytes. *)
Lemma printable_below_Resize (run : run_t) (t : rng) :
  size_ok run -> maxFileSz (mutate (global run)) + 8 <= SSIZE_MAX ->
  maxFileSz (mutate (global run)) <= Z.of_nat (length (dynamicFile run)) ->
  printable_below (dynamicFileSz run) (dynamicFile run) ->
  printable_below (dynamicFileSz (fst (mangle_Resize run true t)))
    (dynamicFile (fst (mangle_Resize run true t))).
Proof.
  intros Hok Hmax Hcap Hb.
  rewrite (mangle_Resize_eq run true t Hok Hmax). cbv zeta.
  unfold size_ok in Hok.
  match goal with
  | |- context [if ?a >? _ then _ else _] => set (newSize := a)
  end.
  assert (Hnew : 1 <= newSize <= maxFileSz (mutate (global run)))
    by (unfold newSize; lia).
  destruct (Z.gtb_spec newSize (dynamicFileSz run)) as [Hg|Hg].
  - 
    unfold rndBuf_at, bind, ret. cbv beta.
    cbn [fst set_dynamicFile input_setSize dynamicFile dynamicFileSz].
    match goal with
    | |- printable_below _ (memwrite _ _ (fst (util_rndBufPrintable ?k ?t'))) =>
        destruct (rndBuf_fill_spec k true t' ltac:(lia)) as (Hl & Hf & _)
    end.
    apply printable_below_memwrite_outside; [lia|exact Hf|].
    intros i Hi Hout. apply Hb. lia.
  - cbn [fst input_setSize dynamicFile dynamicFileSz].
    apply (printable_below_le (dynamicFileSz run)); [lia|exact Hb].
Qed.

(** [mangle_Dictionary] writes the bytes of the entry as they are. *)
Lemma printable_below_Dictionary (run : run_t) (t : rng) :
  size_ok run -> maxFileSz (mutate (global run)) <= SSIZE_MAX ->
  dynamicFileSz run <= Z.of_nat (length (dynamicFile run)) ->
  printable_below (dynamicFileSz run) (dynamicFile run) ->
  printable_dict run ->
  printable_below (dynamicFileSz run)
    (dynamicFile (fst (mangle_Dictionary run true t))).
Proof.
  intros Hok Hmax Hcap Hb Hd. unfold mangle_Dictionary.
  destruct (dictionaryCnt (mutate (global run)) =? 0).
  - pose proof (keeps_printable_Bit run t Hok Hmax Hcap Hb) as H.
    destruct (same_frame_Bit run true t) as (_ & E & _).
    rewrite E in H. exact H.
  - unfold mangle_DictionaryNoCheck, bind, ret. cbv beta. cbn [fst snd].
    apply printable_below_Overwrite; auto. apply dict_entry_printable; auto.
Qed.

Lemma length_Inflate (run : run_t) (off n : Z) (printable : bool) (t : rng) :
  length (dynamicFile (fst (mangle_Inflate run off n printable t))) =
  length (dynamicFile run).
Proof.
  unfold mangle_Inflate.
  destruct (dynamicFileSz run >=? maxFileSz (mutate (global run))).
  - reflexivity.
  - rewrite length_rndBuf_at, length_Move. reflexivity.
Qed.

(** [mangle_Inflate]: the bytes below the offset stay, the gap is filled
    with random printable bytes and the bytes moved up are read below the
    old last byte; the last byte of the grown buffer is not written. *)
Lemma printable_but_last_Inflate (run : run_t) (off n : Z) (t : rng) :
  size_ok run -> maxFileSz (mutate (global run)) <= SSIZE_MAX ->
  maxFileSz (mutate (global run)) <= Z.of_nat (length (dynamicFile run)) ->
  printable_below (dynamicFileSz run) (dynamicFile run) ->
  0 <= off < dynamicFileSz run -> 0 <= n ->
  printable_but_last run (fst (mangle_Inflate run off n true t)).
Proof.
  intros Hok Hmax Hcap Hb Hoff Hn. pose proof Hok as Hok'.
  unfold size_ok in Hok'. unfold printable_but_last.
  destruct (Z_lt_ge_dec (dynamicFileSz run) (maxFileSz (mutate (global run))))
    as [Hroom|Hfull].
  - rewrite (Inflate_shape run off n true t Hok Hmax Hoff Hn Hroom). cbv zeta.
    cbn [fst set_dynamicFile input_setSize dynamicFile dynamicFileSz].
    set (grow := Z.min n (maxFileSz (mutate (global run)) - dynamicFileSz run)).
    destruct (rndBuf_fill_spec grow true t ltac:(unfold grow; lia))
      as (Hl & Hf & _).
    set (fill := fst (util_rndBufPrintable grow t)) in *.
    set (buf1 := memmove (dynamicFile run) (off + grow) off
                   (dynamicFileSz run - off - 1)).
    assert (Hlen1 : length buf1 = length (dynamicFile run))
      by (unfold buf1, memmove; apply length_memwrite).
    assert (Hmain : printable_below (dynamicFileSz run + grow - 1)
                      (memwrite buf1 (Z.to_nat off) fill)).
    { apply printable_below_memwrite_outside;
        [rewrite Hlen1; unfold grow; lia|exact Hf|].
      intros i Hi Hout. unfold buf1.
      rewrite load_memmove by (unfold grow; lia).
      destruct (Z.leb_spec (off + grow) i); cbn [andb].
      - destruct (Z.ltb_spec i (off + grow + (dynamicFileSz run - off - 1)));
          [|lia].
        apply Hb. lia.
      - apply Hb. lia. }
    split; [exact Hmain|].
    intros Hsame. assert (Hg0 : grow = 0) by lia.
    assert (Hfill : fill = []) by (destruct fill; [reflexivity|simpl in Hl; lia]).
    rewrite Hfill, memwrite_nil. unfold buf1. rewrite Hg0, !Z.add_0_r.
    rewrite memmove_onto_itself by lia. exact Hb.
  - unfold mangle_Inflate.
    destruct (Z.geb_spec (dynamicFileSz run) (maxFileSz (mutate (global run))));
      [|lia].
    unfold ret. cbn [fst].
    split; [apply (printable_below_le (dynamicFileSz run)); [lia|exact Hb]|].
    intros _. exact Hb.
Qed.

Lemma printable_but_last_Expand (run : run_t) (t : rng) :
  size_ok run -> maxFileSz (mutate (global run)) <= SSIZE_MAX ->
  maxFileSz (mutate (global run)) <= Z.of_nat (length (dynamicFile run)) ->
  printable_below (dynamicFileSz run) (dynamicFile run) ->
  printable_but_last run (fst (mangle_Expand run true t)).
Proof.
  intros Hok Hmax Hcap Hb. pose proof SSIZE_MAX_lt_SIZE_MAX as HS.
  unfold mangle_Expand, bind. cbv beta.
  pose proof (off_range run t Hok ltac:(lia)) as Hoff.
  set (off := fst (util_rndGet 0 (size_t (dynamicFileSz run - 1)) t)) in *.
  pose proof Hok as Hok'. unfold size_ok in Hok'.
  apply printable_but_last_Inflate; try assumption; [lia|].
  rewrite size_t_small by lia.
  match goal with
  | |- 0 <= fst (util_rndGet 1 ?hi ?t') =>
      pose proof (util_rndGet_range 1 hi t' ltac:(lia))
  end. lia.
Qed.

Lemma printable_but_last_DictionaryInsert (run : run_t) (t : rng) :
  size_ok run -> maxFileSz (mutate (global run)) <= SSIZE_MAX ->
  maxFileSz (mutate (global run)) <= Z.of_nat (length (dynamicFile run)) ->
  printable_below (dynamicFileSz run) (dynamicFile run) ->
  printable_dict run ->
  printable_but_last run (fst (mangle_DictionaryInsert run true t)).
Proof.
  intros Hok Hmax Hcap Hb Hd. pose proof SSIZE_MAX_lt_SIZE_MAX as HS.
  pose proof Hok as Hok'. unfold size_ok in Hok'.
  unfold mangle_DictionaryInsert.
  destruct (dictionaryCnt (mutate (global run)) =? 0).
  - pose proof (keeps_printable_Bit run t Hok Hmax ltac:(lia) Hb) as H.
    unfold printable_but_last.
    split; [|intros _; exact H].
    eapply printable_below_le; [|exact H]. lia.
  - unfold mangle_DictionaryInsertNoCheck, bind, ret. cbv beta. cbn [fst snd].
    match goal with
    | |- context [mangle_Inflate run ?o ?n true ?t'] =>
        pose proof (off_range run
                      (snd (util_rndGet 0
                              (uint64_t (dictionaryCnt (mutate (global run)) - 1)) t))
                      Hok ltac:(lia)) as Hoff;
        assert (Hlen : 0 <= n) by (unfold len; lia);
        pose proof (printable_but_last_Inflate run o n t' Hok Hmax Hcap Hb
                      ltac:(lia) Hlen) as [H1 H2];
        pose proof (size_kept_Inflate run o n true t' Hok ltac:(lia) Hlen)
          as [(Hg & _ & Hsz) _];
        pose proof (length_Inflate run o n true t') as Hl;
        set (r1 := fst (mangle_Inflate run o n true t')) in *
    end.
    assert (Hcap1 : dynamicFileSz r1 <= Z.of_nat (length (dynamicFile r1))).
    { rewrite Hl. unfold size_ok in Hsz. rewrite Hg in Hsz. lia. }
    destruct (same_frame_Overwrite r1
                (s (dict_entry (dictq (mutate (global run)))
                      (fst (util_rndGet 0
                              (uint64_t (dictionaryCnt (mutate (global run)) - 1))
                              t))))
                (fst (util_rndGet 0 (size_t (dynamicFileSz run - 1))
                        (snd (util_rndGet 0
                                (uint64_t (dictionaryCnt (mutate (global run)) - 1))
                                t))))
                (len (dict_entry (dictq (mutate (global run)))
                        (fst (util_rndGet 0
                                (uint64_t (dictionaryCnt (mutate (global run)) - 1))
                                t))))) as (_ & E & _).
    unfold printable_but_last. rewrite E.
    split.
    + apply printable_below_Overwrite; [lia|exact H1|].
      apply dict_entry_printable; exact Hd.
    + intros Hsame. apply printable_below_Overwrite; [lia|exact (H2 Hsame)|].
      apply dict_entry_printable; exact Hd.
Qed.
(** * The claims *)

(** C5: [mangle_Move] does nothing when [off_from] or [off_to] is at or
    beyond the size of the buffer.  Otherwise it copies exactly
    [min len (size - off_from - 1) (size - off_to - 1)] bytes from
    [off_from] to [off_to], every copied byte being the byte the source had
    before the call (an overlap-safe copy); so the source run and the
    destination run both end before index [size - 1]: the last byte keeps
    its value, and the call commutes with any store to it, that is, the
    last byte is neither read nor written. *)
Theorem C5_Move_spares_last_byte :
  forall (run : run_t) (off_from off_to len : Z),
    dynamicFileSz run <= Z.of_nat (length (dynamicFile run)) ->
    dynamicFileSz run <= SSIZE_MAX ->
    0 <= off_from -> 0 <= off_to -> 0 <= len <= SSIZE_MAX ->
    (off_from >= dynamicFileSz run \/ off_to >= dynamicFileSz run ->
     mangle_Move run off_from off_to len = run) /\
    (off_from < dynamicFileSz run -> off_to < dynamicFileSz run ->
     let n := Z.min len (Z.min (dynamicFileSz run - off_from - 1)
                               (dynamicFileSz run - off_to - 1)) in
     let run' := mangle_Move run off_from off_to len in
     0 <= n /\
     run' = set_dynamicFile run (memmove (dynamicFile run) off_to off_from n) /\
     (forall i, 0 <= i ->
        load (dynamicFile run') i =
        if (off_to <=? i) && (i <? off_to + n)
        then load (dynamicFile run) (off_from + (i - off_to))
        else load (dynamicFile run) i) /\
     off_from + n <= dynamicFileSz run - 1 /\
     off_to + n <= dynamicFileSz run - 1 /\
     load (dynamicFile run') (dynamicFileSz run - 1) =
       load (dynamicFile run) (dynamicFileSz run - 1) /\
     (forall v, mangle_Move (store run (dynamicFileSz run - 1) v)
                  off_from off_to len =
                store run' (dynamicFileSz run - 1) v)).
Proof.
  intros run off_from off_to len Hcap Hsz Hf Ht Hl. split.
  - apply mangle_Move_outside.
  - intros Hf' Ht' n run'.
    assert (Hn : 0 <= n) by (unfold n; lia).
    assert (Hnf : off_from + n <= dynamicFileSz run - 1) by (unfold n; lia).
    assert (Hnt : off_to + n <= dynamicFileSz run - 1) by (unfold n; lia).
    assert (Heq : run' = set_dynamicFile run
                           (memmove (dynamicFile run) off_to off_from n))
      by (apply mangle_Move_inside; lia).
    assert (Hld : forall i, 0 <= i ->
              load (dynamicFile run') i =
              if (off_to <=? i) && (i <? off_to + n)
              then load (dynamicFile run) (off_from + (i - off_to))
              else load (dynamicFile run) i).
    { intros i Hi. rewrite Heq. simpl. apply load_memmove; lia. }
    repeat split; auto.
    + rewrite Hld by lia.
      destruct (Z.leb_spec off_to (dynamicFileSz run - 1)); simpl; auto.
      destruct (Z.ltb_spec (dynamicFileSz run - 1) (off_to + n)); auto. lia.
    + intros v. rewrite Heq.
      rewrite mangle_Move_inside by (simpl; lia). fold n.
      unfold store, set_dynamicFile, memmove. simpl. f_equal.
      apply memmove_memwrite_apart; lia.
Qed.

(** C5 at a concrete call: [Move(0, 2, 5)] on five bytes copies two. *)
Lemma C5_Move_witness :
  mangle_Move (run0 [1; 2; 3; 4; 5] 5 5 [] false) 0 2 5 =
  set_dynamicFile (run0 [1; 2; 3; 4; 5] 5 5 [] false)
    (memmove [1; 2; 3; 4; 5] 2 0 2).
Proof.
  apply (proj2 (C5_Move_spares_last_byte (run0 [1; 2; 3; 4; 5] 5 5 [] false)
                  0 2 5
                  ltac:(simpl; lia) ltac:(unfold SSIZE_MAX; simpl; lia)
                  ltac:(lia) ltac:(lia) ltac:(unfold SSIZE_MAX; lia))
               ltac:(simpl; lia) ltac:(simpl; lia)).
Defined.

(** C6: on a context with [1 <= size <= maxFileSz], every operator of the
    table [mangleFuncs], the distinguished operator [mangle_Resize], the
    primitive [mangle_Inflate] and the whole session [mangle_mangleContent]
    end in a context with the same globals (so the same [maxFileSz]) and
    with [1 <= size <= maxFileSz], [input_setSize] setting the size to the
    size it is given. *)
Theorem C6_size_invariant :
  forall (run : run_t) (printable : bool) (t : rng),
    size_ok run ->
    maxFileSz (mutate (global run)) <= SSIZE_MAX ->
    (forall op, In op mangleFuncs -> size_kept run (fst (op run printable t))) /\
    size_kept run (fst (mangle_Resize run printable t)) /\
    size_kept run (fst (mangle_Shrink run printable t)) /\
    size_kept run (fst (mangle_Expand run printable t)) /\
    size_kept run (fst (mangle_DictionaryInsert run printable t)) /\
    (forall off n, 0 <= n ->
       size_kept run (fst (mangle_Inflate run off n printable t))) /\
    size_kept run (fst (mangle_mangleContent run t)).
Proof.
  intros run printable t Hok Hmax.
  pose proof SSIZE_MAX_lt_SIZE_MAX as HS.
  repeat match goal with
         | |- _ /\ _ => split
         end.
  - intros op Hin.
    apply (proj1 (Forall_forall keeps_size mangleFuncs) keeps_size_mangleFuncs);
      auto.
  - apply size_kept_Resize; auto.
  - apply size_kept_Shrink; auto; lia.
  - apply size_kept_Expand; auto; lia.
  - apply size_kept_DictionaryInsert; auto; lia.
  - intros off n Hn. apply size_kept_Inflate; auto; lia.
  - apply size_kept_mangleContent; auto.
Qed.

(** C6 on a concrete session, from size 3 with [maxFileSz = 6]. *)
Lemma C6_size_invariant_witness :
  size_kept (run0 [65; 66; 67; 0; 0; 0] 3 6 [] false)
    (fst (mangle_mangleContent (run0 [65; 66; 67; 0; 0; 0] 3 6 [] false)
            [1; 1; 13; 0; 0; 7; 8])).
Proof.
  apply (C6_size_invariant (run0 [65; 66; 67; 0; 0; 0] 3 6 [] false) false
           [1; 1; 13; 0; 0; 7; 8]).
  - unfold size_ok. simpl. lia.
  - unfold SSIZE_MAX. simpl. lia.
Defined.

(** C7: when the dictionary is empty ([dictionaryCnt = 0]), the operators
    [mangle_Dictionary] and [mangle_DictionaryInsert] are [mangle_Bit]: on
    every context and every tape they return the same run (buffer and size)
    and leave the same tape. *)
Theorem C7_empty_dictionary_is_Bit :
  forall (run : run_t) (printable : bool) (t : rng),
    dictionaryCnt (mutate (global run)) = 0 ->
    mangle_Dictionary run printable t = mangle_Bit run printable t /\
    mangle_DictionaryInsert run printable t = mangle_Bit run printable t.
Proof.
  intros run printable t Hcnt.
  unfold mangle_Dictionary, mangle_DictionaryInsert.
  rewrite Hcnt. split; reflexivity.
Qed.

(** C7 on the buffer [AA BB CC] with the tape of the scenario S1. *)
Lemma C7_empty_dictionary_witness :
  mangle_DictionaryInsert (run0 [0xAA; 0xBB; 0xCC] 3 3 [] false) false [1; 3] =
  mangle_Bit (run0 [0xAA; 0xBB; 0xCC] 3 3 [] false) false [1; 3].
Proof.
  apply (C7_empty_dictionary_is_Bit (run0 [0xAA; 0xBB; 0xCC] 3 3 [] false)
           false [1; 3]).
  reflexivity.
Defined.



(** C8: [mangle_Resize] draws [v] in [0, 16]; the size drawn is
    [rnd(1, maxFileSz)] when [v = 0], [oldSize + v] when [1 <= v <= 8] and
    [oldSize + 8 - v], a change between -8 and -1, when [9 <= v <= 16]; the
    new size is the size drawn clamped to [1, maxFileSz], and it is the size
    [input_setSize] is given.  When the new size is larger than the old one,
    and only then, the bytes from [oldSize] up to [newSize] are filled with
    as many random bytes (printable ones when the flag is set); every other
    byte, so every byte below [min oldSize newSize], keeps its value.  When
    the buffer does not grow, the buffer is unchanged and no random byte is
    drawn. *)
Theorem C8_Resize :
  forall (run : run_t) (printable : bool) (t : rng),
    size_ok run ->
    maxFileSz (mutate (global run)) + 8 <= SSIZE_MAX ->
    maxFileSz (mutate (global run)) <= Z.of_nat (length (dynamicFile run)) ->
    let oldSize := dynamicFileSz run in
    let max := maxFileSz (mutate (global run)) in
    let v := fst (util_rndGet 0 16 t) in
    let t1 := if v =? 0 then tl (tl t) else tl t in
    let drawn :=
      if v =? 0 then fst (util_rndGet 1 max (tl t))
      else if v <=? 8 then oldSize + v
      else oldSize + 8 - v in
    let newSize := Z.max 1 (Z.min max drawn) in
    let fill :=
      fst ((if printable then util_rndBufPrintable (newSize - oldSize)
            else util_rndBuf (newSize - oldSize)) t1) in
    let run' := fst (mangle_Resize run printable t) in
    let t' := snd (mangle_Resize run printable t) in
    0 <= v <= 16 /\
    (9 <= v -> -8 <= drawn - oldSize <= -1) /\
    1 <= newSize <= max /\
    run' = input_setSize (set_dynamicFile run (dynamicFile run')) newSize /\
    (forall i, 0 <= i -> ~ oldSize <= i < newSize ->
       load (dynamicFile run') i = load (dynamicFile run) i) /\
    (newSize > oldSize ->
       Z.of_nat (length fill) = newSize - oldSize /\
       Forall (fun b => if printable then 32 <= b <= 126 else 0 <= b <= 255)
         fill /\
       (forall i, oldSize <= i < newSize ->
          load (dynamicFile run') i = nth (Z.to_nat (i - oldSize)) fill 0) /\
       t' = skipn (Z.to_nat (newSize - oldSize)) t1) /\
    (newSize <= oldSize -> dynamicFile run' = dynamicFile run /\ t' = t1).
Proof.
  intros run printable t Hok Hmax Hcap oldSize max v t1 drawn newSize fill run' t'.
  assert (Hv : 0 <= v <= 16) by (apply util_rndGet_range; lia).
  assert (Hd : 9 <= v -> -8 <= drawn - oldSize <= -1).
  { intros H9. unfold drawn.
    destruct (Z.eqb_spec v 0); [lia|]. destruct (Z.leb_spec v 8); lia. }
  unfold size_ok in Hok. fold max oldSize in Hok. fold max in Hmax, Hcap.
  assert (Hnew : 1 <= newSize <= max) by (unfold newSize; lia).
  pose proof (mangle_Resize_eq run printable t Hok Hmax) as Heq.
  cbv zeta in Heq. fold oldSize max v t1 drawn newSize in Heq.
  unfold run', t'. rewrite Heq. clear Heq run' t'.
  destruct (Z.gtb_spec newSize oldSize) as [Hgrow|Hkeep].
  - destruct (rndBuf_fill_spec (newSize - oldSize) printable t1 ltac:(lia))
      as (A & B & C).
    fold fill in A, B.
    unfold rndBuf_at, bind, ret. cbv beta. cbn [fst snd]. fold fill.
    cbn [input_setSize set_dynamicFile dynamicFile].
    repeat match goal with
           | |- _ /\ _ => split
           end; auto; try lia.
    + intros i Hi Hout. unfold load. apply nth_memwrite_out. lia.
    + intros _. repeat match goal with
                       | |- _ /\ _ => split
                       end; auto.
      intros i Hi. unfold load. rewrite nth_memwrite_in by lia.
      f_equal. lia.
  - cbn [fst snd input_setSize set_dynamicFile dynamicFile].
    repeat match goal with
           | |- _ /\ _ => split
           end; auto; try lia.
Qed.

(** C8 on the scenario S5: [abc] grows by [v = 4] to [abcXYZW]. *)
Lemma C8_Resize_witness :
  fst (mangle_Resize
         (run0 [97; 98; 99; 0; 0; 0; 0; 0; 0; 0; 0; 0; 0; 0; 0; 0] 3 16 [] true)
         true [4; 56; 57; 58; 55]) =
  input_setSize
    (set_dynamicFile
       (run0 [97; 98; 99; 0; 0; 0; 0; 0; 0; 0; 0; 0; 0; 0; 0; 0] 3 16 [] true)
       [97; 98; 99; 88; 89; 90; 87; 0; 0; 0; 0; 0; 0; 0; 0; 0])
    7.
Proof.
  apply (C8_Resize
           (run0 [97; 98; 99; 0; 0; 0; 0; 0; 0; 0; 0; 0; 0; 0; 0; 0] 3 16 [] true)
           true [4; 56; 57; 58; 55]).
  - unfold size_ok. simpl. lia.
  - unfold SSIZE_MAX. simpl. lia.
  - simpl. lia.
Defined.

(** C9: the delta of [mangle_AddSubWithRange] is [rnd(0, 8192) - 4096]: it
    lies in [-4096, 4096] and every value of that interval is drawn by some
    tape (one draw each, so it is as uniform as the generator).  The sum is
    taken with the wrap-around of the width chosen.  On one byte inside the
    buffer the byte becomes the old one plus delta modulo [2 ^ 8] and no
    other byte changes.  On 2, 4 and 8 bytes that lie inside the buffer,
    when the draw is odd the integer the bytes hold in host (little-endian)
    order becomes the old one plus delta modulo [2 ^ (8 * w)], and the
    value stored is the signed value of that width that differs from the
    exact sum by a multiple of [2 ^ (8 * w)]; when the draw is even the
    same sum is made on the integer the bytes hold in the other
    (big-endian) order; no byte outside the variable changes.
    [mangle_AddSub] calls it with a width of 1, 2, 4 or 8 bytes that fits
    the buffer at the offset drawn, so the [default] case of the switch is
    not reached from it.  On the buffer [01 00] with [off = 0],
    [varLen = 2], the native path and [delta = -5], the value 1 becomes -4
    and the buffer [FC FF]; on [00 01] the other path gives [FF FC]. *)
Theorem C9_AddSub_delta_and_wrap :
  (forall (t : rng), - 4096 <= fst (util_rndGet 0 8192 t) - 4096 <= 4096) /\
  (forall (d : Z) (t : rng),
     - 4096 <= d <= 4096 ->
     util_rndGet 0 8192 ((d + 4096) :: t) = (d + 4096, t)) /\
  (forall (run : run_t) (off : Z) (t : rng),
     0 <= off < dynamicFileSz run ->
     dynamicFileSz run <= Z.of_nat (length (dynamicFile run)) ->
     let delta := fst (util_rndGet 0 8192 t) - 4096 in
     let run' := fst (mangle_AddSubWithRange run off 1 t) in
     mangle_AddSubWithRange run off 1 t =
     (store run off ((load (dynamicFile run) off + delta) mod 2 ^ 8), tl t) /\
     load (dynamicFile run') off =
       (load (dynamicFile run) off + delta) mod 2 ^ 8 /\
     (forall i, 0 <= i -> i <> off ->
        load (dynamicFile run') i = load (dynamicFile run) i)) /\
  (forall (run : run_t) (off : Z) (w : nat) (t : rng),
     (w = 2 \/ w = 4 \/ w = 8)%nat ->
     0 <= off -> off + Z.of_nat w <= dynamicFileSz run ->
     dynamicFileSz run <= SIZE_MAX ->
     dynamicFileSz run <= Z.of_nat (length (dynamicFile run)) ->
     bytes_ok (dynamicFile run) ->
     let delta := fst (util_rndGet 0 8192 t) - 4096 in
     let native := Z.land (fst (util_rnd64 (tl t))) 1 =? 1 in
     let run' := fst (mangle_AddSubWithRange run off (Z.of_nat w) t) in
     let old := memread (dynamicFile run) (Z.to_nat off) w in
     let new := memread (dynamicFile run') (Z.to_nat off) w in
     length new = w /\
     bytes_ok new /\
     (if native
      then of_bytes new = (of_bytes old + delta) mod 2 ^ (8 * Z.of_nat w)
      else of_bytes (rev new) =
           (of_bytes (rev old) + delta) mod 2 ^ (8 * Z.of_nat w)) /\
     (forall i, 0 <= i -> ~ off <= i < off + Z.of_nat w ->
        load (dynamicFile run') i = load (dynamicFile run) i) /\
     snd (mangle_AddSubWithRange run off (Z.of_nat w) t) = tl (tl t)) /\
  (forall (run : run_t) (off delta : Z) (w : nat) (k : Z) (t : rng),
     (w = 2 \/ w = 4 \/ w = 8)%nat ->
     let varLen := Z.of_nat w in
     let bits := 8 * Z.of_nat w in
     let val := swrap bits (of_bytes (memread (dynamicFile run) (Z.to_nat off) w)) in
     let sum := swrap bits (val + delta) in
     let swapped := swrap bits (bswap w val) in
     let sum' := swrap bits (swapped + delta) in
     - 2 ^ (bits - 1) <= sum < 2 ^ (bits - 1) /\
     (sum - (val + delta)) mod 2 ^ bits = 0 /\
     AddSub_case run off varLen delta w ((2 * k + 1) :: t) =
       (mangle_Overwrite run (to_bytes w sum) off varLen, t) /\
     - 2 ^ (bits - 1) <= sum' < 2 ^ (bits - 1) /\
     (sum' - (swapped + delta)) mod 2 ^ bits = 0 /\
     AddSub_case run off varLen delta w ((2 * k) :: t) =
       (mangle_Overwrite run (to_bytes w (swrap bits (bswap w sum'))) off varLen,
        t)) /\
  (forall (run : run_t) (printable : bool) (t : rng),
     size_ok run ->
     maxFileSz (mutate (global run)) <= SIZE_MAX ->
     let off := fst (util_rndGet 0 (size_t (dynamicFileSz run - 1)) t) in
     let e := fst (util_rndGet 0 3 (tl t)) in
     let varLen := if dynamicFileSz run - off <? 2 ^ e then 1 else 2 ^ e in
     let r := mangle_AddSubWithRange run off varLen (tl (tl t)) in
     (varLen = 1 \/ varLen = 2 \/ varLen = 4 \/ varLen = 8) /\
     0 <= off /\ off + varLen <= dynamicFileSz run /\
     mangle_AddSub run printable t =
     (if printable then turnToPrintable_at (fst r) off varLen else fst r,
      snd r)) /\
  (forall (k : Z) (t : rng),
     mangle_AddSubWithRange (run0 [0x01; 0x00] 2 2 [] false) 0 2
       (4091 :: (2 * k + 1) :: t) =
     (set_dynamicFile (run0 [0x01; 0x00] 2 2 [] false) [0xFC; 0xFF], t)) /\
  (forall (k : Z) (t : rng),
     mangle_AddSub (run0 [0x01; 0x00] 2 2 [] false) false
       (0 :: 1 :: 4091 :: (2 * k + 1) :: t) =
     (set_dynamicFile (run0 [0x01; 0x00] 2 2 [] false) [0xFC; 0xFF], t)) /\
  (forall (k : Z) (t : rng),
     mangle_AddSubWithRange (run0 [0x00; 0x01] 2 2 [] false) 0 2
       (4091 :: (2 * k) :: t) =
     (set_dynamicFile (run0 [0x00; 0x01] 2 2 [] false) [0xFF; 0xFC], t)).
Proof.
  assert (Hodd : forall (run : run_t) (off varLen delta : Z) (w : nat)
                        (k : Z) (t : rng),
            AddSub_case run off varLen delta w ((2 * k + 1) :: t) =
            (mangle_Overwrite run
               (to_bytes w
                  (swrap (8 * Z.of_nat w)
                     (swrap (8 * Z.of_nat w)
                        (of_bytes (memread (dynamicFile run) (Z.to_nat off) w))
                      + delta)))
               off varLen, t)).
  { intros run off varLen delta w k t.
    unfold AddSub_case, bind, ret. cbv beta.
    change (fst (util_rnd64 ((2 * k + 1) :: t))) with (uint64_t (2 * k + 1)).
    rewrite uint64_t_odd. reflexivity. }
  assert (Heven : forall (run : run_t) (off varLen delta : Z) (w : nat)
                         (k : Z) (t : rng),
            let bits := 8 * Z.of_nat w in
            let val :=
              swrap bits (of_bytes (memread (dynamicFile run) (Z.to_nat off) w)) in
            AddSub_case run off varLen delta w ((2 * k) :: t) =
            (mangle_Overwrite run
               (to_bytes w
                  (swrap bits
                     (bswap w (swrap bits (swrap bits (bswap w val) + delta)))))
               off varLen, t)).
  { intros run off varLen delta w k t bits val.
    unfold AddSub_case, bind, ret. cbv beta.
    change (fst (util_rnd64 ((2 * k) :: t))) with (uint64_t (2 * k)).
    rewrite uint64_t_even. reflexivity. }
  assert (Hwr : forall (run : run_t) (off varLen : Z) (t : rng),
            mangle_AddSubWithRange run off varLen t =
            (if varLen =? 1 then
               ret (store run off
                      ((load (dynamicFile run) off
                        + (fst (util_rndGet 0 8192 t) - 4096)) mod 2 ^ 8))
             else if varLen =? 2 then
               AddSub_case run off varLen (fst (util_rndGet 0 8192 t) - 4096) 2
             else if varLen =? 4 then
               AddSub_case run off varLen (fst (util_rndGet 0 8192 t) - 4096) 4
             else if varLen =? 8 then
               AddSub_case run off varLen (fst (util_rndGet 0 8192 t) - 4096) 8
             else ret run) (tl t)).
  { intros run off varLen t.
    unfold mangle_AddSubWithRange. unfold bind at 1. cbv beta.
    rewrite util_rndGet_tape.
    destruct (delta_range t) as [_ ->]. reflexivity. }
  repeat match goal with
         | |- _ /\ _ => split
         end.
  - intros t. destruct (delta_range t) as [Hr _]. cbv zeta in Hr. lia.
  - intros d t Hd.
    rewrite util_rndGet_head by (unfold SIZE_MAX; lia).
    f_equal. lia.
  - intros run off t Hoff Hcap delta run'.
    assert (Hcall : mangle_AddSubWithRange run off 1 t =
                    (store run off
                       ((load (dynamicFile run) off + delta) mod 2 ^ 8), tl t))
      by (rewrite Hwr; reflexivity).
    split; [exact Hcall|].
    unfold run'. rewrite Hcall. cbn [fst].
    split.
    + rewrite load_store by lia. rewrite Z.eqb_refl. reflexivity.
    + intros i Hi Hne. rewrite load_store by lia.
      destruct (Z.eqb_spec i off); [contradiction|reflexivity].
  - intros run off w t Hw Hoff Hin Hsz Hcap Hbytes delta native run' old new.
    assert (Hold : length old = w) by (apply length_memread; lia).
    assert (Hold_ok : bytes_ok old) by (apply bytes_ok_memread; exact Hbytes).
    destruct (AddSubWithRange_wide run off w t Hw Hoff Hin Hsz Hcap)
      as (Htape & Hbuf & Hnew).
    fold delta in Hbuf, Hnew. fold native in Hbuf, Hnew.
    fold run' in Hbuf, Hnew. fold old in Hbuf, Hnew. fold new in Hnew.
    split; [rewrite Hnew; apply length_to_bytes|].
    split; [rewrite Hnew; apply to_bytes_ok|].
    split; [rewrite Hnew;
            apply (AddSub_res_sum w old delta native ltac:(lia) Hold Hold_ok)|].
    split; [|exact Htape].
    intros i Hi Hout. rewrite Hbuf.
    rewrite load_memwrite by (rewrite ?length_to_bytes; lia).
    rewrite length_to_bytes.
    destruct (Z.leb_spec off i); cbn [andb]; [|reflexivity].
    destruct (Z.ltb_spec i (off + Z.of_nat w)); [lia|reflexivity].
  - intros run off delta w k t Hw varLen bits val sum swapped sum'.
    destruct (swrap_spec bits (val + delta) ltac:(unfold bits; lia)) as [A B].
    destruct (swrap_spec bits (swapped + delta) ltac:(unfold bits; lia))
      as [A' B'].
    split; [exact A|]. split; [exact B|]. split; [apply Hodd|].
    split; [exact A'|]. split; [exact B'|]. apply Heven.
  - intros run printable t Hok Hmax off e varLen r.
    pose proof (off_range run t Hok Hmax) as Hoff. fold off in Hoff.
    pose proof (util_rndGet_range 0 3 (tl t) ltac:(lia)) as He. fold e in He.
    unfold size_ok in Hok.
    assert (Hpow : 2 ^ e = 1 \/ 2 ^ e = 2 \/ 2 ^ e = 4 \/ 2 ^ e = 8).
    { assert (Hc : e = 0 \/ e = 1 \/ e = 2 \/ e = 3) by lia.
      destruct Hc as [Hc | [Hc | [Hc | Hc]]]; rewrite Hc; simpl; lia. }
    assert (Hlen : varLen = 1 \/ varLen = 2 \/ varLen = 4 \/ varLen = 8).
    { unfold varLen. destruct (dynamicFileSz run - off <? 2 ^ e); lia. }
    split; [exact Hlen|]. split; [lia|].
    split.
    { unfold varLen. destruct (Z.ltb_spec (dynamicFileSz run - off) (2 ^ e)); lia. }
    unfold mangle_AddSub. unfold bind at 1. cbv beta.
    unfold bind at 1. cbv beta. rewrite !util_rndGet_tape.
    fold off. fold e.
    rewrite Z.shiftl_1_l.
    rewrite (uint64_t_small (2 ^ e)) by (unfold SIZE_MAX; lia).
    rewrite (size_t_small (dynamicFileSz run - off)) by lia.
    fold varLen. unfold bind, ret. fold r. reflexivity.
  - intros k t. rewrite Hwr.
    rewrite util_rndGet_head by (unfold SIZE_MAX; lia).
    change (2 =? 1) with false. change (2 =? 2) with true. cbv iota.
    cbn [tl]. rewrite Hodd. reflexivity.
  - intros k t. unfold mangle_AddSub. unfold bind at 1. cbv beta.
    unfold bind at 1. cbv beta.
    change (fst (util_rndGet 0 (size_t (dynamicFileSz (run0 [1; 0] 2 2 [] false) - 1))
                   (0 :: 1 :: 4091 :: 2 * k + 1 :: t))) with 0.
    rewrite !util_rndGet_tape. cbn [tl].
    change (fst (util_rndGet 0 3 (1 :: 4091 :: 2 * k + 1 :: t))) with 1.
    change (uint64_t (Z.shiftl 1 1)) with 2.
    change (size_t (dynamicFileSz (run0 [1; 0] 2 2 [] false) - 0)) with 2.
    change (2 <? 2) with false. cbv iota.
    unfold bind, ret. rewrite Hwr.
    rewrite util_rndGet_head by (unfold SIZE_MAX; lia).
    change (2 =? 1) with false. change (2 =? 2) with true. cbv iota.
    cbn [tl]. rewrite Hodd. reflexivity.
  - intros k t. rewrite Hwr.
    rewrite util_rndGet_head by (unfold SIZE_MAX; lia).
    change (2 =? 1) with false. change (2 =? 2) with true. cbv iota.
    cbn [tl]. rewrite Heven. reflexivity.
Qed.

(** C9 on the other byte order: on [00 01], which holds 1 in big-endian
    order, an even draw and [delta = -5], the big-endian value becomes
    [1 - 5] modulo [2 ^ 16]. *)
Lemma C9_AddSub_witness :
  of_bytes
    (rev (memread
            (dynamicFile
               (fst (mangle_AddSubWithRange (run0 [0x00; 0x01] 2 2 [] false) 0
                       (Z.of_nat 2) [4091; 2])))
            (Z.to_nat 0) 2)) =
  (of_bytes (rev (memread (dynamicFile (run0 [0x00; 0x01] 2 2 [] false))
                    (Z.to_nat 0) 2))
   + (fst (util_rndGet 0 8192 [4091; 2]) - 4096)) mod 2 ^ (8 * Z.of_nat 2).
Proof.
  refine
    (proj1 (proj2 (proj2
       (proj1 (proj2 (proj2 (proj2 C9_AddSub_delta_and_wrap)))
          (run0 [0x00; 0x01] 2 2 [] false) 0 2%nat [4091; 2] _ _ _ _ _ _)))).
  - left. reflexivity.
  - lia.
  - simpl. lia.
  - unfold SIZE_MAX. simpl. lia.
  - simpl. lia.
  - unfold bytes_ok. simpl. repeat constructor; lia.
Defined.

(** C4, as stated, fails: the table does not have 220 entries, and it is
    not the table whose big-endian groups hold a zero-prefixed copy of each
    of the 26 one-byte magics (that table has 224 entries). *)
Lemma C4_magic_table_counterexample :
  ~ (length mangleMagicVals = 220%nat \/
     mangleMagicVals = magic_table magic_bytes).
Proof.
  intros [H | H]; vm_compute in H; discriminate H.
Qed.

(** C4, amended: the table has exactly 221 entries, grouped in the order
    1-byte (26), 2-byte native (4), 2-byte BE (30), 2-byte LE (31), 4-byte
    native (4), 4-byte BE (30), 4-byte LE (31), 8-byte native (4), 8-byte BE
    (30), 8-byte LE (31); each big-endian group holds the zero-prefixed copy
    of each of the 25 one-byte magics other than [00], then the five
    boundary values; each little-endian group holds the zero-suffixed copy of
    each of the 26 one-byte magics, then the boundary values reversed. *)
Theorem C4_magic_table :
  mangleMagicVals = magic_table (tl magic_bytes) /\
  length mangleMagicVals = 221%nat /\
  ARRAYSIZE mangleMagicVals = 221 /\
  length magic_bytes = 26%nat /\
  length (tl magic_bytes) = 25%nat /\
  ~ In 0x00 (tl magic_bytes) /\
  group_sizes (tl magic_bytes) = [26; 4; 30; 31; 4; 30; 31; 4; 30; 31]%nat /\
  Forall (fun m => length (val m) = 8%nat /\ In (size m) [1; 2; 4; 8])
    mangleMagicVals.
Proof.
  repeat match goal with
         | |- _ /\ _ => split
         end; try reflexivity.
  - intros H. vm_compute in H.
    repeat match goal with
           | H : _ \/ _ |- _ => destruct H as [H | H]; [discriminate H|]
           end.
    exact H.
  - rewrite Forall_forall. intros m Hm. vm_compute in Hm.
    repeat match goal with
           | H : _ \/ _ |- _ =>
               destruct H as [H | H]; [subst m; vm_compute; auto 6|]
           end.
    contradiction.
Qed.

(** C3: what [mangle_Shrink] does on the buffer [A B C D E] of size 5 when
    the generator yields [len = 2] and [off = 1]: the size becomes 3 before
    the move, so [mangle_Move] is called with [off_from = 3] at the new size
    3 and returns at once; the buffer is unchanged and its first three bytes
    are [A B C], where the scenario S4 of the specification has [A D E]. *)
Theorem C3_Shrink_S4_keeps_prefix :
  forall (A B C D E : Z) (printable : bool) (t : rng),
    let run := run0 [A; B; C; D; E] 5 5 [] printable in
    util_rndGet 1 (size_t (dynamicFileSz run - 1)) (1 :: 1 :: t) = (2, 1 :: t) /\
    util_rndGet 0 2 (1 :: t) = (1, t) /\
    mangle_Move (input_setSize run 3) (1 + 2) 1 3 = input_setSize run 3 /\
    mangle_Shrink run printable (1 :: 1 :: t) = (input_setSize run 3, t) /\
    firstn 3 (dynamicFile (fst (mangle_Shrink run printable (1 :: 1 :: t)))) =
      [A; B; C] /\
    (B <> D -> firstn 3 (dynamicFile (fst (mangle_Shrink run printable (1 :: 1 :: t))))
               <> [A; D; E]).
Proof.
  intros A B C D E printable t run.
  assert (Hs : mangle_Shrink run printable (1 :: 1 :: t) = (input_setSize run 3, t))
    by (vm_compute; reflexivity).
  repeat match goal with
         | |- _ /\ _ => split
         end; try (vm_compute; reflexivity).
  intros Hne. rewrite Hs. cbn. intros Heq. injection Heq. intros _ Hbd.
    apply Hne. exact Hbd.
Qed.

(** C2: [mangle_Magic] in printable mode on a buffer of size 1 inside a
    store of 4 bytes, with a 2-byte entry of the table (index 26, [00 00]):
    [mangle_Overwrite] writes one byte, but [util_turnToPrintable] is given
    the width of the entry, not the clamped length, and rewrites the byte at
    index 1, beyond the size: [FF] becomes [61]. *)
Theorem C2_Magic_printable_writes_past_size :
  forall (t : rng),
    let run := run0 [0x41; 0xFF; 0xFF; 0xFF] 1 4 [] true in
    let run' := fst (mangle_Magic run true (0 :: 26 :: t)) in
    size_ok run /\
    nth 26 mangleMagicVals (magic [] 0) = magic [0; 0; 0; 0; 0; 0; 0; 0] 2 /\
    dynamicFile (mangle_Overwrite run [0; 0; 0; 0; 0; 0; 0; 0] 0 2) =
      [0x00; 0xFF; 0xFF; 0xFF] /\
    dynamicFileSz run' = 1 /\
    dynamicFile run' = [0x20; 0x61; 0xFF; 0xFF] /\
    load (dynamicFile run') 1 <> load (dynamicFile run) 1.
Proof.
  intros t run run'.
  repeat match goal with
         | |- _ /\ _ => split
         end; try (vm_compute; reflexivity).
  - unfold size_ok. simpl. lia.
  - vm_compute. discriminate.
Qed.

(** C1: [mangle_Dictionary] and [mangle_DictionaryInsert] in printable mode
    on a buffer whose bytes are all printable, with a dictionary entry
    [00 FF]: the bytes of the entry are written as they are, so the buffer
    holds bytes outside [0x20, 0x7E] below its size, also after a whole
    session [mangle_mangleContent] that picks [mangle_Dictionary]. *)
Theorem C1_Dictionary_writes_raw_bytes :
  forall (t : rng),
    let printable_byte := fun b => 32 <= b <= 126 in
    let run := run0 [65; 66; 67; 68; 69; 70] 4 6 [mk_strings [0x00; 0xFF]] true in
    let run4 := run0 [65; 66; 67; 68] 4 4 [mk_strings [0x00; 0xFF]] true in
    Forall printable_byte (dynamicFile run) /\
    Forall printable_byte (dynamicFile run4) /\
    only_printable (cfg (global run)) = true /\
    mangle_Dictionary run true (1 :: 0 :: t) =
      (set_dynamicFile run [65; 0x00; 0xFF; 68; 69; 70], t) /\
    mangle_DictionaryInsert run true (0 :: 1 :: 0 :: 0 :: t) =
      (input_setSize (set_dynamicFile run [65; 0x00; 0xFF; 66; 67; 70]) 6, t) /\
    mangle_mangleContent run4 (1 :: 0 :: 7 :: 1 :: 0 :: t) =
      (set_dynamicFile run4 [65; 0x00; 0xFF; 68], t) /\
    ~ printable_byte
        (load (dynamicFile (fst (mangle_Dictionary run true (1 :: 0 :: t)))) 1).
Proof.
  intros t printable_byte run run4.
  repeat match goal with
         | |- _ /\ _ => split
         end.
  - unfold run, run0, printable_byte. cbn [dynamicFile].
    repeat constructor; lia.
  - unfold run4, run0, printable_byte. cbn [dynamicFile].
    repeat constructor; lia.
  - reflexivity.
  - vm_compute. reflexivity.
  - vm_compute. reflexivity.
  - vm_compute. reflexivity.
  - unfold printable_byte. vm_compute. intros [H _]. apply H. reflexivity.
Qed.
(** * Further properties of the operators *)

(** [mangle_Resize] growing a buffer of 3 bytes inside a store of 16. *)
Lemma writes_inside_operators_witness :
  writes_inside
    (run0 [97; 98; 99; 0; 0; 0; 0; 0; 0; 0; 0; 0; 0; 0; 0; 0] 3 16 [] true)
    (fst (mangle_Resize
            (run0 [97; 98; 99; 0; 0; 0; 0; 0; 0; 0; 0; 0; 0; 0; 0; 0] 3 16 [] true)
            true [4; 56; 57; 58; 55])).
Proof.
  apply (writes_inside_operators
           (run0 [97; 98; 99; 0; 0; 0; 0; 0; 0; 0; 0; 0; 0; 0; 0; 0] 3 16 [] true)
           true [4; 56; 57; 58; 55]).
  - unfold size_ok. simpl. lia.
  - unfold SSIZE_MAX. simpl. lia.
Defined.

(** X4: [mangle_CloneByte] exchanges the bytes at the two offsets it draws and
    keeps every other byte; run again on the same tape it restores the run
    it started from. *)
Theorem CloneByte_swaps :
  forall (run : run_t) (printable : bool) (t : rng),
    size_ok run ->
    maxFileSz (mutate (global run)) <= SIZE_MAX ->
    dynamicFileSz run <= Z.of_nat (length (dynamicFile run)) ->
    let off1 := fst (util_rndGet 0 (size_t (dynamicFileSz run - 1)) t) in
    let off2 := fst (util_rndGet 0 (size_t (dynamicFileSz run - 1)) (tl t)) in
    let run' := fst (mangle_CloneByte run printable t) in
    0 <= off1 < dynamicFileSz run /\
    0 <= off2 < dynamicFileSz run /\
    snd (mangle_CloneByte run printable t) = tl (tl t) /\
    load (dynamicFile run') off1 = load (dynamicFile run) off2 /\
    load (dynamicFile run') off2 = load (dynamicFile run) off1 /\
    (forall i, 0 <= i -> i <> off1 -> i <> off2 ->
       load (dynamicFile run') i = load (dynamicFile run) i) /\
    fst (mangle_CloneByte run' printable t) = run.
Proof.
  intros run printable t Hok Hmax Hcap off1 off2 run'.
  pose proof (off_range run t Hok Hmax) as H1.
  pose proof (off_range run (tl t) Hok Hmax) as H2.
  fold off1 in H1. fold off2 in H2.
  assert (Hrun' : run' = store (store run off1 (load (dynamicFile run) off2))
                           off2 (load (dynamicFile run) off1)).
  { unfold run', mangle_CloneByte, bind, ret. cbv beta. cbn [fst snd].
    rewrite util_rndGet_tape. reflexivity. }
  assert (Hl1 : length (dynamicFile (store run off1 (load (dynamicFile run) off2)))
                = length (dynamicFile run)) by apply length_store.
  assert (Hld : forall i, 0 <= i ->
            load (dynamicFile run') i =
            if i =? off2 then load (dynamicFile run) off1
            else if i =? off1 then load (dynamicFile run) off2
            else load (dynamicFile run) i).
  { intros i Hi. rewrite Hrun'.
    rewrite load_store by (rewrite ?Hl1; lia).
    destruct (i =? off2); [reflexivity|].
    apply load_store; lia. }
  assert (Hlen : length (dynamicFile run') = length (dynamicFile run)).
  { rewrite Hrun'. rewrite !length_store. reflexivity. }
  repeat match goal with
         | |- _ /\ _ => split
         end; try lia.
  - unfold mangle_CloneByte, bind, ret. cbv beta. cbn [fst snd].
    rewrite !util_rndGet_tape. reflexivity.
  - rewrite Hld by lia.
    destruct (Z.eqb_spec off1 off2) as [E|E]; [congruence|].
    rewrite Z.eqb_refl. reflexivity.
  - rewrite Hld by lia. rewrite Z.eqb_refl. reflexivity.
  - intros i Hi N1 N2. rewrite Hld by lia.
    destruct (Z.eqb_spec i off2); [contradiction|].
    destruct (Z.eqb_spec i off1); [contradiction|]. reflexivity.
  - assert (Hsz : dynamicFileSz run' = dynamicFileSz run)
      by (rewrite Hrun'; reflexivity).
    apply run_eq.
    + eapply same_frame_trans; [apply (same_frame_CloneByte run printable t)|].
      apply same_frame_CloneByte.
    + unfold mangle_CloneByte, bind, ret. cbv beta. cbn [fst snd].
      rewrite util_rndGet_tape. rewrite Hsz. fold off1 off2.
      apply buf_eq_load.
      * rewrite !length_store. exact Hlen.
      * rewrite !length_store. intros i Hi.
        rewrite load_store by (rewrite ?length_store, ?Hlen; lia).
        destruct (Z.eqb_spec i off2) as [->|N2].
        { rewrite Hld by lia.
          destruct (Z.eqb_spec off1 off2) as [E|E]; [congruence|].
          rewrite Z.eqb_refl. reflexivity. }
        rewrite load_store by (rewrite ?Hlen; lia).
        destruct (Z.eqb_spec i off1) as [->|N1].
        { rewrite Hld by lia. rewrite Z.eqb_refl. reflexivity. }
        rewrite Hld by lia.
        destruct (Z.eqb_spec i off2); [contradiction|].
        destruct (Z.eqb_spec i off1); [contradiction|]. reflexivity.
Qed.

(** Bytes 0 and 2 of [A B C] are exchanged, and exchanged back. *)
Lemma CloneByte_swaps_witness :
  fst (mangle_CloneByte
         (fst (mangle_CloneByte (run0 [65; 66; 67] 3 3 [] false) false [0; 2]))
         false [0; 2]) =
  run0 [65; 66; 67] 3 3 [] false.
Proof.
  apply (CloneByte_swaps (run0 [65; 66; 67] 3 3 [] false) false [0; 2]).
  - unfold size_ok. simpl. lia.
  - unfold SIZE_MAX. simpl. lia.
  - simpl. lia.
Defined.

(** X5: Without the printable flag [mangle_Bit] changes the byte at the offset
    it draws in exactly the one bit it draws, and no other byte: the
    buffer always differs from the one it was given, and the same draws
    applied again restore it. *)
Theorem Bit_flips_one_bit :
  forall (run : run_t) (t : rng),
    size_ok run ->
    maxFileSz (mutate (global run)) <= SIZE_MAX ->
    dynamicFileSz run <= Z.of_nat (length (dynamicFile run)) ->
    bytes_ok (dynamicFile run) ->
    let off := fst (util_rndGet 0 (size_t (dynamicFileSz run - 1)) t) in
    let bit := fst (util_rndGet 0 7 (tl t)) in
    let run' := fst (mangle_Bit run false t) in
    0 <= off < dynamicFileSz run /\
    0 <= bit <= 7 /\
    load (dynamicFile run') off = Z.lxor (load (dynamicFile run) off) (2 ^ bit) /\
    (forall k, 0 <= k ->
       Z.testbit (load (dynamicFile run') off) k =
       if k =? bit then negb (Z.testbit (load (dynamicFile run) off) k)
       else Z.testbit (load (dynamicFile run) off) k) /\
    0 <= load (dynamicFile run') off <= 255 /\
    (forall i, 0 <= i -> i <> off ->
       load (dynamicFile run') i = load (dynamicFile run) i) /\
    dynamicFile run' <> dynamicFile run /\
    fst (mangle_Bit run' false t) = run.
Proof.
  intros run t Hok Hmax Hcap Hbytes off bit run'.
  pose proof (off_range run t Hok Hmax) as Hoff. fold off in Hoff.
  pose proof (util_rndGet_range 0 7 (tl t) ltac:(lia)) as Hbit. fold bit in Hbit.
  destruct (bit_mask bit Hbit) as [Hmask Hpow].
  pose proof (load_bytes_ok (dynamicFile run) off Hbytes ltac:(lia)) as Hb.
  assert (Hrun' : run' = store run off (Z.lxor (load (dynamicFile run) off) (2 ^ bit))).
  { unfold run', mangle_Bit, bind, ret. cbv beta. cbn [fst snd].
    rewrite util_rndGet_tape. fold off bit. rewrite Hmask. reflexivity. }
  assert (Hld : forall i, 0 <= i ->
            load (dynamicFile run') i =
            if i =? off then Z.lxor (load (dynamicFile run) off) (2 ^ bit)
            else load (dynamicFile run) i).
  { intros i Hi. rewrite Hrun'. apply load_store; lia. }
  assert (Hnew : load (dynamicFile run') off =
                 Z.lxor (load (dynamicFile run) off) (2 ^ bit)).
  { rewrite Hld by lia. rewrite Z.eqb_refl. reflexivity. }
  repeat match goal with
         | |- _ /\ _ => split
         end; try lia; try exact Hnew.
  - intros k Hk. rewrite Hnew, Z.lxor_spec.
    rewrite Z.pow2_bits_eqb by lia. rewrite (Z.eqb_sym bit k).
    destruct (k =? bit); [apply xorb_true_r|apply xorb_false_r].
  - rewrite Hnew. apply lxor_byte; lia.
  - rewrite Hnew. apply lxor_byte; lia.
  - intros i Hi Hne. rewrite Hld by lia.
    destruct (Z.eqb_spec i off); [contradiction|reflexivity].
  - intros Heq.
    apply (lxor_changes (load (dynamicFile run) off) (2 ^ bit)); [lia|].
    rewrite <- Hnew. rewrite Heq. reflexivity.
  - apply run_eq.
    + eapply same_frame_trans; [apply (same_frame_Bit run false t)|].
      apply same_frame_Bit.
    + assert (Hsz : dynamicFileSz run' = dynamicFileSz run)
        by (rewrite Hrun'; reflexivity).
      assert (Hlen : length (dynamicFile run') = length (dynamicFile run))
        by (rewrite Hrun'; apply length_store).
      unfold mangle_Bit, bind, ret. cbv beta. cbn [fst snd].
      rewrite util_rndGet_tape. rewrite Hsz. fold off bit. rewrite Hmask.
      apply buf_eq_load.
      * rewrite length_store. exact Hlen.
      * rewrite length_store. intros i Hi.
        rewrite load_store by (rewrite ?Hlen; lia).
        destruct (Z.eqb_spec i off) as [->|Hne].
        { rewrite Hnew. apply lxor_twice. }
        rewrite Hld by lia.
        destruct (Z.eqb_spec i off); [contradiction|reflexivity].
Qed.

(** The scenario S1: offset 1 and bit 3 of [AA BB CC]. *)
Lemma Bit_flips_one_bit_witness :
  load (dynamicFile (fst (mangle_Bit (run0 [0xAA; 0xBB; 0xCC] 3 3 [] false)
                            false [1; 3]))) 1 =
  Z.lxor 0xBB (2 ^ 3).
Proof.
  apply (Bit_flips_one_bit (run0 [0xAA; 0xBB; 0xCC] 3 3 [] false) [1; 3]).
  - unfold size_ok. simpl. lia.
  - unfold SIZE_MAX. simpl. lia.
  - simpl. lia.
  - unfold bytes_ok. simpl. repeat constructor; lia.
Defined.

(** X6: [mangle_IncByte] and [mangle_DecByte] are inverse to each other at the
    offset they draw: modulo 256 on a byte without the printable flag, and
    as the rotation of [0x20 .. 0x7E] (after [7E] comes [20]) on a printable
    byte with it. *)
Theorem IncByte_DecByte_inverse :
  forall (run : run_t) (printable : bool) (t : rng),
    size_ok run ->
    maxFileSz (mutate (global run)) <= SIZE_MAX ->
    dynamicFileSz run <= Z.of_nat (length (dynamicFile run)) ->
    let off := fst (util_rndGet 0 (size_t (dynamicFileSz run - 1)) t) in
    let b := load (dynamicFile run) off in
    (if printable then printable_byte b else 0 <= b <= 255) ->
    load (dynamicFile (fst (mangle_IncByte run printable t))) off =
      (if printable then if b =? 126 then 32 else b + 1
       else if b =? 255 then 0 else b + 1) /\
    load (dynamicFile (fst (mangle_DecByte run printable t))) off =
      (if printable then if b =? 32 then 126 else b - 1
       else if b =? 0 then 255 else b - 1) /\
    fst (mangle_DecByte (fst (mangle_IncByte run printable t)) printable t) = run /\
    fst (mangle_IncByte (fst (mangle_DecByte run printable t)) printable t) = run.
Proof.
  intros run printable t Hok Hmax Hcap off b Hb.
  pose proof (drawn_off run t Hok Hmax Hcap) as Hoff. fold off in Hoff.
  unfold mangle_IncByte, mangle_DecByte, bind, ret. cbv beta. cbn [fst snd].
  destruct printable.
  - cbn [store set_dynamicFile dynamicFileSz]. fold off. fold b.
    destruct (inc_dec_printable b Hb) as (Hinc & Hdec & Hid & Hdi).
    cbv zeta in Hinc, Hdec, Hid, Hdi.
    repeat match goal with
           | |- _ /\ _ => split
           end.
    + rewrite load_store_same by lia. exact Hinc.
    + rewrite load_store_same by lia. exact Hdec.
    + rewrite load_store_same by lia. apply store_store_back; [lia|exact Hid].
    + rewrite load_store_same by lia. apply store_store_back; [lia|exact Hdi].
  - cbn [store set_dynamicFile dynamicFileSz]. fold off. fold b.
    destruct (inc_dec_byte b Hb) as (Hid & Hdi).
    repeat match goal with
           | |- _ /\ _ => split
           end.
    + rewrite load_store_same by lia.
      unfold uint8_t, wrap. change (2 ^ 8) with 256.
      destruct (Z.eqb_spec b 255); Z.div_mod_to_equations; lia.
    + rewrite load_store_same by lia.
      unfold uint8_t, wrap. change (2 ^ 8) with 256.
      destruct (Z.eqb_spec b 0); Z.div_mod_to_equations; lia.
    + rewrite load_store_same by lia. apply store_store_back; [lia|exact Hid].
    + rewrite load_store_same by lia. apply store_store_back; [lia|exact Hdi].
Qed.

(** In printable mode [~] (7E) is incremented to a space and back. *)
Lemma IncByte_DecByte_inverse_witness :
  load (dynamicFile (fst (mangle_IncByte (run0 [65; 126; 67] 3 3 [] true) true [1])))
    1 = 32.
Proof.
  apply (IncByte_DecByte_inverse (run0 [65; 126; 67] 3 3 [] true) true [1]).
  - unfold size_ok. simpl. lia.
  - unfold SIZE_MAX. simpl. lia.
  - simpl. lia.
  - vm_compute. split; discriminate.
Defined.

(** X7: [mangle_NegByte] is an involution at the offset it draws: the
    complement of a byte without the printable flag, the mirror image
    [158 - b] of a printable byte with it. *)
Theorem NegByte_involution :
  forall (run : run_t) (printable : bool) (t : rng),
    size_ok run ->
    maxFileSz (mutate (global run)) <= SIZE_MAX ->
    dynamicFileSz run <= Z.of_nat (length (dynamicFile run)) ->
    let off := fst (util_rndGet 0 (size_t (dynamicFileSz run - 1)) t) in
    let b := load (dynamicFile run) off in
    (if printable then printable_byte b else 0 <= b <= 255) ->
    load (dynamicFile (fst (mangle_NegByte run printable t))) off =
      (if printable then 158 - b else 255 - b) /\
    (printable = true ->
       printable_byte (load (dynamicFile (fst (mangle_NegByte run printable t))) off)) /\
    (forall i, 0 <= i -> i <> off ->
       load (dynamicFile (fst (mangle_NegByte run printable t))) i =
       load (dynamicFile run) i) /\
    fst (mangle_NegByte (fst (mangle_NegByte run printable t)) printable t) = run.
Proof.
  intros run printable t Hok Hmax Hcap off b Hb.
  pose proof (drawn_off run t Hok Hmax Hcap) as Hoff. fold off in Hoff.
  unfold mangle_NegByte, bind, ret. cbv beta. cbn [fst snd].
  assert (Hframe : forall v i, 0 <= i -> i <> off ->
            load (dynamicFile (store run off v)) i = load (dynamicFile run) i).
  { intros v i Hi Hne. rewrite load_store by lia.
    destruct (Z.eqb_spec i off); [contradiction|reflexivity]. }
  destruct printable.
  - cbn [store set_dynamicFile dynamicFileSz]. fold off. fold b.
    destruct (neg_neg_printable b Hb) as (Hv & Hp & Hinv).
    repeat match goal with
           | |- _ /\ _ => split
           end.
    + rewrite load_store_same by lia. exact Hv.
    + intros _. rewrite load_store_same by lia. rewrite Hv. exact Hp.
    + apply Hframe.
    + rewrite load_store_same by lia. apply store_store_back; [lia|exact Hinv].
  - cbn [store set_dynamicFile dynamicFileSz]. fold off. fold b.
    destruct (neg_neg_byte b Hb) as (Hv & Hinv).
    repeat match goal with
           | |- _ /\ _ => split
           end.
    + rewrite load_store_same by lia. exact Hv.
    + intros H. discriminate H.
    + apply Hframe.
    + rewrite load_store_same by lia. apply store_store_back; [lia|exact Hinv].
Qed.

(** The complement of [0F] is [F0]. *)
Lemma NegByte_involution_witness :
  load (dynamicFile (fst (mangle_NegByte (run0 [0x0F; 0x41] 2 2 [] false) false [0])))
    0 = 255 - 0x0F.
Proof.
  apply (NegByte_involution (run0 [0x0F; 0x41] 2 2 [] false) false [0]).
  - unfold size_ok. simpl. lia.
  - unfold SIZE_MAX. simpl. lia.
  - simpl. lia.
  - vm_compute. split; discriminate.
Defined.

(** X8: [mangle_Inflate] with room left: the buffer grows by
    [min len (maxFileSz - size)] bytes; the bytes below [off] stay, the gap
    at [off] holds as many fresh random bytes, the old bytes from [off] up
    to, but not including, the last one follow it, and the last byte of the
    grown buffer is the byte the backing store already held there: the old
    last byte is not moved. *)
Theorem Inflate_bytes :
  forall (run : run_t) (off n : Z) (printable : bool) (t : rng),
    size_ok run ->
    maxFileSz (mutate (global run)) <= SSIZE_MAX ->
    maxFileSz (mutate (global run)) <= Z.of_nat (length (dynamicFile run)) ->
    0 <= off < dynamicFileSz run -> 0 <= n ->
    dynamicFileSz run < maxFileSz (mutate (global run)) ->
    let grow := Z.min n (maxFileSz (mutate (global run)) - dynamicFileSz run) in
    let fill :=
      fst ((if printable then util_rndBufPrintable grow else util_rndBuf grow) t) in
    let run' := fst (mangle_Inflate run off n printable t) in
    dynamicFileSz run' = dynamicFileSz run + grow /\
    snd (mangle_Inflate run off n printable t) = skipn (Z.to_nat grow) t /\
    Z.of_nat (length fill) = grow /\
    (forall i, 0 <= i < off ->
       load (dynamicFile run') i = load (dynamicFile run) i) /\
    (forall i, off <= i < off + grow ->
       load (dynamicFile run') i = nth (Z.to_nat (i - off)) fill 0) /\
    (forall i, off + grow <= i < dynamicFileSz run + grow - 1 ->
       load (dynamicFile run') i = load (dynamicFile run) (i - grow)) /\
    (forall i, dynamicFileSz run + grow - 1 <= i ->
       load (dynamicFile run') i = load (dynamicFile run) i).
Proof.
  intros run off n printable t Hok Hmax Hcap Hoff Hn Hroom grow fill run'.
  pose proof (Inflate_shape run off n printable t Hok Hmax Hoff Hn Hroom) as Hs.
  cbv zeta in Hs. fold grow in Hs.
  assert (Hg : 0 <= grow <= maxFileSz (mutate (global run)) - dynamicFileSz run)
    by (unfold grow; lia).
  destruct (rndBuf_fill_spec grow printable t ltac:(lia)) as (Hl & _ & Htape).
  fold fill in Hl.
  unfold size_ok in Hok.
  set (moved := memmove (dynamicFile run) (off + grow) off
                  (dynamicFileSz run - off - 1)).
  assert (Hml : length moved = length (dynamicFile run))
    by (apply length_memwrite).
  assert (Hbuf : dynamicFile run' = memwrite moved (Z.to_nat off) fill).
  { unfold run'. rewrite Hs. reflexivity. }
  assert (Hmoved : forall i, 0 <= i ->
            load moved i =
            if (off + grow <=? i) && (i <? off + grow + (dynamicFileSz run - off - 1))
            then load (dynamicFile run) (off + (i - (off + grow)))
            else load (dynamicFile run) i).
  { intros i Hi. unfold moved. apply load_memmove; lia. }
  assert (Hld : forall i, 0 <= i ->
            load (dynamicFile run') i =
            if (off <=? i) && (i <? off + Z.of_nat (length fill))
            then nth (Z.to_nat (i - off)) fill 0
            else load moved i).
  { intros i Hi. rewrite Hbuf. apply load_memwrite; lia. }
  repeat match goal with
         | |- _ /\ _ => split
         end.
  - unfold run'. rewrite Hs. reflexivity.
  - rewrite Hs. cbn [snd]. exact Htape.
  - exact Hl.
  - intros i Hi. rewrite Hld by lia.
    destruct (Z.leb_spec off i); [lia|]. cbn [andb].
    rewrite Hmoved by lia.
    destruct (Z.leb_spec (off + grow) i); [lia|reflexivity].
  - intros i Hi. rewrite Hld by lia.
    destruct (Z.leb_spec off i); [|lia].
    destruct (Z.ltb_spec i (off + Z.of_nat (length fill))); [reflexivity|lia].
  - intros i Hi. rewrite Hld by lia.
    destruct (Z.ltb_spec i (off + Z.of_nat (length fill))); [lia|].
    rewrite andb_false_r. rewrite Hmoved by lia.
    destruct (Z.leb_spec (off + grow) i); [|lia].
    destruct (Z.ltb_spec i (off + grow + (dynamicFileSz run - off - 1))); [|lia].
    cbn [andb]. f_equal. lia.
  - intros i Hi. rewrite Hld by lia.
    destruct (Z.ltb_spec i (off + Z.of_nat (length fill))); [lia|].
    rewrite andb_false_r. rewrite Hmoved by lia.
    destruct (Z.ltb_spec i (off + grow + (dynamicFileSz run - off - 1))); [lia|].
    rewrite andb_false_r. reflexivity.
Qed.

(** Two bytes inserted at offset 1 of [A B C]: [B] moves, [C] is lost and
    the last byte is the stale byte of the store. *)
Lemma Inflate_bytes_witness :
  dynamicFileSz
    (fst (mangle_Inflate (run0 [65; 66; 67; 0; 0; 0] 3 6 [] true) 1 2 true
            [56; 57])) = 3 + 2.
Proof.
  apply (Inflate_bytes (run0 [65; 66; 67; 0; 0; 0] 3 6 [] true) 1 2 true [56; 57]).
  - unfold size_ok. simpl. lia.
  - unfold SSIZE_MAX. simpl. lia.
  - simpl. lia.
  - simpl. lia.
  - lia.
  - simpl. lia.
Defined.

(** X9: [mangle_Shrink] on a buffer of two bytes or more: the size drops by the
    [len] drawn, to a size between 1 and [size - 1].  The move that follows
    is checked against the new size, so it copies [newsz - off - len - 1]
    bytes at most, all of them read below index [newsz - 1]; when
    [off + len + 1] reaches the new size the buffer is left as it was.  No
    byte at [newsz - 1] or beyond is read or written: the call commutes
    with any store there, so the bytes cut off never enter the result. *)
Theorem Shrink_drops_tail :
  forall (run : run_t) (printable : bool) (t : rng),
    size_ok run -> 2 <= dynamicFileSz run ->
    maxFileSz (mutate (global run)) <= SSIZE_MAX ->
    dynamicFileSz run <= Z.of_nat (length (dynamicFile run)) ->
    let n := fst (util_rndGet 1 (size_t (dynamicFileSz run - 1)) t) in
    let off := fst (util_rndGet 0 n (tl t)) in
    let newsz := dynamicFileSz run - n in
    let moved := Z.max 0 (newsz - off - n - 1) in
    let run' := fst (mangle_Shrink run printable t) in
    dynamicFileSz run' = newsz /\
    1 <= newsz < dynamicFileSz run /\
    snd (mangle_Shrink run printable t) = tl (tl t) /\
    (forall i, 0 <= i ->
       load (dynamicFile run') i =
       if (off <=? i) && (i <? off + moved)
       then load (dynamicFile run) (i + n)
       else load (dynamicFile run) i) /\
    (0 < moved -> off + n + moved = newsz - 1) /\
    (newsz <= off + n + 1 -> dynamicFile run' = dynamicFile run) /\
    (forall k v, newsz - 1 <= k ->
       fst (mangle_Shrink (store run k v) printable t) = store run' k v).
Proof.
  intros run printable t Hok H2 Hmax Hcap n off newsz moved run'.
  destruct (Shrink_shape run printable t Hok H2 Hmax) as (Hn & Hoff & Hs).
  fold n off newsz moved in Hn, Hoff, Hs.
  unfold size_ok in Hok.
  assert (Hm : 0 <= moved /\ (off + n < newsz -> moved = newsz - off - n - 1))
    by (unfold moved; lia).
  repeat match goal with
         | |- _ /\ _ => split
         end; try (unfold moved, newsz in *; lia).
  - unfold run'. rewrite Hs. reflexivity.
  - rewrite Hs. reflexivity.
  - intros i Hi. unfold run'. rewrite Hs.
    cbn [fst set_dynamicFile dynamicFile].
    destruct (Z.eq_dec moved 0) as [Hz|Hz].
    + rewrite Hz, memmove_zero.
      destruct (Z.ltb_spec i (off + 0)); [|rewrite andb_false_r; reflexivity].
      destruct (Z.leb_spec off i); [lia|reflexivity].
    + rewrite load_memmove by (unfold moved, newsz in *; lia).
      destruct ((off <=? i) && (i <? off + moved)); [f_equal; lia|reflexivity].
  - intros Hle. unfold run'. rewrite Hs.
    cbn [fst set_dynamicFile dynamicFile].
    replace moved with 0 by lia. apply memmove_zero.
  - intros k v Hk.
    destruct (Shrink_shape (store run k v) printable t Hok H2 Hmax)
      as (_ & _ & Hs').
    cbn [store set_dynamicFile dynamicFileSz] in Hs'.
    fold n off newsz moved in Hs'.
    rewrite Hs'. unfold run'. rewrite Hs.
    cbn [fst]. unfold store, set_dynamicFile, input_setSize, memmove.
    cbn [dynamicFile global dynamicFileSz mutationsPerRun].
    f_equal.
    destruct (Z.eq_dec moved 0) as [Hz|Hz].
    + rewrite Hz. unfold memread. simpl. rewrite !memwrite_nil. reflexivity.
    + apply memmove_memwrite_apart; unfold moved, newsz in *; lia.
Qed.

(** The scenario S4: from five bytes with [len = 2] and [off = 1] the size
    becomes 3. *)
Lemma Shrink_drops_tail_witness :
  dynamicFileSz
    (fst (mangle_Shrink (run0 [65; 66; 67; 68; 69] 5 5 [] false) false [1; 1]))
  = 5 - 2.
Proof.
  apply (Shrink_drops_tail (run0 [65; 66; 67; 68; 69] 5 5 [] false) false [1; 1]).
  - unfold size_ok. simpl. lia.
  - simpl. lia.
  - unfold SSIZE_MAX. simpl. lia.
  - simpl. lia.
Defined.

(** X10: [mangle_AddSubWithRange] on a variable of 2, 4 or 8 bytes that lies
    inside the buffer: when the draw is odd the integer the bytes hold in
    little-endian order becomes the old one plus [delta] modulo
    [2 ^ (8 * w)]; when it is even the same holds of the integer they hold
    in big-endian order.  No byte outside the variable changes. *)
Theorem AddSub_adds_delta :
  forall (run : run_t) (off : Z) (w : nat) (t : rng),
    (w = 2 \/ w = 4 \/ w = 8)%nat ->
    0 <= off -> off + Z.of_nat w <= dynamicFileSz run ->
    dynamicFileSz run <= SIZE_MAX ->
    dynamicFileSz run <= Z.of_nat (length (dynamicFile run)) ->
    bytes_ok (dynamicFile run) ->
    let delta := fst (util_rndGet 0 8192 t) - 4096 in
    let native := Z.land (fst (util_rnd64 (tl t))) 1 =? 1 in
    let run' := fst (mangle_AddSubWithRange run off (Z.of_nat w) t) in
    let old := memread (dynamicFile run) (Z.to_nat off) w in
    let new := memread (dynamicFile run') (Z.to_nat off) w in
    length new = w /\
    bytes_ok new /\
    (if native
     then of_bytes new = (of_bytes old + delta) mod 2 ^ (8 * Z.of_nat w)
     else of_bytes (rev new) =
          (of_bytes (rev old) + delta) mod 2 ^ (8 * Z.of_nat w)) /\
    (forall i, 0 <= i -> ~ off <= i < off + Z.of_nat w ->
       load (dynamicFile run') i = load (dynamicFile run) i) /\
    snd (mangle_AddSubWithRange run off (Z.of_nat w) t) = tl (tl t).
Proof.
  intros run off w t Hw Hoff Hin Hsz Hcap Hbytes delta native run' old new.
  assert (Hw0 : (0 < w)%nat) by lia.
  assert (Hold : length old = w) by (apply length_memread; lia).
  assert (Hold_ok : bytes_ok old) by (apply bytes_ok_memread; exact Hbytes).
  destruct (AddSubWithRange_wide run off w t Hw Hoff Hin Hsz Hcap)
    as (Htape & Hbuf & Hnew).
  fold delta in Hbuf, Hnew. fold native in Hbuf, Hnew.
  fold run' in Hbuf, Hnew. fold old in Hbuf, Hnew. fold new in Hnew.
  repeat match goal with
         | |- _ /\ _ => split
         end.
  - rewrite Hnew. apply length_to_bytes.
  - rewrite Hnew. apply to_bytes_ok.
  - rewrite Hnew. apply (AddSub_res_sum w old delta native Hw0 Hold Hold_ok).
  - intros i Hi Hout. rewrite Hbuf.
    rewrite load_memwrite by (rewrite ?length_to_bytes; lia).
    rewrite length_to_bytes.
    destruct (Z.leb_spec off i); cbn [andb]; [|reflexivity].
    destruct (Z.ltb_spec i (off + Z.of_nat w)); [lia|reflexivity].
  - exact Htape.
Qed.

(** The scenario S3: the 16-bit value 1 plus -5, little endian. *)
Lemma AddSub_adds_delta_witness :
  length
    (memread
       (dynamicFile
          (fst (mangle_AddSubWithRange (run0 [0x01; 0x00] 2 2 [] false) 0
                  (Z.of_nat 2) [4091; 1])))
       (Z.to_nat 0) 2) = 2%nat.
Proof.
  apply (AddSub_adds_delta (run0 [0x01; 0x00] 2 2 [] false) 0 2 [4091; 1]).
  - left. reflexivity.
  - lia.
  - simpl. lia.
  - unfold SIZE_MAX. simpl. lia.
  - simpl. lia.
  - unfold bytes_ok. simpl. repeat constructor; lia.
Defined.

(** X11: [mangle_MemSet] draws one value, a byte, printable when the flag is
    set, then an offset and a length of at least one byte that fits the
    buffer; every byte of that range becomes the value and every other byte
    is kept. *)
Theorem MemSet_fills_range :
  forall (run : run_t) (printable : bool) (t : rng),
    size_ok run ->
    maxFileSz (mutate (global run)) <= SIZE_MAX ->
    dynamicFileSz run <= Z.of_nat (length (dynamicFile run)) ->
    let v := fst ((if printable then util_rndPrintable
                   else util_rndGet 0 UINT8_MAX) t) in
    let off := fst (util_rndGet 0 (size_t (dynamicFileSz run - 1)) (tl t)) in
    let sz := fst (util_rndGet 1 (size_t (dynamicFileSz run - off)) (tl (tl t))) in
    let run' := fst (mangle_MemSet run printable t) in
    0 <= v <= 255 /\
    (printable = true -> printable_byte v) /\
    0 <= off /\ 1 <= sz /\ off + sz <= dynamicFileSz run /\
    dynamicFileSz run' = dynamicFileSz run /\
    snd (mangle_MemSet run printable t) = tl (tl (tl t)) /\
    (forall i, 0 <= i ->
       load (dynamicFile run') i =
       if (off <=? i) && (i <? off + sz) then v else load (dynamicFile run) i).
Proof.
  intros run printable t Hok Hmax Hcap v off sz run'.
  pose proof (off_range run (tl t) Hok Hmax) as Hoff. fold off in Hoff.
  unfold size_ok in Hok.
  assert (Hsz : 1 <= sz <= dynamicFileSz run - off).
  { unfold sz. rewrite size_t_small by lia. apply util_rndGet_range. lia. }
  assert (Hv : 0 <= v <= 255 /\ (printable = true -> printable_byte v)).
  { unfold v. destruct printable.
    - pose proof (util_rndGet_range 32 126 t ltac:(lia)) as H.
      unfold util_rndPrintable, printable_byte. split; [lia|intros _; exact H].
    - pose proof (util_rndGet_range 0 UINT8_MAX t ltac:(unfold UINT8_MAX; lia)) as H.
      unfold UINT8_MAX in *. split; [lia|intros H'; discriminate H']. }
  assert (Hconv : uint8_t (int v) = v).
  { rewrite int_small by lia.
    unfold uint8_t, wrap. apply Z.mod_small. change (2 ^ 8) with 256. lia. }
  assert (Hcall : mangle_MemSet run printable t =
                  (set_dynamicFile run
                     (memwrite (dynamicFile run) (Z.to_nat off)
                        (repeat v (Z.to_nat sz))),
                   tl (tl (tl t)))).
  { unfold mangle_MemSet, mangle_MemSetWithVal, bind, ret. cbv beta.
    assert (Ht : snd ((if printable then util_rndPrintable
                       else util_rndGet 0 UINT8_MAX) t) = tl t)
      by (destruct printable; apply util_rndGet_tape).
    rewrite Ht. rewrite !util_rndGet_tape. fold v. fold off. fold sz.
    unfold memset. rewrite Hconv. reflexivity. }
  repeat match goal with
         | |- _ /\ _ => split
         end; try lia; try apply Hv.
  - unfold run'. rewrite Hcall. reflexivity.
  - rewrite Hcall. reflexivity.
  - intros i Hi. unfold run'. rewrite Hcall.
    cbn [fst set_dynamicFile dynamicFile].
    rewrite load_memwrite by (rewrite ?repeat_length; lia).
    rewrite repeat_length. rewrite Z2Nat.id by lia.
    destruct ((off <=? i) && (i <? off + sz)) eqn:E; [|reflexivity].
    apply andb_prop in E. destruct E as [E1 E2].
    apply Z.leb_le in E1. apply Z.ltb_lt in E2.
    apply nth_repeat_Z. lia.
Qed.

(** Three bytes of [A B C D] are set to [x]. *)
Lemma MemSet_fills_range_witness :
  dynamicFileSz (fst (mangle_MemSet (run0 [65; 66; 67; 68] 4 4 [] true) true
                        [88; 1; 2])) = 4.
Proof.
  apply (MemSet_fills_range (run0 [65; 66; 67; 68] 4 4 [] true) true [88; 1; 2]).
  - unfold size_ok. simpl. lia.
  - unfold SIZE_MAX. simpl. lia.
  - simpl. lia.
Defined.

(** X12: [mangle_Random] draws an offset and a length of at least one byte that
    fits the buffer, and replaces that range by as many random bytes,
    printable ones when the flag is set; every other byte is kept. *)
Theorem Random_replaces_range :
  forall (run : run_t) (printable : bool) (t : rng),
    size_ok run ->
    maxFileSz (mutate (global run)) <= SIZE_MAX ->
    dynamicFileSz run <= Z.of_nat (length (dynamicFile run)) ->
    let off := fst (util_rndGet 0 (size_t (dynamicFileSz run - 1)) t) in
    let n := fst (util_rndGet 1 (size_t (dynamicFileSz run - off)) (tl t)) in
    let fill := fst ((if printable then util_rndBufPrintable n
                      else util_rndBuf n) (tl (tl t))) in
    let run' := fst (mangle_Random run printable t) in
    0 <= off /\ 1 <= n /\ off + n <= dynamicFileSz run /\
    Z.of_nat (length fill) = n /\
    Forall (fun b => if printable then 32 <= b <= 126 else 0 <= b <= 255) fill /\
    dynamicFileSz run' = dynamicFileSz run /\
    snd (mangle_Random run printable t) = skipn (Z.to_nat n) (tl (tl t)) /\
    (forall i, 0 <= i ->
       load (dynamicFile run') i =
       if (off <=? i) && (i <? off + n) then nth (Z.to_nat (i - off)) fill 0
       else load (dynamicFile run) i).
Proof.
  intros run printable t Hok Hmax Hcap off n fill run'.
  pose proof (off_range run t Hok Hmax) as Hoff. fold off in Hoff.
  unfold size_ok in Hok.
  assert (Hn : 1 <= n <= dynamicFileSz run - off).
  { unfold n. rewrite size_t_small by lia. apply util_rndGet_range. lia. }
  destruct (rndBuf_fill_spec n printable (tl (tl t)) ltac:(lia)) as (Hl & Hf & Ht).
  fold fill in Hl, Hf.
  assert (Hcall : mangle_Random run printable t =
                  (set_dynamicFile run
                     (memwrite (dynamicFile run) (Z.to_nat off) fill),
                   skipn (Z.to_nat n) (tl (tl t)))).
  { unfold mangle_Random, bind. cbv beta. rewrite !util_rndGet_tape.
    fold off. fold n. unfold rndBuf_at, bind, ret. cbv beta.
    fold fill. rewrite Ht. reflexivity. }
  repeat match goal with
         | |- _ /\ _ => split
         end; try lia; try exact Hl; try exact Hf.
  - unfold run'. rewrite Hcall. reflexivity.
  - rewrite Hcall. reflexivity.
  - intros i Hi. unfold run'. rewrite Hcall.
    cbn [fst set_dynamicFile dynamicFile].
    rewrite load_memwrite by lia. rewrite Hl. reflexivity.
Qed.

(** Two bytes of [A B C D] are replaced. *)
Lemma Random_replaces_range_witness :
  dynamicFileSz (fst (mangle_Random (run0 [65; 66; 67; 68] 4 4 [] false) false
                        [1; 1; 7; 8])) = 4.
Proof.
  apply (Random_replaces_range (run0 [65; 66; 67; 68] 4 4 [] false) false
           [1; 1; 7; 8]).
  - unfold size_ok. simpl. lia.
  - unfold SIZE_MAX. simpl. lia.
  - simpl. lia.
Defined.

(** X13: [mangle_Magic] draws an offset and one of the 221 entries of the table
    and writes the first [min size (dynamicFileSz - off)] bytes of the
    entry at the offset.  Without the printable flag those bytes are the
    bytes of the entry and nothing else changes.  With it they are the
    bytes of the entry made printable, and the stores reach at most 7 bytes
    beyond the size. *)
Theorem Magic_writes_entry :
  forall (run : run_t) (printable : bool) (t : rng),
    size_ok run ->
    maxFileSz (mutate (global run)) <= SSIZE_MAX ->
    dynamicFileSz run <= Z.of_nat (length (dynamicFile run)) ->
    let off := fst (util_rndGet 0 (size_t (dynamicFileSz run - 1)) t) in
    let choice := fst (util_rndGet 0 (ARRAYSIZE mangleMagicVals - 1) (tl t)) in
    let m := nth (Z.to_nat choice) mangleMagicVals (magic [] 0) in
    let k := Z.min (size m) (dynamicFileSz run - off) in
    let run' := fst (mangle_Magic run printable t) in
    0 <= choice <= 220 /\
    In m mangleMagicVals /\
    0 <= off /\ 1 <= k /\ off + k <= dynamicFileSz run /\
    snd (mangle_Magic run printable t) = tl (tl t) /\
    (forall i, off <= i < off + k ->
       load (dynamicFile run') i =
       if printable
       then turnToPrintable_byte (nth (Z.to_nat (i - off)) (val m) 0)
       else nth (Z.to_nat (i - off)) (val m) 0) /\
    (printable = false ->
     forall i, 0 <= i -> ~ off <= i < off + k ->
       load (dynamicFile run') i = load (dynamicFile run) i) /\
    stores_below (Z.to_nat (dynamicFileSz run + 7)) (dynamicFile run)
      (dynamicFile run').
Proof.
  intros run printable t Hok Hmax Hcap off choice m k run'.
  pose proof SSIZE_MAX_lt_SIZE_MAX as HS.
  pose proof (off_range run t Hok ltac:(lia)) as Hoff. fold off in Hoff.
  assert (Hch : 0 <= choice <= 220)
    by (apply (util_rndGet_range 0 (ARRAYSIZE mangleMagicVals - 1)); vm_compute;
        discriminate).
  destruct (magic_entry_ok (Z.to_nat choice)) as (Hin & Hlen & Hsize).
  { change (length mangleMagicVals) with 221%nat. lia. }
  fold m in Hin, Hlen, Hsize.
  pose proof Hok as Hok'. unfold size_ok in Hok.
  assert (Hk : 1 <= k <= size m) by (unfold k; lia).
  set (r1 := mangle_Overwrite run (val m) off (size m)).
  assert (Hcall : mangle_Magic run printable t =
                  (if printable then turnToPrintable_at r1 off (size m) else r1,
                   tl (tl t))).
  { unfold mangle_Magic, bind, ret. cbv beta. rewrite !util_rndGet_tape.
    reflexivity. }
  assert (H1 : forall i, 0 <= i ->
            load (dynamicFile r1) i =
            if (off <=? i) && (i <? off + k)
            then nth (Z.to_nat (i - off)) (val m) 0
            else load (dynamicFile run) i).
  { intros i Hi. unfold r1. apply load_Overwrite; lia. }
  repeat match goal with
         | |- _ /\ _ => split
         end; try lia; try exact Hin.
  - rewrite Hcall. reflexivity.
  - intros i Hi. unfold run'. rewrite Hcall. cbn [fst].
    assert (E : load (dynamicFile r1) i = nth (Z.to_nat (i - off)) (val m) 0).
    { rewrite H1 by lia.
      destruct (Z.leb_spec off i); [|lia].
      destruct (Z.ltb_spec i (off + k)); [reflexivity|lia]. }
    destruct printable; [|exact E].
    unfold turnToPrintable_at, util_turnToPrintable, load.
    cbn [set_dynamicFile dynamicFile].
    assert (Hl1 : length (dynamicFile r1) = length (dynamicFile run))
      by (apply length_Overwrite).
    assert (Hrd : length (memread (dynamicFile r1) (Z.to_nat off)
                            (Z.to_nat (size m))) =
                  Nat.min (Z.to_nat (size m))
                    (length (dynamicFile run) - Z.to_nat off)).
    { unfold memread. rewrite length_firstn, length_skipn, Hl1. reflexivity. }
    rewrite nth_memwrite_in
      by (rewrite ?length_map, ?Hrd, ?Hl1; unfold k in *; lia).
    rewrite (nth_indep _ 0 (turnToPrintable_byte 0))
      by (rewrite length_map, Hrd; unfold k in *; lia).
    rewrite map_nth. f_equal.
    rewrite nth_memread by (unfold k in *; lia).
    unfold load in E. rewrite <- E. f_equal. lia.
  - intros Hp i Hi Hout. unfold run'. rewrite Hcall, Hp. cbn [fst].
    rewrite H1 by lia.
    destruct (Z.leb_spec off i); cbn [andb]; [|reflexivity].
    destruct (Z.ltb_spec i (off + k)); [lia|reflexivity].
  - destruct printable.
    + apply stores_Magic_printable; assumption.
    + apply (stores_below_mono (Z.to_nat (dynamicFileSz run))); [lia|].
      pose proof (writes_ok_Magic run t Hok' Hmax) as Hw.
      unfold writes_inside in Hw.
      destruct (same_frame_Magic run false t) as (_ & E & _).
      rewrite E in Hw. exact Hw.
Qed.

(** The scenario S2: the 4-byte big-endian one at offset 2 of eight
    zeroes. *)
Lemma Magic_writes_entry_witness :
  snd (mangle_Magic (run0 [0; 0; 0; 0; 0; 0; 0; 0] 8 8 [] false) false [2; 95]) =
  tl (tl [2; 95]).
Proof.
  apply (Magic_writes_entry (run0 [0; 0; 0; 0; 0; 0; 0; 0] 8 8 [] false) false
           [2; 95]).
  - unfold size_ok. simpl. lia.
  - unfold SSIZE_MAX. simpl. lia.
  - simpl. lia.
Defined.

(** X14: [mangle_Dictionary] with a dictionary that is not empty: the walk
    along the queue ends on an entry of the dictionary, and the first
    [min len (dynamicFileSz - off)] bytes of that entry are written at the
    offset drawn, whatever the printable flag; the size and every other
    byte are kept. *)
Theorem Dictionary_writes_entry :
  forall (run : run_t) (printable : bool) (t : rng),
    size_ok run ->
    maxFileSz (mutate (global run)) <= SIZE_MAX ->
    dynamicFileSz run <= Z.of_nat (length (dynamicFile run)) ->
    dict_ok run ->
    let off := fst (util_rndGet 0 (size_t (dynamicFileSz run - 1)) t) in
    let choice :=
      fst (util_rndGet 0 (uint64_t (dictionaryCnt (mutate (global run)) - 1))
             (tl t)) in
    let str := dict_entry (dictq (mutate (global run))) choice in
    let k := Z.min (len str) (dynamicFileSz run - off) in
    let run' := fst (mangle_Dictionary run printable t) in
    0 <= choice < dictionaryCnt (mutate (global run)) /\
    In str (dictq (mutate (global run))) /\
    0 <= off /\ 0 <= k /\ off + k <= dynamicFileSz run /\
    dynamicFileSz run' = dynamicFileSz run /\
    snd (mangle_Dictionary run printable t) = tl (tl t) /\
    (forall i, 0 <= i ->
       load (dynamicFile run') i =
       if (off <=? i) && (i <? off + k)
       then nth (Z.to_nat (i - off)) (s str) 0
       else load (dynamicFile run) i).
Proof.
  intros run printable t Hok Hmax Hcap Hdict off choice str k run'.
  pose proof (off_range run t Hok Hmax) as Hoff. fold off in Hoff.
  destruct (dict_choice run (tl t) Hdict) as [Hch Hin].
  fold choice in Hch, Hin. fold str in Hin.
  unfold size_ok in Hok.
  assert (Hcall : mangle_Dictionary run printable t =
                  (mangle_Overwrite run (s str) off (len str), tl (tl t))).
  { unfold mangle_Dictionary.
    destruct Hdict as [_ Hpos].
    destruct (Z.eqb_spec (dictionaryCnt (mutate (global run))) 0); [lia|].
    unfold mangle_DictionaryNoCheck, bind, ret. cbv beta.
    rewrite !util_rndGet_tape. reflexivity. }
  assert (Hlen : 0 <= len str) by (unfold len; lia).
  repeat match goal with
         | |- _ /\ _ => split
         end; try (unfold k; lia); try exact Hin.
  - unfold run'. rewrite Hcall. reflexivity.
  - rewrite Hcall. reflexivity.
  - intros i Hi. unfold run'. rewrite Hcall. cbn [fst].
    apply load_Overwrite; unfold len; lia.
Qed.

(** The second of two entries is written over [C D]. *)
Lemma Dictionary_writes_entry_witness :
  In (dict_entry [mk_strings [120]; mk_strings [121; 122; 123]]
        (fst (util_rndGet 0 (uint64_t (2 - 1)) (tl [2; 1]))))
     [mk_strings [120]; mk_strings [121; 122; 123]].
Proof.
  apply (Dictionary_writes_entry
           (run0 [65; 66; 67; 68] 4 4
              [mk_strings [120]; mk_strings [121; 122; 123]] false)
           false [2; 1]).
  - unfold size_ok. simpl. lia.
  - unfold SIZE_MAX. simpl. lia.
  - simpl. lia.
  - unfold dict_ok, SIZE_MAX. simpl. lia.
Defined.

(** X15: [mangle_DictionaryInsert] with a dictionary that is not empty and room
    left: the buffer grows by [min len (maxFileSz - size)] bytes, the bytes
    below the offset drawn are kept, and the entry drawn lies at the
    offset, cut at the end of the grown buffer: when the room is smaller
    than the entry, the entry runs over the bytes that were moved up. *)
Theorem DictionaryInsert_places_entry :
  forall (run : run_t) (printable : bool) (t : rng),
    size_ok run ->
    maxFileSz (mutate (global run)) <= SSIZE_MAX ->
    maxFileSz (mutate (global run)) <= Z.of_nat (length (dynamicFile run)) ->
    dynamicFileSz run < maxFileSz (mutate (global run)) ->
    dict_ok run ->
    let choice :=
      fst (util_rndGet 0 (uint64_t (dictionaryCnt (mutate (global run)) - 1)) t) in
    let str := dict_entry (dictq (mutate (global run))) choice in
    let off := fst (util_rndGet 0 (size_t (dynamicFileSz run - 1)) (tl t)) in
    let grow := Z.min (len str)
                  (maxFileSz (mutate (global run)) - dynamicFileSz run) in
    let k := Z.min (len str) (dynamicFileSz run + grow - off) in
    let run' := fst (mangle_DictionaryInsert run printable t) in
    In str (dictq (mutate (global run))) /\
    dynamicFileSz run' = dynamicFileSz run + grow /\
    grow <= k /\
    snd (mangle_DictionaryInsert run printable t) =
      skipn (Z.to_nat grow) (tl (tl t)) /\
    (forall i, 0 <= i < off ->
       load (dynamicFile run') i = load (dynamicFile run) i) /\
    (forall i, off <= i < off + k ->
       load (dynamicFile run') i = nth (Z.to_nat (i - off)) (s str) 0).
Proof.
  intros run printable t Hok Hmax Hcap Hroom Hdict choice str off grow k run'.
  pose proof SSIZE_MAX_lt_SIZE_MAX as HS.
  pose proof (off_range run (tl t) Hok ltac:(lia)) as Hoff. fold off in Hoff.
  destruct (dict_choice run t Hdict) as [Hch Hin].
  fold choice in Hch, Hin. fold str in Hin.
  assert (Hlen : 0 <= len str) by (unfold len; lia).
  pose proof (Inflate_shape run off (len str) printable (tl (tl t)) Hok Hmax
                ltac:(lia) Hlen Hroom) as Hinf.
  cbv zeta in Hinf. fold grow in Hinf.
  destruct (rndBuf_fill_spec grow printable (tl (tl t)) ltac:(unfold grow; lia))
    as (Hfl & _ & Htape).
  unfold size_ok in Hok.
  set (fill := fst ((if printable then util_rndBufPrintable grow
                     else util_rndBuf grow) (tl (tl t)))) in *.
  set (moved := memmove (dynamicFile run) (off + grow) off
                  (dynamicFileSz run - off - 1)) in *.
  set (r1 := set_dynamicFile (input_setSize run (dynamicFileSz run + grow))
               (memwrite moved (Z.to_nat off) fill)) in *.
  assert (Hcall : mangle_DictionaryInsert run printable t =
                  (mangle_Overwrite r1 (s str) off (len str),
                   skipn (Z.to_nat grow) (tl (tl t)))).
  { unfold mangle_DictionaryInsert.
    destruct Hdict as [_ Hpos].
    destruct (Z.eqb_spec (dictionaryCnt (mutate (global run))) 0); [lia|].
    unfold mangle_DictionaryInsertNoCheck, bind, ret. cbv beta.
    rewrite !util_rndGet_tape. fold choice. fold str. fold off.
    rewrite Hinf. cbn [fst snd]. rewrite Htape. reflexivity. }
  assert (Hl1 : length (dynamicFile r1) = length (dynamicFile run)).
  { unfold r1, moved, memmove. cbn [set_dynamicFile dynamicFile].
    rewrite !length_memwrite. reflexivity. }
  assert (Hg : 0 <= grow <= maxFileSz (mutate (global run)) - dynamicFileSz run)
    by (unfold grow; lia).
  assert (H1 : forall i, 0 <= i ->
            load (dynamicFile (mangle_Overwrite r1 (s str) off (len str))) i =
            if (off <=? i) && (i <? off + k)
            then nth (Z.to_nat (i - off)) (s str) 0
            else load (dynamicFile r1) i).
  { intros i Hi.
    rewrite load_Overwrite;
      unfold r1; cbn [set_dynamicFile input_setSize dynamicFileSz];
      fold r1; rewrite ?Hl1; unfold len in *; try lia.
    reflexivity. }
  repeat match goal with
         | |- _ /\ _ => split
         end; try (unfold k; lia); try exact Hin.
  - unfold run'. rewrite Hcall. reflexivity.
  - rewrite Hcall. reflexivity.
  - intros i Hi. unfold run'. rewrite Hcall. cbn [fst].
    rewrite H1 by lia.
    destruct (Z.leb_spec off i); [lia|]. cbn [andb].
    unfold r1. cbn [set_dynamicFile dynamicFile].
    rewrite load_memwrite
      by (unfold moved, memmove; rewrite ?length_memwrite; lia).
    destruct (Z.leb_spec off i); [lia|]. cbn [andb].
    unfold moved. rewrite load_memmove by lia.
    destruct (Z.leb_spec (off + grow) i); [lia|reflexivity].
  - intros i Hi. unfold run'. rewrite Hcall. cbn [fst].
    rewrite H1 by lia.
    destruct (Z.leb_spec off i); [|lia].
    destruct (Z.ltb_spec i (off + k)); [reflexivity|lia].
Qed.

(** The entry [xyz] inserted at offset 1 of [A B] with room for two bytes:
    the buffer grows to four bytes and the entry fills it from offset 1. *)
Lemma DictionaryInsert_places_entry_witness :
  dynamicFileSz
    (fst (mangle_DictionaryInsert
            (run0 [65; 66; 0; 0] 2 4 [mk_strings [120; 121; 122]] false) false
            [0; 1; 7; 8])) = 2 + 2.
Proof.
  apply (DictionaryInsert_places_entry
           (run0 [65; 66; 0; 0] 2 4 [mk_strings [120; 121; 122]] false) false
           [0; 1; 7; 8]).
  - unfold size_ok. simpl. lia.
  - unfold SSIZE_MAX. simpl. lia.
  - simpl. lia.
  - simpl. lia.
  - unfold dict_ok, SIZE_MAX. simpl. lia.
Defined.

(** X16: [mangle_Bytes] draws an offset, eight random bytes (printable ones when
    the flag is set) and a count between 1 and 8, and writes the first
    [min count (dynamicFileSz - off)] of the eight bytes at the offset;
    at least one byte is written and every other byte is kept. *)
Theorem Bytes_overwrites_prefix :
  forall (run : run_t) (printable : bool) (t : rng),
    size_ok run ->
    maxFileSz (mutate (global run)) <= SIZE_MAX ->
    dynamicFileSz run <= Z.of_nat (length (dynamicFile run)) ->
    let off := fst (util_rndGet 0 (size_t (dynamicFileSz run - 1)) t) in
    let buf := fst ((if printable then util_rndBufPrintable 8
                     else util_rndBuf 8) (tl t)) in
    let toCopy := fst (util_rndGet 1 8 (skipn 8 (tl t))) in
    let k := Z.min toCopy (dynamicFileSz run - off) in
    let run' := fst (mangle_Bytes run printable t) in
    length buf = 8%nat /\
    Forall (fun b => if printable then 32 <= b <= 126 else 0 <= b <= 255) buf /\
    1 <= toCopy <= 8 /\
    0 <= off /\ 1 <= k /\ off + k <= dynamicFileSz run /\
    dynamicFileSz run' = dynamicFileSz run /\
    snd (mangle_Bytes run printable t) = tl (skipn 8 (tl t)) /\
    (forall i, 0 <= i ->
       load (dynamicFile run') i =
       if (off <=? i) && (i <? off + k) then nth (Z.to_nat (i - off)) buf 0
       else load (dynamicFile run) i).
Proof.
  intros run printable t Hok Hmax Hcap off buf toCopy k run'.
  pose proof (off_range run t Hok Hmax) as Hoff. fold off in Hoff.
  destruct (rndBuf_fill_spec 8 printable (tl t) ltac:(lia)) as (Hl & Hf & Ht).
  fold buf in Hl, Hf. change (Z.to_nat 8) with 8%nat in Ht.
  pose proof (util_rndGet_range 1 8 (skipn 8 (tl t)) ltac:(lia)) as Hc.
  fold toCopy in Hc.
  unfold size_ok in Hok.
  assert (Hcall : mangle_Bytes run printable t =
                  (mangle_Overwrite run buf off toCopy, tl (skipn 8 (tl t)))).
  { unfold mangle_Bytes, bind, ret. cbv beta.
    rewrite !util_rndGet_tape. rewrite Ht. reflexivity. }
  repeat match goal with
         | |- _ /\ _ => split
         end; try (unfold k; lia); try exact Hf.
  - unfold run'. rewrite Hcall. reflexivity.
  - rewrite Hcall. reflexivity.
  - intros i Hi. unfold run'. rewrite Hcall. cbn [fst].
    apply load_Overwrite; lia.
Qed.

(** Three of eight random bytes are written at offset 1 of [A B C D]. *)
Lemma Bytes_overwrites_prefix_witness :
  dynamicFileSz
    (fst (mangle_Bytes (run0 [65; 66; 67; 68] 4 4 [] false) false
            [1; 1; 2; 3; 4; 5; 6; 7; 8; 2])) = 4.
Proof.
  apply (Bytes_overwrites_prefix (run0 [65; 66; 67; 68] 4 4 [] false) false
           [1; 1; 2; 3; 4; 5; 6; 7; 8; 2]).
  - unfold size_ok. simpl. lia.
  - unfold SIZE_MAX. simpl. lia.
  - simpl. lia.
Defined.

(** X17: [mangle_Expand] grows the buffer by [min len (maxFileSz - size)] for a
    length of at least one byte: by one byte or more whenever there is
    room, never beyond [maxFileSz]; at [maxFileSz] it draws the offset and
    the length and leaves the run as it is. *)
Theorem Expand_grows :
  forall (run : run_t) (printable : bool) (t : rng),
    size_ok run ->
    maxFileSz (mutate (global run)) <= SIZE_MAX ->
    let off := fst (util_rndGet 0 (size_t (dynamicFileSz run - 1)) t) in
    let n := fst (util_rndGet 1 (size_t (dynamicFileSz run - off)) (tl t)) in
    let run' := fst (mangle_Expand run printable t) in
    1 <= n <= dynamicFileSz run - off /\
    dynamicFileSz run' =
      dynamicFileSz run +
      Z.min n (maxFileSz (mutate (global run)) - dynamicFileSz run) /\
    dynamicFileSz run' <= 2 * dynamicFileSz run /\
    dynamicFileSz run' <= maxFileSz (mutate (global run)) /\
    (dynamicFileSz run < maxFileSz (mutate (global run)) ->
     dynamicFileSz run < dynamicFileSz run') /\
    (dynamicFileSz run = maxFileSz (mutate (global run)) ->
     mangle_Expand run printable t = (run, tl (tl t))).
Proof.
  intros run printable t Hok Hmax off n run'.
  pose proof (off_range run t Hok Hmax) as Hoff. fold off in Hoff.
  pose proof Hok as Hok'. unfold size_ok in Hok.
  assert (Hn : 1 <= n <= dynamicFileSz run - off).
  { unfold n. rewrite size_t_small by lia. apply util_rndGet_range. lia. }
  assert (Hsz : dynamicFileSz run' =
                dynamicFileSz run +
                Z.min n (maxFileSz (mutate (global run)) - dynamicFileSz run)).
  { unfold run', mangle_Expand, bind. cbv beta.
    rewrite util_rndGet_tape. fold off. fold n.
    apply size_kept_Inflate; auto. lia. }
  repeat match goal with
         | |- _ /\ _ => split
         end; try lia.
  intros Hfull. unfold mangle_Expand, bind. cbv beta.
  rewrite !util_rndGet_tape. unfold mangle_Inflate.
  destruct (Z.geb_spec (dynamicFileSz run) (maxFileSz (mutate (global run))));
    [reflexivity|lia].
Qed.

(** From three bytes with room for three more and [len = 2]. *)
Lemma Expand_grows_witness :
  dynamicFileSz
    (fst (mangle_Expand (run0 [65; 66; 67; 0; 0; 0] 3 6 [] false) false
            [1; 1; 7; 8])) = 3 + Z.min 2 (6 - 3).
Proof.
  apply (Expand_grows (run0 [65; 66; 67; 0; 0; 0] 3 6 [] false) false [1; 1; 7; 8]).
  - unfold size_ok. simpl. lia.
  - unfold SIZE_MAX. simpl. lia.
Defined.

(** X18: [mangle_MemMove] copies [min len (size - off_from - 1) (size - off_to - 1)]
    bytes of the buffer onto itself: every byte of the result is a byte the
    buffer held at the same index or, inside the destination, at the
    matching index of the source; the last byte is never changed, a buffer
    of one byte is left as it is, and so is any buffer when the two offsets
    drawn are equal. *)
Theorem MemMove_copies_inside :
  forall (run : run_t) (printable : bool) (t : rng),
    size_ok run ->
    maxFileSz (mutate (global run)) <= SSIZE_MAX ->
    dynamicFileSz run <= Z.of_nat (length (dynamicFile run)) ->
    let off_from := fst (util_rndGet 0 (size_t (dynamicFileSz run - 1)) t) in
    let off_to := fst (util_rndGet 0 (size_t (dynamicFileSz run - 1)) (tl t)) in
    let n0 := fst (util_rndGet 0 (dynamicFileSz run) (tl (tl t))) in
    let n := Z.min n0 (Z.min (dynamicFileSz run - off_from - 1)
                             (dynamicFileSz run - off_to - 1)) in
    let run' := fst (mangle_MemMove run printable t) in
    0 <= n /\
    off_from + n <= dynamicFileSz run - 1 /\
    off_to + n <= dynamicFileSz run - 1 /\
    snd (mangle_MemMove run printable t) = tl (tl (tl t)) /\
    (forall i, 0 <= i ->
       load (dynamicFile run') i =
       if (off_to <=? i) && (i <? off_to + n)
       then load (dynamicFile run) (off_from + (i - off_to))
       else load (dynamicFile run) i) /\
    load (dynamicFile run') (dynamicFileSz run - 1) =
      load (dynamicFile run) (dynamicFileSz run - 1) /\
    (dynamicFileSz run = 1 -> run' = run) /\
    (off_from = off_to -> run' = run).
Proof.
  intros run printable t Hok Hmax Hcap off_from off_to n0 n run'.
  pose proof SSIZE_MAX_lt_SIZE_MAX as HS.
  pose proof (off_range run t Hok ltac:(lia)) as Hf. fold off_from in Hf.
  pose proof (off_range run (tl t) Hok ltac:(lia)) as Ht. fold off_to in Ht.
  unfold size_ok in Hok.
  pose proof (util_rndGet_range 0 (dynamicFileSz run) (tl (tl t)) ltac:(lia)) as H0.
  fold n0 in H0.
  assert (Hn : 0 <= n /\ off_from + n <= dynamicFileSz run - 1 /\
               off_to + n <= dynamicFileSz run - 1) by (unfold n; lia).
  assert (Hcall : mangle_MemMove run printable t =
                  (set_dynamicFile run
                     (memmove (dynamicFile run) off_to off_from n),
                   tl (tl (tl t)))).
  { unfold mangle_MemMove, bind, ret. cbv beta. rewrite !util_rndGet_tape.
    fold off_from. fold off_to. fold n0.
    rewrite mangle_Move_inside by lia. reflexivity. }
  assert (Hld : forall i, 0 <= i ->
            load (dynamicFile run') i =
            if (off_to <=? i) && (i <? off_to + n)
            then load (dynamicFile run) (off_from + (i - off_to))
            else load (dynamicFile run) i).
  { intros i Hi. unfold run'. rewrite Hcall.
    cbn [fst set_dynamicFile dynamicFile]. apply load_memmove; lia. }
  assert (Hsame : forall buf', buf' = dynamicFile run ->
            set_dynamicFile run buf' = run).
  { intros buf' ->. apply run_eq; [apply same_frame_set|reflexivity]. }
  repeat match goal with
         | |- _ /\ _ => split
         end; try lia; try exact Hld.
  - rewrite Hcall. reflexivity.
  - rewrite Hld by lia.
    destruct (Z.ltb_spec (dynamicFileSz run - 1) (off_to + n)); [lia|].
    rewrite andb_false_r. reflexivity.
  - intros H1. unfold run'. rewrite Hcall. cbn [fst]. apply Hsame.
    replace n with 0 by lia. apply memmove_zero.
  - intros Heq. unfold run'. rewrite Hcall. cbn [fst]. apply Hsame.
    rewrite Heq. apply memmove_onto_itself; lia.
Qed.

(** Two bytes of [1 2 3 4 5] are copied from offset 0 to offset 2. *)
Lemma MemMove_copies_inside_witness :
  snd (mangle_MemMove (run0 [1; 2; 3; 4; 5] 5 5 [] false) false [0; 2; 5]) =
  tl (tl (tl [0; 2; 5])).
Proof.
  apply (MemMove_copies_inside (run0 [1; 2; 3; 4; 5] 5 5 [] false) false
           [0; 2; 5]).
  - unfold size_ok. simpl. lia.
  - unfold SSIZE_MAX. simpl. lia.
  - simpl. lia.
Defined.

(** X19: Every store of a session [mangle_mangleContent] is to an index below
    [maxFileSz], and below [maxFileSz + 7] in printable mode (where
    [mangle_Magic] converts the full width of the entry): the backing array
    keeps its length and every byte from that bound on is the byte it
    was. *)
Theorem session_stores_bounded :
  forall (run : run_t) (t : rng),
    size_ok run ->
    maxFileSz (mutate (global run)) + 8 <= SSIZE_MAX ->
    let run' := fst (mangle_mangleContent run t) in
    let bound := maxFileSz (mutate (global run)) +
                 (if only_printable (cfg (global run)) then 7 else 0) in
    stores_below (Z.to_nat bound) (dynamicFile run) (dynamicFile run') /\
    length (dynamicFile run') = length (dynamicFile run) /\
    (forall i, bound <= i ->
       load (dynamicFile run') i = load (dynamicFile run) i).
Proof.
  intros run t Hok Hmax run' bound.
  pose proof (stores_mangleContent run t Hok Hmax) as Hs.
  fold run' in Hs. unfold stores_bound in Hs. fold bound in Hs.
  split; [exact Hs|].
  destruct (stores_below_tail _ _ _ Hs) as [Hl Hn].
  split; [exact Hl|].
  intros i Hi. unfold load. apply Hn. lia.
Qed.

(** A session on three bytes of a store of eight, [maxFileSz = 6]. *)
Lemma session_stores_bounded_witness :
  length (dynamicFile
            (fst (mangle_mangleContent
                    (run0 [65; 66; 67; 0; 0; 0; 9; 9] 3 6 [] false)
                    [1; 1; 13; 0; 0; 7; 8]))) =
  length (dynamicFile (run0 [65; 66; 67; 0; 0; 0; 9; 9] 3 6 [] false)).
Proof.
  apply (session_stores_bounded
           (run0 [65; 66; 67; 0; 0; 0; 9; 9] 3 6 [] false)
           [1; 1; 13; 0; 0; 7; 8]).
  - unfold size_ok. simpl. lia.
  - unfold SSIZE_MAX. simpl. lia.
Defined.

(** X20: [mangle_ASCIIVal] prints a random signed 64-bit value in decimal (a
    minus sign when it is negative, then at least one digit) and writes the
    first [min (strlen text) (dynamicFileSz - off)] characters of the text
    at a random offset; at least one byte is written, the size and every
    other byte are kept. *)
Theorem ASCIIVal_writes_decimal :
  forall (run : run_t) (printable : bool) (t : rng),
    size_ok run ->
    maxFileSz (mutate (global run)) <= SIZE_MAX ->
    dynamicFileSz run <= Z.of_nat (length (dynamicFile run)) ->
    let v := swrap 64 (fst (util_rnd64 t)) in
    let text := snprintf_PRId64 v in
    let off := fst (util_rndGet 0 (size_t (dynamicFileSz run - 1)) (tl t)) in
    let k := Z.min (strlen text) (dynamicFileSz run - off) in
    let run' := fst (mangle_ASCIIVal run printable t) in
    (exists digits : list Z,
       text = (if v <? 0 then [45] else []) ++ digits /\
       (1 <= length digits)%nat /\
       Forall (fun c => 48 <= c <= 57) digits) /\
    0 <= off /\ 1 <= k /\ off + k <= dynamicFileSz run /\
    dynamicFileSz run' = dynamicFileSz run /\
    snd (mangle_ASCIIVal run printable t) = tl (tl t) /\
    (forall i, 0 <= i ->
       load (dynamicFile run') i =
       if (off <=? i) && (i <? off + k) then nth (Z.to_nat (i - off)) text 0
       else load (dynamicFile run) i).
Proof.
  intros run printable t Hok Hmax Hcap v text off k run'.
  pose proof (off_range run (tl t) Hok Hmax) as Hoff. fold off in Hoff.
  destruct (snprintf_PRId64_shape v) as (digits & Htext & Hlen & Hdig).
  fold text in Htext, Hlen.
  unfold size_ok in Hok.
  assert (Hcall : mangle_ASCIIVal run printable t =
                  (mangle_Overwrite run text off (strlen text), tl (tl t))).
  { unfold mangle_ASCIIVal, bind, ret. cbv beta.
    rewrite !util_rndGet_tape, !util_rnd64_tape. reflexivity. }
  assert (Hk : 1 <= strlen text) by (unfold strlen; lia).
  repeat match goal with
         | |- _ /\ _ => split
         end; try (unfold k; lia).
  - exists digits. repeat split; [exact Htext|lia|exact Hdig].
  - unfold run'. rewrite Hcall. reflexivity.
  - rewrite Hcall. reflexivity.
  - intros i Hi. unfold run'. rewrite Hcall. cbn [fst].
    apply load_Overwrite; unfold strlen in *; lia.
Qed.

(** The value -12 at offset 1 of four bytes. *)
Lemma ASCIIVal_writes_decimal_witness :
  dynamicFileSz
    (fst (mangle_ASCIIVal (run0 [65; 66; 67; 68] 4 4 [] false) false
            [18446744073709551604; 1])) = 4.
Proof.
  apply (ASCIIVal_writes_decimal (run0 [65; 66; 67; 68] 4 4 [] false) false
           [18446744073709551604; 1]).
  - unfold size_ok. simpl. lia.
  - unfold SIZE_MAX. simpl. lia.
  - simpl. lia.
Defined.

(** X2: in printable mode, on a buffer whose bytes below the size are
    printable, each of the thirteen operators that neither read the
    dictionary nor enlarge the buffer leaves a buffer whose bytes below the
    size are printable, and so does [mangle_Resize], which fills the bytes
    it adds.  Nothing is assumed of the backing store at the size or
    beyond, and nothing is concluded of it; for [mangle_Magic], whose
    conversion reaches 7 bytes past the size, the store is assumed to hold
    them. *)
Theorem printable_without_dictionary :
  forall (run : run_t) (t : rng),
    size_ok run ->
    maxFileSz (mutate (global run)) + 8 <= SSIZE_MAX ->
    maxFileSz (mutate (global run)) <= Z.of_nat (length (dynamicFile run)) ->
    printable_below (dynamicFileSz run) (dynamicFile run) ->
    (forall op,
       In op [mangle_Bit; mangle_Bytes; mangle_Magic; mangle_IncByte;
              mangle_DecByte; mangle_NegByte; mangle_AddSub; mangle_MemMove;
              mangle_MemSet; mangle_Random; mangle_CloneByte; mangle_Shrink;
              mangle_ASCIIVal] ->
       (op = mangle_Magic ->
        dynamicFileSz run + 7 <= Z.of_nat (length (dynamicFile run))) ->
       printable_below (dynamicFileSz (fst (op run true t)))
         (dynamicFile (fst (op run true t)))) /\
    printable_below (dynamicFileSz (fst (mangle_Resize run true t)))
      (dynamicFile (fst (mangle_Resize run true t))).
Proof.
  intros run t Hok Hmax Hcap Hb.
  assert (Hmax' : maxFileSz (mutate (global run)) <= SSIZE_MAX) by lia.
  assert (Hcap' : dynamicFileSz run <= Z.of_nat (length (dynamicFile run)))
    by (unfold size_ok in Hok; lia).
  split; [|apply printable_below_Resize; assumption].
  intros op Hin _. cbn [In] in Hin.
  repeat match goal with
         | H : _ \/ _ |- _ => destruct H as [H | H]
         end; try contradiction; subst op.
  - apply keeps_printable_Bit; assumption.
  - apply keeps_printable_Bytes; assumption.
  - apply keeps_printable_Magic; assumption.
  - apply keeps_printable_IncByte; assumption.
  - apply keeps_printable_DecByte; assumption.
  - apply keeps_printable_NegByte; assumption.
  - apply keeps_printable_AddSub; assumption.
  - apply keeps_printable_MemMove; assumption.
  - apply keeps_printable_MemSet; assumption.
  - apply keeps_printable_Random; assumption.
  - apply keeps_printable_CloneByte; assumption.
  - apply keeps_printable_Shrink; assumption.
  - apply keeps_printable_ASCIIVal; assumption.
Qed.

(** [mangle_Magic] at offset 1 of four printable bytes, in a store of
    twelve whose other bytes are zero: the conversion stays inside the
    store. *)
Lemma printable_without_dictionary_witness :
  printable_below
    (dynamicFileSz
       (fst (mangle_Magic
               (run0 [65; 66; 67; 68; 0; 0; 0; 0; 0; 0; 0; 0] 4 12 [] true)
               true [1; 95])))
    (dynamicFile
       (fst (mangle_Magic
               (run0 [65; 66; 67; 68; 0; 0; 0; 0; 0; 0; 0; 0] 4 12 [] true)
               true [1; 95]))).
Proof.
  refine (proj1 (printable_without_dictionary
                   (run0 [65; 66; 67; 68; 0; 0; 0; 0; 0; 0; 0; 0] 4 12 [] true)
                   [1; 95] _ _ _ _) mangle_Magic _ _).
  - unfold size_ok. simpl. lia.
  - unfold SSIZE_MAX. simpl. lia.
  - simpl. lia.
  - intros i Hi. simpl in Hi.
    assert (Hc : i = 0 \/ i = 1 \/ i = 2 \/ i = 3) by lia.
    unfold printable_byte.
    destruct Hc as [Hc | [Hc | [Hc | Hc]]]; subst i; vm_compute;
      split; discriminate.
  - simpl. right. right. left. reflexivity.
  - intros _. simpl. lia.
Defined.

(** X1: in printable mode, on a buffer whose bytes below the size are
    printable and with a dictionary whose entries are printable,
    [mangle_Dictionary] leaves the bytes below the size printable;
    [mangle_DictionaryInsert], [mangle_Expand] and [mangle_Inflate] leave
    printable every byte below the new size but the last one, which
    [mangle_Inflate] does not write when the buffer grows (all of them when
    the size is unchanged).  That last byte can fail to be printable: from
    [A B C] in a store whose other bytes are zero, [mangle_Expand] ends on
    five bytes of which the last is zero. *)
Theorem printable_dictionary_and_growth :
  forall (run : run_t) (t : rng),
    size_ok run ->
    maxFileSz (mutate (global run)) <= SSIZE_MAX ->
    maxFileSz (mutate (global run)) <= Z.of_nat (length (dynamicFile run)) ->
    printable_below (dynamicFileSz run) (dynamicFile run) ->
    printable_dict run ->
    printable_below (dynamicFileSz (fst (mangle_Dictionary run true t)))
      (dynamicFile (fst (mangle_Dictionary run true t))) /\
    printable_but_last run (fst (mangle_DictionaryInsert run true t)) /\
    printable_but_last run (fst (mangle_Expand run true t)) /\
    (forall off n, 0 <= off < dynamicFileSz run -> 0 <= n ->
       printable_but_last run (fst (mangle_Inflate run off n true t))) /\
    (let run1 := run0 [65; 66; 67; 0; 0; 0] 3 6 [] true in
     let run1' := fst (mangle_Expand run1 true [1; 1; 56; 57]) in
     printable_below (dynamicFileSz run1) (dynamicFile run1) /\
     dynamicFileSz run1' = 5 /\
     load (dynamicFile run1') 4 = 0).
Proof.
  intros run t Hok Hmax Hcap Hb Hd.
  assert (Hcap' : dynamicFileSz run <= Z.of_nat (length (dynamicFile run)))
    by (unfold size_ok in Hok; lia).
  cbv zeta.
  repeat match goal with
         | |- _ /\ _ => split
         end.
  - destruct (same_frame_Dictionary run true t) as (_ & E & _). rewrite E.
    apply printable_below_Dictionary; assumption.
  - apply printable_but_last_DictionaryInsert; assumption.
  - apply printable_but_last_Expand; assumption.
  - intros off n Hoff Hn. apply printable_but_last_Inflate; assumption.
  - intros i Hi. simpl in Hi.
    assert (Hc : i = 0 \/ i = 1 \/ i = 2) by lia.
    unfold printable_byte.
    destruct Hc as [Hc | [Hc | Hc]]; subst i; vm_compute;
      split; discriminate.
  - vm_compute. reflexivity.
  - vm_compute. reflexivity.
Qed.

(** The entry [x y] inserted at offset 1 of [A B C], in a store of six
    bytes. *)
Lemma printable_dictionary_and_growth_witness :
  printable_but_last
    (run0 [65; 66; 67; 0; 0; 0] 3 6 [mk_strings [120; 121]] true)
    (fst (mangle_DictionaryInsert
            (run0 [65; 66; 67; 0; 0; 0] 3 6 [mk_strings [120; 121]] true)
            true [0; 1; 56; 57])).
Proof.
  refine (proj1 (proj2 (printable_dictionary_and_growth
                          (run0 [65; 66; 67; 0; 0; 0] 3 6
                             [mk_strings [120; 121]] true)
                          [0; 1; 56; 57] _ _ _ _ _))).
  - unfold size_ok. simpl. lia.
  - unfold SSIZE_MAX. simpl. lia.
  - simpl. lia.
  - intros i Hi. simpl in Hi.
    assert (Hc : i = 0 \/ i = 1 \/ i = 2) by lia.
    unfold printable_byte.
    destruct Hc as [Hc | [Hc | Hc]]; subst i; vm_compute;
      split; discriminate.
  - unfold printable_dict, printable_byte. simpl.
    repeat constructor; lia.
Defined.
